(** * DMS core: a shallow embedding of the analysis engine and state manager

    The development follows [src/analysis/engine.py] and
    [src/core/state_manager.py], and the classes around them:
    [src/systems/personalization.py], [src/systems/dynamic.py],
    [src/systems/performance.py], the calibration manager of
    [src/io_handler/video_input.py] and the key handling of [src/app.py].

    Conventions.
    - Python floats (scores, weights, wall-clock seconds) are rationals [Q];
      arithmetic is exact and results are compared with [==].  Where the
      rounding of binary64 arithmetic matters, the fusion functions are
      repeated on the kernel's binary64 numbers ([Binary64]).
    - [time.time()] is not a function of the program state: every method that
      reads the clock takes the value(s) read as extra arguments, in the order
      in which the code reads them.
    - Python dictionaries keyed by integers or strings are finite maps
      ([gmap]); [collections.deque(maxlen=n)] is a list, oldest element first,
      together with the bounded [append] of the deque. *)

From Stdlib Require Import QArith Qabs Lqa.
From Stdlib Require PrimFloat.
From stdpp Require Import gmap strings list fin_maps.

Local Open Scope Q_scope.

(** ** Comparisons and [min]/[max] as Python evaluates them *)

Module Py.

(** [x > y] on floats. *)
Definition gt (x y : Q) : bool := negb (Qle_bool x y).

(** [x <= y] on floats. *)
Definition le (x y : Q) : bool := Qle_bool x y.

(** [x < y] on floats. *)
Definition lt (x y : Q) : bool := negb (Qle_bool y x).

(** [max(a, b)]: the first of the largest arguments. *)
Definition max (a b : Q) : Q := if gt b a then b else a.

(** [min(a, b)]: the first of the smallest arguments. *)
Definition min (a b : Q) : Q := if lt b a then b else a.

(** [d.get(key, default)] on an optional field. *)
Definition get {A} (field : option A) (default : A) : A :=
  match field with Some v => v | None => default end.

(** Truthiness of [d.get("available")]. *)
Definition truthy (field : option bool) : bool :=
  match field with Some b => b | None => false end.

End Py.

(** ** [collections.deque(maxlen=n)] *)

Module Deque.

(** [d.append(x)] on a deque created with [maxlen]: the element goes to the
    right end and, when the deque is full, elements leave from the left. *)
Definition append {A} (maxlen : nat) (d : list A) (x : A) : list A :=
  drop (length (d ++ [x]) - maxlen) (d ++ [x]).

(** Appending a batch, one element at a time. *)
Definition extend {A} (maxlen : nat) (d : list A) (xs : list A) : list A :=
  fold_left (append maxlen) xs d.

End Deque.

(** ** Enumerations of [core.definitions]

    The module [core.definitions] is imported by both source files.  The
    constructors below are the members the two files name; the last
    constructor of each type stands for any further member. *)

Inductive DriverState : Type :=
| SAFE
| FATIGUE_LOW
| FATIGUE_HIGH
| DISTRACTION_NORMAL
| DISTRACTION_DANGER
| MULTIPLE_RISK
| PHONE_USAGE
| MICROSLEEP
| EMOTIONAL_STRESS
| PREDICTIVE_WARNING
| OTHER_STATE (tag : nat).

Inductive AnalysisEvent : Type :=
| PHONE_USAGE_CONFIRMED
| MICROSLEEP_PREDICTED
| EMOTION_STRESS_DETECTED
| PREDICTIVE_RISK_HIGH
| FATIGUE_ACCUMULATION
| ATTENTION_DECLINE
| DISTRACTION_OBJECT_DETECTED
| NORMAL_BEHAVIOR
| OTHER_EVENT (tag : nat).

Inductive EmotionState : Type :=
| FATIGUE
| STRESS
| ANGER
| OTHER_EMOTION (tag : nat).

Module RiskLevel.
Inductive t : Type := SAFE | LOW | MEDIUM | HIGH | CRITICAL.
End RiskLevel.

#[global] Instance DriverState_eq_dec : EqDecision DriverState.
Proof. solve_decision. Defined.

#[global] Instance AnalysisEvent_eq_dec : EqDecision AnalysisEvent.
Proof. solve_decision. Defined.

#[global] Instance EmotionState_eq_dec : EqDecision EmotionState.
Proof. solve_decision. Defined.

(** A code for each state, so that states can key a dictionary. *)
Definition DriverState_code (s : DriverState) : nat :=
  match s with
  | SAFE => 0
  | FATIGUE_LOW => 1
  | FATIGUE_HIGH => 2
  | DISTRACTION_NORMAL => 3
  | DISTRACTION_DANGER => 4
  | MULTIPLE_RISK => 5
  | PHONE_USAGE => 6
  | MICROSLEEP => 7
  | EMOTIONAL_STRESS => 8
  | PREDICTIVE_WARNING => 9
  | OTHER_STATE tag => 10 + tag
  end.

Definition DriverState_of_code (n : nat) : DriverState :=
  match n with
  | 0 => SAFE
  | 1 => FATIGUE_LOW
  | 2 => FATIGUE_HIGH
  | 3 => DISTRACTION_NORMAL
  | 4 => DISTRACTION_DANGER
  | 5 => MULTIPLE_RISK
  | 6 => PHONE_USAGE
  | 7 => MICROSLEEP
  | 8 => EMOTIONAL_STRESS
  | 9 => PREDICTIVE_WARNING
  | S (S (S (S (S (S (S (S (S (S tag))))))))) => OTHER_STATE tag
  end%nat.

#[global] Instance DriverState_countable : Countable DriverState.
Proof.
  refine (inj_countable' DriverState_code DriverState_of_code _).
  intros []; reflexivity.
Defined.

(** ** [core/state_manager.py]: [EnhancedStateManager] *)

Module StateManager.

(** One entry of [state_history]. *)
Record TransitionRecord : Type := {
  timestamp : Q;
  from_state : DriverState;
  to_state : DriverState;
  trigger_event : AnalysisEvent
}.

Record t : Type := {
  current_state : DriverState;
  state_start_time : Q;
  state_history : list TransitionRecord
}.

(** Capacity of [state_history]. *)
Definition history_maxlen : nat := 100.

(** [__init__], with the clock reading it stores. *)
Definition init (now : Q) : t :=
  {| current_state := SAFE; state_start_time := now; state_history := [] |}.

(** The dictionary [immediate_transitions]. *)
Definition immediate_transitions (event : AnalysisEvent) : option DriverState :=
  match event with
  | PHONE_USAGE_CONFIRMED => Some PHONE_USAGE
  | MICROSLEEP_PREDICTED => Some MICROSLEEP
  | EMOTION_STRESS_DETECTED => Some EMOTIONAL_STRESS
  | PREDICTIVE_RISK_HIGH => Some PREDICTIVE_WARNING
  | _ => None
  end.

(** [_determine_enhanced_new_state]; [now] is the clock reading of its first
    line. *)
Definition _determine_enhanced_new_state
    (self : t) (event : AnalysisEvent) (now : Q) : DriverState :=
  let current_duration := now - state_start_time self in
  match immediate_transitions event with
  | Some target => target
  | None =>
    match event with
    | FATIGUE_ACCUMULATION =>
        if decide (current_state self = FATIGUE_LOW) then FATIGUE_HIGH
        else FATIGUE_LOW
    | ATTENTION_DECLINE =>
        if decide (current_state self = DISTRACTION_NORMAL)
        then DISTRACTION_DANGER
        else DISTRACTION_NORMAL
    | DISTRACTION_OBJECT_DETECTED =>
        if bool_decide (current_state self = FATIGUE_HIGH)
           || bool_decide (current_state self = EMOTIONAL_STRESS)
        then MULTIPLE_RISK
        else DISTRACTION_DANGER
    | NORMAL_BEHAVIOR =>
        if Py.gt current_duration 5 then SAFE else current_state self
    | _ => current_state self
    end
  end.

(** [handle_event].  The clock is read up to three times: [t_decide] inside
    [_determine_enhanced_new_state], [t_record] for the history entry and
    [t_restart] for the new [state_start_time]. *)
Definition handle_event
    (self : t) (event : AnalysisEvent) (t_decide t_record t_restart : Q) : t :=
  let new_state := _determine_enhanced_new_state self event t_decide in
  if decide (new_state = current_state self) then self
  else
    {| current_state := new_state;
       state_start_time := t_restart;
       state_history :=
         Deque.append history_maxlen (state_history self)
           {| timestamp := t_record;
              from_state := current_state self;
              to_state := new_state;
              trigger_event := event |} |}.

(** [get_current_state]. *)
Definition get_current_state (self : t) : DriverState := current_state self.

(** [get_state_duration]. *)
Definition get_state_duration (self : t) (now : Q) : Q :=
  now - state_start_time self.

(** The three clock readings of one [handle_event] call. *)
Record Readings : Type := { r_decide : Q; r_record : Q; r_restart : Q }.

(** The same event delivered once per element of [rs]. *)
Definition deliver_all (event : AnalysisEvent) (rs : list Readings) (self : t) : t :=
  fold_left
    (fun sm r => handle_event sm event (r_decide r) (r_record r) (r_restart r))
    rs self.

(** A run of [handle_event] calls, each with its event and its clock
    readings. *)
Definition deliver (input : list (AnalysisEvent * Readings)) (self : t) : t :=
  fold_left
    (fun sm er =>
       handle_event sm (fst er) (r_decide (snd er)) (r_record (snd er))
                    (r_restart (snd er)))
    input self.

(** The dictionary that [get_state_statistics] returns when the history is
    not empty. *)
Record Statistics : Type := {
  state_counts : gmap DriverState nat;
  current_duration : Q;
  total_transitions : nat
}.

(** The loop body of [get_state_statistics]:
    [state_counts[state] = state_counts.get(state, 0) + 1]. *)
Definition count_entry (counts : gmap DriverState nat) (entry : TransitionRecord)
    : gmap DriverState nat :=
  <[to_state entry := (default 0 (counts !! to_state entry) + 1)%nat]> counts.

(** [get_state_statistics]; [None] is the empty dictionary returned for an
    empty history, [now] the clock reading of [get_state_duration]. *)
Definition get_state_statistics (self : t) (now : Q) : option Statistics :=
  match state_history self with
  | [] => None
  | _ =>
    Some {| state_counts := fold_left count_entry (state_history self) ∅;
            current_duration := get_state_duration self now;
            total_transitions := length (state_history self) |}
  end.

(** The history is bounded, records only real changes, links each record to
    the next and ends in the current state. *)
Definition consistent (self : t) : Prop :=
  (length (state_history self) <= history_maxlen)%nat
  /\ (forall r, r ∈ state_history self -> from_state r <> to_state r)
  /\ (forall i r1 r2,
        state_history self !! i = Some r1 ->
        state_history self !! S i = Some r2 ->
        to_state r1 = from_state r2)
  /\ (forall r, last (state_history self) = Some r ->
                to_state r = current_state self)
  /\ (state_history self = [] -> current_state self = SAFE).

End StateManager.

(** ** [analysis/engine.py]: [CounterBasedAnalyzer] *)

Module Counter.

(** A [deque(maxlen=...)] of clock readings, oldest first. *)
Record EventLog : Type := { maxlen : nat; stamps : list Q }.

Definition log_append (d : EventLog) (x : Q) : EventLog :=
  {| maxlen := maxlen d; stamps := Deque.append (maxlen d) (stamps d) x |}.

(** [__init__]: the dictionary [event_buffers]. *)
Definition init : gmap string EventLog :=
  <["blinks" := {| maxlen := 300; stamps := [] |}]>
  (<["yawns" := {| maxlen := 100; stamps := [] |}]>
  (<["head_nods" := {| maxlen := 120; stamps := [] |}]>
  (<["gaze_deviations" := {| maxlen := 60; stamps := [] |}]> ∅))).

(** [add_event]; [now] is the clock reading that is appended. *)
Definition add_event
    (event_buffers : gmap string EventLog) (event_type : string) (now : Q)
    : gmap string EventLog :=
  match event_buffers !! event_type with
  | Some d => <[event_type := log_append d now]> event_buffers
  | None => event_buffers
  end.

(** [sum(1 for ts in buffer if now - ts <= window)]. *)
Definition count_recent (now window : Q) (buffer : list Q) : nat :=
  length (List.filter (fun ts => Py.le (now - ts) window) buffer).

(** The dictionary returned by [get_event_counts]. *)
Record EventCounts : Type := {
  blinks_1min : nat;
  yawns_5min : nat;
  head_nods_2min : nat;
  gaze_deviations_1min : nat
}.

(** [get_event_counts]; [None] is the [KeyError] of a missing buffer. *)
Definition get_event_counts
    (event_buffers : gmap string EventLog) (now : Q) : option EventCounts :=
  blinks ← event_buffers !! "blinks";
  yawns ← event_buffers !! "yawns";
  head_nods ← event_buffers !! "head_nods";
  gaze_deviations ← event_buffers !! "gaze_deviations";
  Some {| blinks_1min := count_recent now 60 (stamps blinks);
          yawns_5min := count_recent now 300 (stamps yawns);
          head_nods_2min := count_recent now 120 (stamps head_nods);
          gaze_deviations_1min := count_recent now 60 (stamps gaze_deviations) |}.

(** The four event types with the capacity of their buffer, the window that
    [get_event_counts] applies to them and the field that reports them. *)
Inductive tracked : string -> nat -> Q -> (EventCounts -> nat) -> Prop :=
| tracked_blinks : tracked "blinks" 300 60 blinks_1min
| tracked_yawns : tracked "yawns" 100 300 yawns_5min
| tracked_head_nods : tracked "head_nods" 120 120 head_nods_2min
| tracked_gaze_deviations : tracked "gaze_deviations" 60 60 gaze_deviations_1min.

(** A run of [add_event] calls, each with its clock reading. *)
Definition add_events
    (event_buffers : gmap string EventLog) (calls : list (string * Q))
    : gmap string EventLog :=
  fold_left (fun b c => add_event b (fst c) (snd c)) calls event_buffers.

(** The readings that a run of calls appends to the buffer of one type. *)
Definition stamps_for (event_type : string) (calls : list (string * Q)) : list Q :=
  map snd (List.filter (fun c => String.eqb (fst c) event_type) calls).

(** The buffers have the shape [__init__] gives them: the four keys, each
    with its capacity. *)
Definition well_formed (event_buffers : gmap string EventLog) : Prop :=
  forall event_type cap window field,
    tracked event_type cap window field ->
    exists d, event_buffers !! event_type = Some d /\ maxlen d = cap.

End Counter.

(** ** [analysis/engine.py]: [EnhancedMultiModalAnalyzer]

    The per-modality dictionaries are read with [d.get(key, default)], so a
    field is optional and every read names its default. *)

Module FaceData.
Record t : Type := {
  available : option bool;
  perclos : option Q;
  enhanced_ear : option Q;
  temporal_attention_score : option Q;
  gaze_deviation_score : option Q;
  attention_focus_score : option Q
}.
End FaceData.

Module PoseData.
Record t : Type := {
  available : option bool;
  head_nod_score : option Q;
  pose_complexity_score : option Q
}.
End PoseData.

Module HandData.
Record t : Type := {
  available : option bool;
  hands_on_wheel_confidence : option Q
}.
End HandData.

Module ObjectData.
Record t : Type := {
  available : option bool;
  distraction_score : option Q;
  phone_usage_score : option Q
}.
End ObjectData.

Module EmotionData.
Record t : Type := {
  available : option bool;
  emotion : option EmotionState;
  confidence : option Q;
  arousal : option Q;
  valence : option Q
}.

(** The empty dictionary [{}]. *)
Definition empty : t :=
  {| available := None; emotion := None; confidence := None;
     arousal := None; valence := None |}.
End EmotionData.

Module Fusion.

(** The dictionary [self.weights]. *)
Record Weights : Type := {
  face : Q;
  pose : Q;
  hand : Q;
  object : Q;
  emotion : Q
}.

(** [__init__]. *)
Definition init : Weights :=
  {| face := 35 # 100; pose := 25 # 100; hand := 20 # 100;
     object := 10 # 100; emotion := 10 # 100 |}.

(** The local [face_drowsiness]. *)
Definition face_drowsiness (face_data : FaceData.t) : Q :=
  Py.get (FaceData.perclos face_data) 0 * (4 # 10)
  + Py.get (FaceData.enhanced_ear face_data) 0 * (3 # 10)
  + Py.get (FaceData.temporal_attention_score face_data) 0 * (3 # 10).

(** The local [pose_drowsiness]. *)
Definition pose_drowsiness (pose_data : PoseData.t) : Q :=
  Py.get (PoseData.head_nod_score pose_data) 0.

(** The local [emotion_fatigue]. *)
Definition emotion_fatigue (emotion_data : EmotionData.t) : Q :=
  if bool_decide (EmotionData.emotion emotion_data = Some FATIGUE)
  then Py.get (EmotionData.confidence emotion_data) 0
  else if Py.lt (Py.get (EmotionData.arousal emotion_data) (5 # 10)) (3 # 10)
  then 1 - Py.get (EmotionData.arousal emotion_data) (5 # 10)
  else 0.

(** [fuse_drowsiness_signals], in exact arithmetic;
    [Binary64.fuse_drowsiness_signals] is the same function with the
    rounding of the code. *)
Definition fuse_drowsiness_signals
    (weights : Weights) (face_data : FaceData.t) (pose_data : PoseData.t)
    (emotion_data : EmotionData.t) : Q :=
  let '(score, total_weight) := (0, 0) in
  let '(score, total_weight) :=
    if Py.truthy (FaceData.available face_data)
    then (score + face_drowsiness face_data * face weights,
          total_weight + face weights)
    else (score, total_weight) in
  let '(score, total_weight) :=
    if Py.truthy (PoseData.available pose_data)
    then (score + pose_drowsiness pose_data * pose weights,
          total_weight + pose weights)
    else (score, total_weight) in
  let '(score, total_weight) :=
    if Py.truthy (EmotionData.available emotion_data)
    then (score + emotion_fatigue emotion_data * emotion weights,
          total_weight + emotion weights)
    else (score, total_weight) in
  if Py.gt total_weight 0 then score / total_weight else 0.

(** The local [face_distraction]. *)
Definition face_distraction (face_data : FaceData.t) : Q :=
  let gaze_score := Py.get (FaceData.gaze_deviation_score face_data) 0 in
  let attention_score :=
    1 - Py.get (FaceData.attention_focus_score face_data) 1 in
  Py.max gaze_score attention_score.

(** The local [hand_distraction]. *)
Definition hand_distraction (hand_data : HandData.t) : Q :=
  1 - Py.get (HandData.hands_on_wheel_confidence hand_data) 1.

(** The local [object_distraction]. *)
Definition object_distraction (object_data : ObjectData.t) : Q :=
  Py.get (ObjectData.distraction_score object_data) 0.

(** The local [emotion_distraction]. *)
Definition emotion_distraction (emotion_data : EmotionData.t) : Q :=
  if bool_decide (EmotionData.emotion emotion_data = Some STRESS)
     || bool_decide (EmotionData.emotion emotion_data = Some ANGER)
  then Py.get (EmotionData.confidence emotion_data) 0
  else 0.

(** [fuse_distraction_signals], in exact arithmetic;
    [Binary64.fuse_distraction_signals] is the same function with the
    rounding of the code. *)
Definition fuse_distraction_signals
    (weights : Weights) (face_data : FaceData.t) (hand_data : HandData.t)
    (object_data : ObjectData.t) (emotion_data : EmotionData.t) : Q :=
  let '(score, total_weight) := (0, 0) in
  let '(score, total_weight) :=
    if Py.truthy (FaceData.available face_data)
    then (score + face_distraction face_data * face weights,
          total_weight + face weights)
    else (score, total_weight) in
  let '(score, total_weight) :=
    if Py.truthy (HandData.available hand_data)
    then (score + hand_distraction hand_data * hand weights,
          total_weight + hand weights)
    else (score, total_weight) in
  let '(score, total_weight) :=
    if Py.truthy (ObjectData.available object_data)
    then (score + object_distraction object_data * object weights,
          total_weight + object weights)
    else (score, total_weight) in
  let '(score, total_weight) :=
    if Py.truthy (EmotionData.available emotion_data)
    then (score + emotion_distraction emotion_data * emotion weights,
          total_weight + emotion weights)
    else (score, total_weight) in
  if Py.gt total_weight 0 then score / total_weight else 0.

End Fusion.

(** ** [analysis/engine.py]: the fusion and risk steps of [EnhancedAnalysisEngine] *)

Inductive GazeZone : Type :=
| FRONT
| REARVIEW_MIRROR
| LEFT_SIDE_MIRROR
| RIGHT_SIDE_MIRROR
| INSTRUMENT_CLUSTER
| CENTER_STACK
| FLOOR
| ROOF
| PASSENGER
| DRIVER_WINDOW
| BLIND_SPOT_LEFT
| OTHER_ZONE (tag : nat).

(** The fields of [AdvancedMetrics] that the fusion and risk steps read or
    write. *)
Module Metrics.
Record t : Type := {
  perclos : Q;
  enhanced_ear : Q;
  temporal_attention_score : Q;
  pose_complexity_score : Q;
  distraction_objects : list string;
  phone_detected : bool;
  emotion_state : EmotionState;
  emotion_confidence : Q;
  arousal_level : Q;
  valence_level : Q;
  head_yaw : Q;
  head_roll : Q;
  gaze_zone_duration : Q;
  fatigue_risk_score : Q;
  distraction_risk_score : Q;
  attention_focus_score : Q;
  predictive_risk_score : Q
}.
End Metrics.

(** One element of [latest_results["hand_positions"]], read with [hand.get]. *)
Module HandPosition.
Record t : Type := { x : option Q; y : option Q }.

(** A hand with both coordinates, and one with neither. *)
Definition located (h : t) : Prop := is_Some (x h) /\ is_Some (y h).

Definition unlocated (h : t) : Prop := x h = None /\ y h = None.

End HandPosition.

(** The dictionary [latest_results]: which detector results are stored, and
    the wrist positions. *)
Module LatestResults.
Record t : Type := {
  face : option nat;
  pose : option nat;
  hand : option nat;
  object : option nat;
  hand_positions : option (list HandPosition.t)
}.
End LatestResults.

(** What the gaze classifier of [analysis.gaze] answers during one cycle. *)
Module GazeClassifier.
Record t : Type := {
  get_gaze_stability : Q;
  get_attention_focus_score : Q
}.
End GazeClassifier.

(** What [predictive_safety.predict_risk] of [analysis.prediction] returns. *)
Module Prediction.
Record t : Type := {
  risk_probability : Q;
  alert_level : string
}.
End Prediction.

(** The three scores that [_analyze_blendshapes] writes into the metrics. *)
Module BlendshapeScores.
Record t : Type := {
  yawn_score : Q;
  left_eye_closure : Q;
  right_eye_closure : Q
}.
End BlendshapeScores.

Module Engine.

Record t : Type := {
  latest_results : LatestResults.t;
  metrics : Metrics.t;
  counter_analyzer : gmap string Counter.EventLog;
  gaze_classifier : GazeClassifier.t;
  current_gaze_zone : GazeZone;
  multimodal_analyzer : Fusion.Weights
}.

(** The dictionary [zone_weights], read with default [0.5]. *)
Definition zone_weights (zone : GazeZone) : Q :=
  match zone with
  | FRONT => 0
  | REARVIEW_MIRROR => 2 # 10
  | LEFT_SIDE_MIRROR => 2 # 10
  | RIGHT_SIDE_MIRROR => 2 # 10
  | INSTRUMENT_CLUSTER => 1 # 10
  | CENTER_STACK => 4 # 10
  | FLOOR => 8 # 10
  | ROOF => 6 # 10
  | PASSENGER => 7 # 10
  | DRIVER_WINDOW => 5 # 10
  | BLIND_SPOT_LEFT => 9 # 10
  | OTHER_ZONE _ => 5 # 10
  end.

(** [_calculate_enhanced_gaze_deviation_score]. *)
Definition _calculate_enhanced_gaze_deviation_score (self : t) : Q :=
  let m := metrics self in
  let base_score :=
    if Py.gt (Qabs (Metrics.head_yaw m)) 60
    then Py.min 1 ((5 # 10) + Metrics.gaze_zone_duration m / 2)
    else 0 in
  let gaze_stability := GazeClassifier.get_gaze_stability (gaze_classifier self) in
  let instability_penalty := (1 - gaze_stability) * (3 # 10) in
  let zone_weight := zone_weights (current_gaze_zone self) in
  let duration_factor := Py.min 1 (Metrics.gaze_zone_duration m / 3) in
  let final_score :=
    Py.max base_score (zone_weight * duration_factor) + instability_penalty in
  Py.min 1 final_score.

(** [_calculate_hands_on_wheel_confidence]. *)
Definition _calculate_hands_on_wheel_confidence (self : t) : Q :=
  let hand_positions :=
    Py.get (LatestResults.hand_positions (latest_results self)) [] in
  match hand_positions with
  | [] => 0
  | _ =>
    let on_wheel (hand : HandPosition.t) : bool :=
      let x := Py.get (HandPosition.x hand) (5 # 10) in
      let y := Py.get (HandPosition.y hand) (5 # 10) in
      Py.le (3 # 10) x && Py.le x (7 # 10)
      && Py.le (4 # 10) y && Py.le y (8 # 10) in
    let hands_on_wheel := length (List.filter on_wheel hand_positions) in
    inject_Z (Z.of_nat hands_on_wheel) / 2
  end.

(** The dictionaries that [_perform_multimodal_fusion_analysis] builds. *)
Definition face_data (self : t) : FaceData.t :=
  {| FaceData.available :=
       Some (bool_decide (is_Some (LatestResults.face (latest_results self))));
     FaceData.perclos := Some (Metrics.perclos (metrics self));
     FaceData.enhanced_ear := Some (Metrics.enhanced_ear (metrics self));
     FaceData.temporal_attention_score :=
       Some (Metrics.temporal_attention_score (metrics self));
     FaceData.gaze_deviation_score :=
       Some (_calculate_enhanced_gaze_deviation_score self);
     FaceData.attention_focus_score :=
       Some (GazeClassifier.get_attention_focus_score (gaze_classifier self)) |}.

Definition pose_data (self : t) (counts : Counter.EventCounts) : PoseData.t :=
  {| PoseData.available :=
       Some (bool_decide (is_Some (LatestResults.pose (latest_results self))));
     PoseData.head_nod_score :=
       Some (Py.min 1
               (inject_Z (Z.of_nat (Counter.head_nods_2min counts)) / 5));
     PoseData.pose_complexity_score :=
       Some (Metrics.pose_complexity_score (metrics self)) |}.

Definition hand_data (self : t) : HandData.t :=
  {| HandData.available :=
       Some (bool_decide (is_Some (LatestResults.hand (latest_results self))));
     HandData.hands_on_wheel_confidence :=
       Some (_calculate_hands_on_wheel_confidence self) |}.

Definition object_data (self : t) : ObjectData.t :=
  {| ObjectData.available :=
       Some (bool_decide (is_Some (LatestResults.object (latest_results self))));
     ObjectData.distraction_score :=
       Some (inject_Z (Z.of_nat
               (length (Metrics.distraction_objects (metrics self)))) / 5);
     ObjectData.phone_usage_score :=
       Some (if Metrics.phone_detected (metrics self) then 1 else 0) |}.

Definition emotion_data (self : t) : EmotionData.t :=
  {| EmotionData.available :=
       Some (Py.gt (Metrics.emotion_confidence (metrics self)) (5 # 10));
     EmotionData.emotion := Some (Metrics.emotion_state (metrics self));
     EmotionData.confidence := Some (Metrics.emotion_confidence (metrics self));
     EmotionData.arousal := Some (Metrics.arousal_level (metrics self));
     EmotionData.valence := Some (Metrics.valence_level (metrics self)) |}.

(** Writing the three results into [self.metrics]. *)
Definition store_fusion (m : Metrics.t) (fatigue distraction focus : Q) : Metrics.t :=
  {| Metrics.perclos := Metrics.perclos m;
     Metrics.enhanced_ear := Metrics.enhanced_ear m;
     Metrics.temporal_attention_score := Metrics.temporal_attention_score m;
     Metrics.pose_complexity_score := Metrics.pose_complexity_score m;
     Metrics.distraction_objects := Metrics.distraction_objects m;
     Metrics.phone_detected := Metrics.phone_detected m;
     Metrics.emotion_state := Metrics.emotion_state m;
     Metrics.emotion_confidence := Metrics.emotion_confidence m;
     Metrics.arousal_level := Metrics.arousal_level m;
     Metrics.valence_level := Metrics.valence_level m;
     Metrics.head_yaw := Metrics.head_yaw m;
     Metrics.head_roll := Metrics.head_roll m;
     Metrics.gaze_zone_duration := Metrics.gaze_zone_duration m;
     Metrics.fatigue_risk_score := fatigue;
     Metrics.distraction_risk_score := distraction;
     Metrics.attention_focus_score := focus;
     Metrics.predictive_risk_score := Metrics.predictive_risk_score m |}.

(** [_perform_multimodal_fusion_analysis]; [now] is the clock reading inside
    [get_event_counts], and [None] is the [KeyError] it can raise. *)
Definition _perform_multimodal_fusion_analysis (self : t) (now : Q) : option t :=
  counts ← Counter.get_event_counts (counter_analyzer self) now;
  let face_data := face_data self in
  let pose_data := pose_data self counts in
  let hand_data := hand_data self in
  let object_data := object_data self in
  let emotion_data := emotion_data self in
  let fatigue :=
    Fusion.fuse_drowsiness_signals (multimodal_analyzer self)
      face_data pose_data emotion_data in
  let distraction :=
    Fusion.fuse_distraction_signals (multimodal_analyzer self)
      face_data hand_data object_data emotion_data in
  Some {| latest_results := latest_results self;
          metrics :=
            store_fusion (metrics self) fatigue distraction
              (Py.get (FaceData.attention_focus_score face_data) 0);
          counter_analyzer := counter_analyzer self;
          gaze_classifier := gaze_classifier self;
          current_gaze_zone := current_gaze_zone self;
          multimodal_analyzer := multimodal_analyzer self |}.

(** The value of [combined_risk] when the threshold checks of
    [_determine_enhanced_overall_risk] begin.  Sums and products are exact
    here; the code rounds each of them to binary64, so a value that is
    exactly a threshold here can fall just beside it there. *)
Definition combined_risk (m : Metrics.t) : Q :=
  let combined_risk :=
    Py.max (Metrics.fatigue_risk_score m) (Metrics.distraction_risk_score m) in
  let predictive_weight := 3 # 10 in
  let combined_risk :=
    combined_risk * (1 - predictive_weight)
    + Metrics.predictive_risk_score m * predictive_weight in
  let combined_risk :=
    if bool_decide (Metrics.emotion_state m = STRESS)
       && Py.gt (Metrics.emotion_confidence m) (7 # 10)
    then Py.min 1 (combined_risk + (2 # 10))
    else combined_risk in
  let combined_risk :=
    if Py.gt (Metrics.pose_complexity_score m) (7 # 10)
    then Py.min 1 (combined_risk + (1 # 10))
    else combined_risk in
  let combined_risk :=
    if Py.gt (Qabs (Metrics.head_roll m)) 25
       && Py.gt (Metrics.gaze_zone_duration m) 1
    then Py.max combined_risk (7 # 10)
    else combined_risk in
  combined_risk.

(** The threshold checks that end [_determine_enhanced_overall_risk]. *)
Definition risk_level_of (combined_risk : Q) : RiskLevel.t :=
  if Py.gt combined_risk (8 # 10) then RiskLevel.CRITICAL
  else if Py.gt combined_risk (6 # 10) then RiskLevel.HIGH
  else if Py.gt combined_risk (4 # 10) then RiskLevel.MEDIUM
  else if Py.gt combined_risk (2 # 10) then RiskLevel.LOW
  else RiskLevel.SAFE.

(** Metrics in which nothing but the three risk scores, all equal to [c],
    bears on the combined risk. *)
Definition metrics_with_risk (c : Q) : Metrics.t :=
  {| Metrics.perclos := 0; Metrics.enhanced_ear := 0;
     Metrics.temporal_attention_score := 0;
     Metrics.pose_complexity_score := 0;
     Metrics.distraction_objects := [];
     Metrics.phone_detected := false;
     Metrics.emotion_state := OTHER_EMOTION 0;
     Metrics.emotion_confidence := 0;
     Metrics.arousal_level := 0; Metrics.valence_level := 0;
     Metrics.head_yaw := 0; Metrics.head_roll := 0;
     Metrics.gaze_zone_duration := 0;
     Metrics.fatigue_risk_score := c;
     Metrics.distraction_risk_score := c;
     Metrics.attention_focus_score := 0;
     Metrics.predictive_risk_score := c |}.

(** [_determine_enhanced_overall_risk]. *)
Definition _determine_enhanced_overall_risk (self : t) : RiskLevel.t :=
  risk_level_of (combined_risk (metrics self)).

(** Writing [predictive_risk_score] into [self.metrics]. *)
Definition store_predictive (m : Metrics.t) (predictive : Q) : Metrics.t :=
  {| Metrics.perclos := Metrics.perclos m;
     Metrics.enhanced_ear := Metrics.enhanced_ear m;
     Metrics.temporal_attention_score := Metrics.temporal_attention_score m;
     Metrics.pose_complexity_score := Metrics.pose_complexity_score m;
     Metrics.distraction_objects := Metrics.distraction_objects m;
     Metrics.phone_detected := Metrics.phone_detected m;
     Metrics.emotion_state := Metrics.emotion_state m;
     Metrics.emotion_confidence := Metrics.emotion_confidence m;
     Metrics.arousal_level := Metrics.arousal_level m;
     Metrics.valence_level := Metrics.valence_level m;
     Metrics.head_yaw := Metrics.head_yaw m;
     Metrics.head_roll := Metrics.head_roll m;
     Metrics.gaze_zone_duration := Metrics.gaze_zone_duration m;
     Metrics.fatigue_risk_score := Metrics.fatigue_risk_score m;
     Metrics.distraction_risk_score := Metrics.distraction_risk_score m;
     Metrics.attention_focus_score := Metrics.attention_focus_score m;
     Metrics.predictive_risk_score := predictive |}.

(** [_run_predictive_analysis].  [prediction_result] is what [predict_risk]
    returned; the state manager is the one held in [self.state_manager]; [r]
    holds the clock readings of the [handle_event] call. *)
Definition _run_predictive_analysis
    (self : t) (state_manager : StateManager.t) (prediction_result : Prediction.t)
    (r : StateManager.Readings) : t * StateManager.t :=
  let self' :=
    {| latest_results := latest_results self;
       metrics :=
         store_predictive (metrics self)
           (Prediction.risk_probability prediction_result);
       counter_analyzer := counter_analyzer self;
       gaze_classifier := gaze_classifier self;
       current_gaze_zone := current_gaze_zone self;
       multimodal_analyzer := multimodal_analyzer self |} in
  let alert := Prediction.alert_level prediction_result in
  if String.eqb alert "high" || String.eqb alert "critical"
  then (self',
        StateManager.handle_event state_manager PREDICTIVE_RISK_HIGH
          (StateManager.r_decide r) (StateManager.r_record r)
          (StateManager.r_restart r))
  else (self', state_manager).

(** [_check_enhanced_state_transitions].  Each of the four statements that
    can call [handle_event] has its own clock readings. *)
Definition _check_enhanced_state_transitions
    (self : t) (state_manager : StateManager.t)
    (r_risk r_stress r_object r_normal : StateManager.Readings)
    : StateManager.t :=
  let m := metrics self in
  let handle sm event (r : StateManager.Readings) :=
    StateManager.handle_event sm event (StateManager.r_decide r)
      (StateManager.r_record r) (StateManager.r_restart r) in
  let sm := state_manager in
  let sm :=
    if Py.gt (Metrics.fatigue_risk_score m) (8 # 10)
    then handle sm FATIGUE_ACCUMULATION r_risk
    else if Py.gt (Metrics.distraction_risk_score m) (7 # 10)
    then handle sm ATTENTION_DECLINE r_risk
    else sm in
  let sm :=
    if bool_decide (Metrics.emotion_state m = STRESS)
       && Py.gt (Metrics.emotion_confidence m) (7 # 10)
    then handle sm EMOTION_STRESS_DETECTED r_stress
    else sm in
  let sm :=
    match Metrics.distraction_objects m with
    | [] => sm
    | _ => handle sm DISTRACTION_OBJECT_DETECTED r_object
    end in
  let sm :=
    if negb (Py.gt (Metrics.fatigue_risk_score m) (5 # 10)
             || Py.gt (Metrics.distraction_risk_score m) (5 # 10)
             || Py.gt (Metrics.predictive_risk_score m) (5 # 10))
    then handle sm NORMAL_BEHAVIOR r_normal
    else sm in
  sm.

(** The events that [_check_enhanced_state_transitions] delivers, in order,
    each with the readings of its statement. *)
Definition synthesized_events
    (m : Metrics.t) (r_risk r_stress r_object r_normal : StateManager.Readings)
    : list (AnalysisEvent * StateManager.Readings) :=
  (if Py.gt (Metrics.fatigue_risk_score m) (8 # 10)
   then [(FATIGUE_ACCUMULATION, r_risk)]
   else if Py.gt (Metrics.distraction_risk_score m) (7 # 10)
   then [(ATTENTION_DECLINE, r_risk)]
   else [])
  ++ (if bool_decide (Metrics.emotion_state m = STRESS)
         && Py.gt (Metrics.emotion_confidence m) (7 # 10)
      then [(EMOTION_STRESS_DETECTED, r_stress)]
      else [])
  ++ (match Metrics.distraction_objects m with
      | [] => []
      | _ => [(DISTRACTION_OBJECT_DETECTED, r_object)]
      end)
  ++ (if negb (Py.gt (Metrics.fatigue_risk_score m) (5 # 10)
               || Py.gt (Metrics.distraction_risk_score m) (5 # 10)
               || Py.gt (Metrics.predictive_risk_score m) (5 # 10))
      then [(NORMAL_BEHAVIOR, r_normal)]
      else []).

(** The metrics fields that [_update_driver_state] writes, and the state
    manager it leaves. *)
Record DriverStateUpdate : Type := {
  overall_risk_level : RiskLevel.t;
  state_manager_after : StateManager.t;
  event_counts : option Counter.EventCounts
}.

(** [_update_driver_state]; [now] is the clock reading inside
    [get_event_counts], whose [KeyError] is [None]. *)
Definition _update_driver_state
    (self : t) (state_manager : StateManager.t)
    (r_risk r_stress r_object r_normal : StateManager.Readings) (now : Q)
    : DriverStateUpdate :=
  {| overall_risk_level := _determine_enhanced_overall_risk self;
     state_manager_after :=
       _check_enhanced_state_transitions self state_manager
         r_risk r_stress r_object r_normal;
     event_counts := Counter.get_event_counts (counter_analyzer self) now |}.

(** The dictionary comprehension of [_analyze_blendshapes]: a later category
    of the same name replaces an earlier one. *)
Definition blendshape_dict (blendshapes_list : list (string * Q)) : gmap string Q :=
  fold_left (fun d cat => <[fst cat := snd cat]> d) blendshapes_list ∅.

(** [_analyze_blendshapes]: the scores written into the metrics and the
    counter after the calls to [add_event], whose clock readings are
    [t_yawn] and [t_blink]. *)
Definition _analyze_blendshapes
    (counter_analyzer : gmap string Counter.EventLog)
    (blendshapes_list : list (string * Q)) (t_yawn t_blink : Q)
    : BlendshapeScores.t * gmap string Counter.EventLog :=
  let blendshapes := blendshape_dict blendshapes_list in
  let yawn_score := default 0 (blendshapes !! "jawOpen") in
  let left_eye_closure := default 0 (blendshapes !! "eyeBlinkLeft") in
  let right_eye_closure := default 0 (blendshapes !! "eyeBlinkRight") in
  let counter :=
    if Py.gt yawn_score (6 # 10)
    then Counter.add_event counter_analyzer "yawns" t_yawn
    else counter_analyzer in
  let counter :=
    if Py.gt ((left_eye_closure + right_eye_closure) / 2) (8 # 10)
    then Counter.add_event counter "blinks" t_blink
    else counter in
  ({| BlendshapeScores.yawn_score := yawn_score;
      BlendshapeScores.left_eye_closure := left_eye_closure;
      BlendshapeScores.right_eye_closure := right_eye_closure |},
   counter).

(** One analysed frame: the blendshape categories and the two readings. *)
Record BlendshapeFrame : Type := {
  categories : list (string * Q);
  read_yawn : Q;
  read_blink : Q
}.

(** The counter after a run of [_analyze_blendshapes] calls. *)
Definition analyze_frames
    (counter_analyzer : gmap string Counter.EventLog)
    (frames : list BlendshapeFrame) : gmap string Counter.EventLog :=
  fold_left
    (fun counter frame =>
       snd (_analyze_blendshapes counter (categories frame)
                                 (read_yawn frame) (read_blink frame)))
    frames counter_analyzer.

End Engine.

(** ** [analysis/engine.py]: the synchronisation buffers of [EnhancedAnalysisEngine]

    [result_buffer] maps a timestamp to a dictionary object that the callbacks
    mutate in place and that [_try_queue_results] hands over to the output
    queue.  The dictionary objects therefore live in a store ([heap], indexed
    by object identity) and both [result_buffer] and the queue hold
    references into it. *)

Module SyncBuffer.

Section WithPayloads.

Context {Frame Result : Type}.

Record t : Type := {
  heap : list (gmap string Result);
  frame_buffer : gmap Z Frame;
  result_buffer : gmap Z nat;
  processed_data_queue : list (Frame * nat)
}.

(** Capacity of [processed_data_queue]. *)
Definition queue_maxlen : nat := 5.

(** The age in ms beyond which [_prune_buffers] drops a timestamp. *)
Definition horizon_ms : Z := 2000.

(** [__init__]. *)
Definition init : t :=
  {| heap := []; frame_buffer := ∅; result_buffer := ∅;
     processed_data_queue := [] |}.

(** [if timestamp_ms not in self.result_buffer: self.result_buffer[timestamp_ms] = {}]:
    a new dictionary object is created. *)
Definition ensure_entry (self : t) (timestamp_ms : Z) : t :=
  match result_buffer self !! timestamp_ms with
  | Some _ => self
  | None =>
    {| heap := heap self ++ [∅];
       frame_buffer := frame_buffer self;
       result_buffer := <[timestamp_ms := length (heap self)]> (result_buffer self);
       processed_data_queue := processed_data_queue self |}
  end.

(** [self.result_buffer[timestamp_ms][key] = result]: the object is updated
    in place. *)
Definition store (self : t) (timestamp_ms : Z) (key : string) (result : Result) : t :=
  match result_buffer self !! timestamp_ms with
  | Some l =>
    {| heap := alter (fun d => <[key := result]> d) l (heap self);
       frame_buffer := frame_buffer self;
       result_buffer := result_buffer self;
       processed_data_queue := processed_data_queue self |}
  | None => self
  end.

(** The dictionary currently stored under [result_buffer[timestamp_ms]]. *)
Definition pending (self : t) (timestamp_ms : Z) : option (gmap string Result) :=
  l ← result_buffer self !! timestamp_ms; heap self !! l.

(** The timestamps that the list comprehension of [_prune_buffers] selects. *)
Definition stale_keys (self : t) (current_time_ms : Z) : list Z :=
  List.filter (fun ts => (current_time_ms - ts >? horizon_ms)%Z)
              (map fst (map_to_list (frame_buffer self))).

(** One iteration of the loop of [_prune_buffers]. *)
Definition drop_timestamp (self : t) (ts : Z) : t :=
  {| heap := heap self;
     frame_buffer := delete ts (frame_buffer self);
     result_buffer := delete ts (result_buffer self);
     processed_data_queue := processed_data_queue self |}.

(** [_prune_buffers]; [current_time_ms] is [int(time.time() * 1000)]. *)
Definition _prune_buffers (self : t) (current_time_ms : Z) : t :=
  fold_left drop_timestamp (stale_keys self current_time_ms) self.

(** [_try_queue_results]. *)
Definition _try_queue_results (self : t) (timestamp_ms : Z) (current_time_ms : Z) : t :=
  match pending self timestamp_ms with
  | Some d =>
    if bool_decide (is_Some (d !! "face")) && bool_decide (is_Some (d !! "pose"))
    then
      let frame := frame_buffer self !! timestamp_ms in
      let results := result_buffer self !! timestamp_ms in
      let popped :=
        {| heap := heap self;
           frame_buffer := delete timestamp_ms (frame_buffer self);
           result_buffer := delete timestamp_ms (result_buffer self);
           processed_data_queue :=
             match frame, results with
             | Some f, Some l =>
                 Deque.append queue_maxlen (processed_data_queue self) (f, l)
             | _, _ => processed_data_queue self
             end |} in
      _prune_buffers popped current_time_ms
    else self
  | None => self
  end.

(** The four callbacks.  Only the face and pose callbacks read the clock
    (inside [_prune_buffers]). *)
Definition on_face_result
    (self : t) (result : Result) (timestamp_ms : Z) (current_time_ms : Z) : t :=
  _try_queue_results
    (store (ensure_entry self timestamp_ms) timestamp_ms "face" result)
    timestamp_ms current_time_ms.

Definition on_pose_result
    (self : t) (result : Result) (timestamp_ms : Z) (current_time_ms : Z) : t :=
  _try_queue_results
    (store (ensure_entry self timestamp_ms) timestamp_ms "pose" result)
    timestamp_ms current_time_ms.

Definition on_hand_result (self : t) (result : Result) (timestamp_ms : Z) : t :=
  store (ensure_entry self timestamp_ms) timestamp_ms "hand" result.

Definition on_object_result (self : t) (result : Result) (timestamp_ms : Z) : t :=
  store (ensure_entry self timestamp_ms) timestamp_ms "object" result.

(** [app.py]: the consumer takes the oldest bundle with [popleft()] when the
    queue is not empty. *)
Definition popleft (self : t) : option ((Frame * nat) * t) :=
  match processed_data_queue self with
  | [] => None
  | bundle :: rest =>
    Some (bundle,
          {| heap := heap self;
             frame_buffer := frame_buffer self;
             result_buffer := result_buffer self;
             processed_data_queue := rest |})
  end.

(** The queue as the consumer sees it: each bundle with the current contents
    of its dictionary. *)
Definition bundles (self : t) : list (Frame * option (gmap string Result)) :=
  map (fun b => (fst b, heap self !! snd b)) (processed_data_queue self).

(** Between [self] and [self'] one bundle was appended to the output queue:
    it pairs the frame [f] with a dictionary that no older bundle refers to
    and that now reads [entry]. *)
Definition emits (self self' : t) (f : Frame) (entry : gmap string Result) : Prop :=
  exists l,
    processed_data_queue self'
    = Deque.append queue_maxlen (processed_data_queue self) (f, l)
    /\ heap self' !! l = Some entry
    /\ forall b, b ∈ processed_data_queue self -> snd b <> l.

(** References are valid, no dictionary is stored under two timestamps, and
    no queued dictionary is still stored in [result_buffer]. *)
Definition well_formed (self : t) : Prop :=
  (forall ts l, result_buffer self !! ts = Some l -> (l < length (heap self))%nat)
  /\ (forall ts1 ts2 l,
        result_buffer self !! ts1 = Some l ->
        result_buffer self !! ts2 = Some l -> ts1 = ts2)
  /\ (forall b, b ∈ processed_data_queue self ->
        (snd b < length (heap self))%nat
        /\ forall ts, result_buffer self !! ts <> Some (snd b)).

(** No pending dictionary holds both a face and a pose entry. *)
Definition incomplete (self : t) : Prop :=
  forall ts d,
    pending self ts = Some d ->
    ~ (is_Some (d !! "face") /\ is_Some (d !! "pose")).

End WithPayloads.

Arguments t : clear implicits.

End SyncBuffer.

(** ** The identity cache behind [_cached_identify_driver]

    The method is wrapped by [cachetools.cached] over a
    [TTLCache(maxsize=5, ttl=300)]; the library is not part of the source
    files. *)

Module IdentityCache.

Section Cache.

Context {K V W : Type} `{EqDecision K}.

(** Modelled from the spec: a cache entry, with its key, its value and its
    insertion time. *)
Record CacheEntry : Type := { key : K; value : V; inserted : Q }.

(** Modelled from the spec: the time to live of an entry, in seconds. *)
Definition ttl : Q := 300.

(** Modelled from the spec: the number of entries the cache can hold. *)
Definition capacity : nat := 5.

(** Modelled from the spec: the entry stored for a key, if any. *)
Definition find_entry (k : K) (entries : list CacheEntry) : option CacheEntry :=
  List.find (fun e => bool_decide (key e = k)) entries.

(** Modelled from the spec: the cache operation [get_or_compute], whose
    implementation ([cachetools.cached] and [TTLCache]) is missing.  Entries
    are kept oldest first.  The cached value is returned when an entry for the
    key exists and its age is at most [ttl]; otherwise [compute_fn] runs, a
    new entry is inserted (replacing an entry of the same key) and the oldest
    entry is evicted if the capacity is exceeded.  [compute_fn] acts on a
    world [W], so that running it is observable. *)
Definition get_or_compute
    (entries : list CacheEntry) (k : K) (compute_fn : W -> V * W) (now : Q)
    (w : W) : V * list CacheEntry * W :=
  let miss :=
    let '(v, w') := compute_fn w in
    let inserted_entries :=
      List.filter (fun e => negb (bool_decide (key e = k))) entries
      ++ [{| key := k; value := v; inserted := now |}] in
    let kept :=
      if (capacity <? length inserted_entries)%nat
      then tail inserted_entries
      else inserted_entries in
    (v, kept, w') in
  match find_entry k entries with
  | Some e => if Py.le (now - inserted e) ttl then (value e, entries, w) else miss
  | None => miss
  end.

(** One lookup: the key, the computation offered, the clock reading. *)
Record Lookup : Type := {
  lookup_key : K;
  lookup_fn : W -> V * W;
  lookup_time : Q
}.

(** A run of lookups, threading the cache and the world. *)
Definition run (lookups : list Lookup) (entries : list CacheEntry) (w : W)
    : list CacheEntry * W :=
  fold_left
    (fun cw l =>
       let '(_, entries', w') :=
         get_or_compute (fst cw) (lookup_key l) (lookup_fn l) (lookup_time l)
                        (snd cw) in
       (entries', w'))
    lookups (entries, w).

(** The entry [e] of key [k] is in the cache, the only one of its key, with
    at most [n] entries newer than it. *)
Definition holds (k : K) (e : CacheEntry) (n : nat)
    (entries : list CacheEntry) : Prop :=
  exists pre post,
    entries = pre ++ e :: post
    /\ Forall (fun x => key x <> k) pre
    /\ Forall (fun x => key x <> k) post
    /\ (length post <= n)%nat.

(** Every entry of key [k] was inserted at time [time]. *)
Definition stamped (k : K) (time : Q) (entries : list CacheEntry) : Prop :=
  Forall (fun x => key x = k -> inserted x = time) entries.

End Cache.

Arguments CacheEntry : clear implicits.
Arguments Lookup : clear implicits.

End IdentityCache.

(** ** [systems/personalization.py]: [PersonalizationEngine] *)

Module Personalization.

Record t : Type := {
  user_id : string;
  adaptive_thresholds : gmap string Q
}.

(** The dictionary literal of [__init__]. *)
Definition default_thresholds : gmap string Q :=
  <["blink_rate_normal" := 20]>
  (<["yawn_threshold" := 6 # 10]>
  (<["perclos_critical" := 8 # 10]>
  (<["gaze_deviation_limit" := 3]>
  (<["ear_threshold" := 25 # 100]>
  (<["emotion_sensitivity" := 7 # 10]>
  (<["distraction_tolerance" := 5 # 10]> ∅)))))).

(** What [json.load] finds in a profile file: the value under "thresholds",
    if the key is there.  [save_profile] also writes the user id and a time
    stamp. *)
Record ProfileData : Type := {
  profile_user_id : string;
  profile_thresholds : option (gmap string Q);
  last_updated : string
}.

(** A file of the profile directory: a profile that parses, or content on
    which [open], [json.load] or the update raises. *)
Inductive FileContent : Type :=
| ProfileJson (data : ProfileData)
| Damaged.

(** [Path("profiles") / f"{user_id}_profile.json"]. *)
Definition profile_path (user_id : string) : string :=
  ("profiles/" ++ user_id ++ "_profile.json")%string.

(** [_load_user_profile] on the profile directory [files]: a missing file and
    a failing read leave the thresholds alone, otherwise
    [adaptive_thresholds.update(data.get("thresholds", {}))]. *)
Definition _load_user_profile (self : t) (files : gmap string FileContent) : t :=
  match files !! profile_path (user_id self) with
  | None => self
  | Some Damaged => self
  | Some (ProfileJson data) =>
    {| user_id := user_id self;
       adaptive_thresholds :=
         default ∅ (profile_thresholds data) ∪ adaptive_thresholds self |}
  end.

(** [__init__]. *)
Definition init (user_id : string) (files : gmap string FileContent) : t :=
  _load_user_profile
    {| user_id := user_id; adaptive_thresholds := default_thresholds |} files.

(** How the write of [save_profile] ends: done, failed before the file was
    opened, or failed after [open(..., "w")] had truncated it. *)
Inductive WriteOutcome : Type := Written | NotOpened | Truncated.

(** [save_profile], once the directory is there; [now_iso] is
    [datetime.now().isoformat()].  A failed write is logged and otherwise
    ignored. *)
Definition save_profile
    (self : t) (files : gmap string FileContent) (now_iso : string)
    (outcome : WriteOutcome) : gmap string FileContent :=
  let profile_data :=
    {| profile_user_id := user_id self;
       profile_thresholds := Some (adaptive_thresholds self);
       last_updated := now_iso |} in
  match outcome with
  | Written => <[profile_path (user_id self) := ProfileJson profile_data]> files
  | NotOpened => files
  | Truncated => <[profile_path (user_id self) := Damaged]> files
  end.

(** [update_threshold]. *)
Definition update_threshold (self : t) (threshold_name : string) (value : Q) : t :=
  match adaptive_thresholds self !! threshold_name with
  | Some _ =>
    {| user_id := user_id self;
       adaptive_thresholds := <[threshold_name := value]> (adaptive_thresholds self) |}
  | None => self
  end.

(** [get_threshold]. *)
Definition get_threshold (self : t) (threshold_name : string) : Q :=
  default (5 # 10) (adaptive_thresholds self !! threshold_name).

(** A run of [update_threshold] calls. *)
Definition update_all (self : t) (updates : list (string * Q)) : t :=
  fold_left (fun p u => update_threshold p (fst u) (snd u)) updates self.

End Personalization.

(** ** [systems/dynamic.py]: [DynamicAnalysisEngine] *)

Module Dynamic.

(** A value of [vehicle_objects]. *)
Record Box : Type := { x1 : Q; y1 : Q; x2 : Q; y2 : Q }.

Definition steering_wheel : Box :=
  {| x1 := 3 # 10; y1 := 4 # 10; x2 := 7 # 10; y2 := 8 # 10 |}.

(** The dictionary [vehicle_objects], in insertion order. *)
Definition vehicle_objects : list (string * Box) :=
  [("steering_wheel", steering_wheel);
   ("dashboard_area", {| x1 := 2 # 10; y1 := 0; x2 := 8 # 10; y2 := 3 # 10 |});
   ("gear_lever", {| x1 := 4 # 10; y1 := 7 # 10; x2 := 6 # 10; y2 := 9 # 10 |});
   ("side_mirror_left", {| x1 := 0; y1 := 2 # 10; x2 := 2 # 10; y2 := 4 # 10 |})].

(** The dictionaries [trigger_durations] and [last_detection_times]; their
    keys never change. *)
Record TriggerDurations : Type := { face_lost : Q; pose_lost : Q; hand_out : Q }.

Record DetectionTimes : Type := { face : Q; pose : Q; hand : Q }.

(** A value of [interaction_states]. *)
Record Interaction : Type := { start_time : Q; duration : Q }.

Record t : Type := {
  analysis_mode : string;
  trigger_durations : TriggerDurations;
  last_detection_times : DetectionTimes;
  interaction_states : gmap string Interaction
}.

(** [reset], with the three clock readings it stores. *)
Definition reset (t_face t_pose t_hand : Q) : t :=
  {| analysis_mode := "primary";
     trigger_durations := {| face_lost := 0; pose_lost := 0; hand_out := 0 |};
     last_detection_times :=
       {| face := t_face; pose := t_pose; hand := t_hand |};
     interaction_states := ∅ |}.

(** [_check_hands_in_bounds]; [None] for [hand_positions] is falsy as the
    empty list is. *)
Definition _check_hands_in_bounds (hand_positions : list HandPosition.t) : bool :=
  match hand_positions with
  | [] => false
  | _ =>
    existsb
      (fun h =>
         Py.le (x1 steering_wheel) (Py.get (HandPosition.x h) 0)
         && Py.le (Py.get (HandPosition.x h) 0) (x2 steering_wheel)
         && Py.le (y1 steering_wheel) (Py.get (HandPosition.y h) 0)
         && Py.le (Py.get (HandPosition.y h) 0) (y2 steering_wheel))
      hand_positions
  end.

(** [should_expand_analysis]; [current_time] is its clock reading. *)
Definition should_expand_analysis
    (self : t) (face_available pose_available : bool)
    (hand_positions : list HandPosition.t) (current_time : Q) : bool * t :=
  let times := last_detection_times self in
  let face_lost := if face_available then 0 else current_time - face times in
  let t_face := if face_available then current_time else face times in
  let pose_lost := if pose_available then 0 else current_time - pose times in
  let t_pose := if pose_available then current_time else pose times in
  let hands_in_bounds := _check_hands_in_bounds hand_positions in
  let hand_out := if hands_in_bounds then 0 else current_time - hand times in
  let t_hand := if hands_in_bounds then current_time else hand times in
  let expand_needed :=
    Py.gt face_lost 2 || Py.gt pose_lost 2 || Py.gt hand_out 1 in
  let mode :=
    if expand_needed && String.eqb (analysis_mode self) "primary"
    then "expanded"
    else if negb expand_needed && String.eqb (analysis_mode self) "expanded"
    then "primary"
    else analysis_mode self in
  (expand_needed,
   {| analysis_mode := mode;
      trigger_durations :=
        {| face_lost := face_lost; pose_lost := pose_lost; hand_out := hand_out |};
      last_detection_times :=
        {| face := t_face; pose := t_pose; hand := t_hand |};
      interaction_states := interaction_states self |}).

(** The two values that [analysis_mode] takes. *)
Definition two_modes (self : t) : Prop :=
  analysis_mode self = "primary" \/ analysis_mode self = "expanded".

(** One call of [should_expand_analysis]: its arguments and its reading. *)
Record Observation : Type := {
  face_seen : bool;
  pose_seen : bool;
  hands_seen : list HandPosition.t;
  observed_at : Q
}.

(** A run of [should_expand_analysis] calls. *)
Definition observe_all (self : t) (observations : list Observation) : t :=
  fold_left
    (fun d o =>
       snd (should_expand_analysis d (face_seen o) (pose_seen o) (hands_seen o)
                                   (observed_at o)))
    observations self.

End Dynamic.

(** ** [systems/performance.py]: [PerformanceOptimizer] *)

Module Performance.

(** An entry of [performance_history]. *)
Record Sample : Type := { timestamp : Q; processing_time : Q; fps : Q }.

(** A data row of the CSV file, after the header that [_init_csv] writes. *)
Record CsvRow : Type := {
  row_timestamp : Q;
  row_processing_time : Q;
  row_fps : Q;
  row_optimization_active : bool
}.

Record t : Type := {
  performance_history : list Sample;
  optimization_active : bool;
  target_fps : Q;
  min_fps : Q;
  total_frame_count : nat;
  _last_log_time : Q;
  _log_interval : Q;
  csv_rows : list CsvRow
}.

Definition history_maxlen : nat := 300.

(** [__init__]. *)
Definition init : t :=
  {| performance_history := [];
     optimization_active := false;
     target_fps := 30;
     min_fps := 15;
     total_frame_count := 0;
     _last_log_time := 0;
     _log_interval := 3 # 100;
     csv_rows := [] |}.

(** [np.mean] of a list that is not empty (on an empty list numpy answers
    nan; no caller passes one): the sum over the number of values. *)
Definition total (values : list Q) : Q := fold_right Qplus 0 values.

Definition mean (values : list Q) : Q :=
  total values / inject_Z (Z.of_nat (length values)).

(** [list(d)[-n:]]. *)
Definition last_n {A} (n : nat) (d : list A) : list A :=
  drop (length d - n) d.

Definition set_optimization_active (self : t) (active : bool) : t :=
  {| performance_history := performance_history self;
     optimization_active := active;
     target_fps := target_fps self;
     min_fps := min_fps self;
     total_frame_count := total_frame_count self;
     _last_log_time := _last_log_time self;
     _log_interval := _log_interval self;
     csv_rows := csv_rows self |}.

(** [_activate_optimization] and [_deactivate_optimization]. *)
Definition _activate_optimization (self : t) : t := set_optimization_active self true.

Definition _deactivate_optimization (self : t) : t := set_optimization_active self false.

(** [_check_performance_issues]. *)
Definition _check_performance_issues (self : t) : t :=
  let recent_performance := last_n 30 (performance_history self) in
  let avg_fps := mean (map fps recent_performance) in
  let avg_processing_time := mean (map processing_time recent_performance) in
  if Py.lt avg_fps (min_fps self) || Py.gt avg_processing_time 200 then
    if negb (optimization_active self) then _activate_optimization self else self
  else if Py.gt avg_fps (min_fps self * (12 # 10))
          && Py.lt avg_processing_time 100 then
    if optimization_active self then _deactivate_optimization self else self
  else self.

(** [_log_to_csv]; [csv_time] is its clock reading. *)
Definition _log_to_csv (self : t) (processing_time fps : Q) (csv_time : Q) : t :=
  {| performance_history := performance_history self;
     optimization_active := optimization_active self;
     target_fps := target_fps self;
     min_fps := min_fps self;
     total_frame_count := total_frame_count self;
     _last_log_time := _last_log_time self;
     _log_interval := _log_interval self;
     csv_rows :=
       csv_rows self
       ++ [{| row_timestamp := csv_time;
              row_processing_time := processing_time;
              row_fps := fps;
              row_optimization_active := optimization_active self |}] |}.

(** The three assignments of [log_performance] after its guard. *)
Definition store_sample
    (self : t) (processing_time fps : Q) (current_time sample_time : Q) : t :=
  {| performance_history :=
       Deque.append history_maxlen (performance_history self)
         {| timestamp := sample_time; processing_time := processing_time;
            fps := fps |};
     optimization_active := optimization_active self;
     target_fps := target_fps self;
     min_fps := min_fps self;
     total_frame_count := S (total_frame_count self);
     _last_log_time := current_time;
     _log_interval := _log_interval self;
     csv_rows := csv_rows self |}.

(** [log_performance]; [current_time], [sample_time] and [csv_time] are its
    three clock readings, the last one taken in [_log_to_csv]. *)
Definition log_performance
    (self : t) (processing_time fps : Q) (current_time sample_time csv_time : Q) : t :=
  if Py.lt (current_time - _last_log_time self) (_log_interval self) then self
  else
    let logged := store_sample self processing_time fps current_time sample_time in
    let checked :=
      if (30 <=? length (performance_history logged))%nat
      then _check_performance_issues logged
      else logged in
    _log_to_csv checked processing_time fps csv_time.

(** [_calculate_performance_score]. *)
Definition _calculate_performance_score (self : t) (performance_data : list Sample) : Q :=
  let avg_fps := mean (map fps performance_data) in
  let avg_time := mean (map processing_time performance_data) in
  let fps_score := Py.min 1 (avg_fps / target_fps self) in
  let time_score := Py.max 0 (1 - avg_time / 200) in
  (fps_score + time_score) / 2.

(** The dictionary of [get_optimization_status]; the short form has no
    "performance_score". *)
Record Status : Type := {
  active : bool;
  avg_fps : Q;
  avg_processing_time : Q;
  performance_score : option Q
}.

(** [get_optimization_status]. *)
Definition get_optimization_status (self : t) : Status :=
  if (length (performance_history self) <? 10)%nat then
    {| active := false; avg_fps := 0; avg_processing_time := 0;
       performance_score := None |}
  else
    let recent := last_n 10 (performance_history self) in
    {| active := optimization_active self;
       avg_fps := mean (map fps recent);
       avg_processing_time := mean (map processing_time recent);
       performance_score := Some (_calculate_performance_score self recent) |}.

(** The dictionary that [save_session_summary] writes. *)
Record Summary : Type := {
  session_duration : Q;
  total_frames : nat;
  summary_avg_processing_time : Q;
  summary_avg_fps : Q;
  optimization_activations : nat
}.

(** [save_session_summary]: the summary it writes, [None] when it returns
    without writing. *)
Definition save_session_summary (self : t) : option Summary :=
  match performance_history self with
  | [] => None
  | first :: _ =>
    let recent_data := performance_history self in
    Some {| session_duration :=
              timestamp (List.last recent_data first) - timestamp first;
            total_frames := total_frame_count self;
            summary_avg_processing_time := mean (map processing_time recent_data);
            summary_avg_fps := mean (map fps recent_data);
            optimization_activations :=
              length (List.filter (fun _ => optimization_active self) recent_data) |}
  end.

(** One call of [log_performance]: its arguments and its readings. *)
Record LogCall : Type := {
  call_processing_time : Q;
  call_fps : Q;
  call_time : Q;
  call_sample_time : Q;
  call_csv_time : Q
}.

Definition log_call (self : t) (c : LogCall) : t :=
  log_performance self (call_processing_time c) (call_fps c)
                  (call_time c) (call_sample_time c) (call_csv_time c).

(** A run of [log_performance] calls. *)
Definition log_all (self : t) (calls : list LogCall) : t :=
  fold_left log_call calls self.

(** What every run of [log_performance] calls keeps. *)
Definition consistent (self : t) : Prop :=
  length (performance_history self)
  = Nat.min (total_frame_count self) history_maxlen
  /\ length (csv_rows self) = total_frame_count self
  /\ (optimization_active self = true ->
      (30 <= length (performance_history self))%nat)
  /\ target_fps self = 30
  /\ min_fps self = 15.

End Performance.

(** ** [io_handler/video_input.py]: [MultiVideoCalibrationManager] *)

Module Calibration.

(** The dictionary of calibration data; the values stand for whatever the
    caller stores. *)
Definition Data : Type := gmap string Q.

Record t : Type := {
  is_same_driver : bool;
  shared_calibration_data : option Data
}.

(** [__init__]. *)
Definition init : t :=
  {| is_same_driver := true; shared_calibration_data := None |}.

(** [set_driver_continuity]. *)
Definition set_driver_continuity (self : t) (is_same : bool) : t :=
  {| is_same_driver := is_same;
     shared_calibration_data := shared_calibration_data self |}.

(** [should_skip_calibration]. *)
Definition should_skip_calibration (self : t) : bool :=
  is_same_driver self && bool_decide (is_Some (shared_calibration_data self)).

(** [save_calibration_data]. *)
Definition save_calibration_data (self : t) (data : Data) : t :=
  if is_same_driver self
  then {| is_same_driver := is_same_driver self;
          shared_calibration_data := Some data |}
  else self.

(** [get_shared_calibration_data]. *)
Definition get_shared_calibration_data (self : t) : option Data :=
  shared_calibration_data self.

(** A call of one of the two methods that change the manager. *)
Inductive Call : Type :=
| SetDriverContinuity (is_same : bool)
| SaveCalibrationData (data : Data).

Definition call (self : t) (c : Call) : t :=
  match c with
  | SetDriverContinuity is_same => set_driver_continuity self is_same
  | SaveCalibrationData data => save_calibration_data self data
  end.

Definition run (self : t) (calls : list Call) : t := fold_left call calls self.

End Calibration.

(** ** [analysis/engine.py]: the calibration mode set by [__init__] *)

Module EngineInit.

(** The attributes [calibration_mode] and [safe_zone]; [__init__] sets
    [safe_zone] only when it takes the shared data. *)
Record Calibrated : Type := {
  calibration_mode : bool;
  safe_zone : option Calibration.Data
}.

(** The end of [EnhancedAnalysisEngine.__init__]: [calibration_manager] is
    [None] or a manager, and a dictionary is truthy when it is not empty. *)
Definition init
    (calibration_manager : option Calibration.t) (enable_calibration : bool)
    : Calibrated :=
  let unchanged :=
    {| calibration_mode := enable_calibration; safe_zone := None |} in
  match calibration_manager with
  | Some manager =>
    if enable_calibration && Calibration.should_skip_calibration manager then
      match Calibration.get_shared_calibration_data manager with
      | Some shared_data =>
        if bool_decide (shared_data <> ∅)
        then {| calibration_mode := false; safe_zone := Some shared_data |}
        else unchanged
      | None => unchanged
      end
    else unchanged
  | None => unchanged
  end.

End EngineInit.

(** ** [app.py]: [DMSApp] *)

Module App.

Import Stdlib.Strings.Ascii.

(** The values that [main.py] passes as [input_source], and a tuple, which
    [__init__] also tests for. *)
Inductive InputSource : Type :=
| Webcam (device : Z)
| VideoFile (path : string)
| VideoList (paths : list string)
| VideoTuple (paths : list string).

(** The attributes of the application that the functions below read or
    write; a processed frame is named by its number. *)
Record t : Type := {
  input_source : InputSource;
  user_id : string;
  enable_calibration : bool;
  is_same_driver : bool;
  running : bool;
  paused : bool;
  current_processed_frame : option nat;
  performance_monitor : Performance.t;
  calibration_manager : Calibration.t
}.

(** [isinstance(input_source, (list, tuple)) and len(input_source) > 1]. *)
Definition several_videos (input_source : InputSource) : bool :=
  match input_source with
  | VideoList paths | VideoTuple paths => (1 <? length paths)%nat
  | Webcam _ | VideoFile _ => false
  end.

(** [__init__]. *)
Definition init
    (input_source : InputSource) (user_id : string)
    (enable_calibration is_same_driver : bool) : t :=
  {| input_source := input_source;
     user_id := user_id;
     enable_calibration := enable_calibration;
     is_same_driver := is_same_driver;
     running := false;
     paused := false;
     current_processed_frame := None;
     performance_monitor := Performance.init;
     calibration_manager :=
       if several_videos input_source
       then Calibration.set_driver_continuity Calibration.init is_same_driver
       else Calibration.init |}.

(** The calibration mode of the engine that [initialize] constructs. *)
Definition initialize_engine (self : t) : EngineInit.Calibrated :=
  EngineInit.init (Some (calibration_manager self)) (enable_calibration self).

(** [ord(c)]. *)
Definition ord (c : ascii) : Z := Z.of_N (N_of_ascii c).

(** What [_handle_keyboard_input] returns and does: its answer, the
    application afterwards, and the frame that [cv2.imwrite] stores. *)
Record KeyResult : Type := {
  continue : bool;
  app : t;
  saved_frame : option nat
}.

Definition set_paused (self : t) (paused : bool) : t :=
  {| input_source := input_source self;
     user_id := user_id self;
     enable_calibration := enable_calibration self;
     is_same_driver := is_same_driver self;
     running := running self;
     paused := paused;
     current_processed_frame := current_processed_frame self;
     performance_monitor := performance_monitor self;
     calibration_manager := calibration_manager self |}.

Definition set_performance_monitor (self : t) (monitor : Performance.t) : t :=
  {| input_source := input_source self;
     user_id := user_id self;
     enable_calibration := enable_calibration self;
     is_same_driver := is_same_driver self;
     running := running self;
     paused := paused self;
     current_processed_frame := current_processed_frame self;
     performance_monitor := monitor;
     calibration_manager := calibration_manager self |}.

(** [_handle_keyboard_input]; the key "s" stores the frame once the
    directory is there, and the key "i" only writes to the log. *)
Definition _handle_keyboard_input (self : t) (key : Z) : KeyResult :=
  let key := Z.land key 255 in
  if (key =? ord "q"%char)%Z || (key =? 27)%Z then
    {| continue := false; app := self; saved_frame := None |}
  else if (key =? ord " "%char)%Z then
    {| continue := true; app := set_paused self (negb (paused self));
       saved_frame := None |}
  else if (key =? ord "s"%char)%Z
          && bool_decide (is_Some (current_processed_frame self)) then
    {| continue := true; app := self;
       saved_frame := current_processed_frame self |}
  else if (key =? ord "r"%char)%Z then
    {| continue := true; app := set_performance_monitor self Performance.init;
       saved_frame := None |}
  else if (key =? ord "i"%char)%Z then
    {| continue := true; app := self; saved_frame := None |}
  else
    {| continue := true; app := self; saved_frame := None |}.

End App.

(** ** The fusion functions in binary64

    Python floats are IEEE 754 binary64 numbers, and Python's [+], [-], [*]
    and [/] round to nearest, ties to even, as the operations of the kernel's
    primitive floats do.  This module repeats the dictionaries and the two
    fusion functions of [EnhancedMultiModalAnalyzer] on these numbers, for
    the statements in which rounding matters.  A decimal literal stands, as
    in Python, for the nearest binary64 value. *)

Module Binary64.

Import PrimFloat.

#[local] Set Warnings "-inexact-float".

Local Open Scope float_scope.

(** [x > y] and [x < y]; both are False when an operand is not a number. *)
Definition gt (x y : float) : bool := ltb y x.

Definition lt (x y : float) : bool := ltb x y.

(** [max(a, b)]: the first of the largest arguments. *)
Definition max (a b : float) : float := if gt b a then b else a.

Module FaceData.
Record t : Type := {
  available : option bool;
  perclos : option float;
  enhanced_ear : option float;
  temporal_attention_score : option float;
  gaze_deviation_score : option float;
  attention_focus_score : option float
}.
End FaceData.

Module PoseData.
Record t : Type := {
  available : option bool;
  head_nod_score : option float;
  pose_complexity_score : option float
}.
End PoseData.

Module HandData.
Record t : Type := {
  available : option bool;
  hands_on_wheel_confidence : option float
}.
End HandData.

Module ObjectData.
Record t : Type := {
  available : option bool;
  distraction_score : option float;
  phone_usage_score : option float
}.
End ObjectData.

Module EmotionData.
Record t : Type := {
  available : option bool;
  emotion : option EmotionState;
  confidence : option float;
  arousal : option float;
  valence : option float
}.

(** The empty dictionary [{}]. *)
Definition empty : t :=
  {| available := None; emotion := None; confidence := None;
     arousal := None; valence := None |}.
End EmotionData.

(** The dictionary [self.weights]. *)
Record Weights : Type := {
  face : float;
  pose : float;
  hand : float;
  object : float;
  emotion : float
}.

(** [__init__]. *)
Definition init : Weights :=
  {| face := 0.35; pose := 0.25; hand := 0.20; object := 0.10;
     emotion := 0.10 |}.

(** The local [face_drowsiness]. *)
Definition face_drowsiness (face_data : FaceData.t) : float :=
  Py.get (FaceData.perclos face_data) 0 * 0.4
  + Py.get (FaceData.enhanced_ear face_data) 0 * 0.3
  + Py.get (FaceData.temporal_attention_score face_data) 0 * 0.3.

(** The local [pose_drowsiness]. *)
Definition pose_drowsiness (pose_data : PoseData.t) : float :=
  Py.get (PoseData.head_nod_score pose_data) 0.

(** The local [emotion_fatigue]. *)
Definition emotion_fatigue (emotion_data : EmotionData.t) : float :=
  if bool_decide (EmotionData.emotion emotion_data = Some FATIGUE)
  then Py.get (EmotionData.confidence emotion_data) 0
  else if lt (Py.get (EmotionData.arousal emotion_data) 0.5) 0.3
  then 1 - Py.get (EmotionData.arousal emotion_data) 0.5
  else 0.

(** [fuse_drowsiness_signals]. *)
Definition fuse_drowsiness_signals
    (weights : Weights) (face_data : FaceData.t) (pose_data : PoseData.t)
    (emotion_data : EmotionData.t) : float :=
  let '(score, total_weight) := (0, 0) in
  let '(score, total_weight) :=
    if Py.truthy (FaceData.available face_data)
    then (score + face_drowsiness face_data * face weights,
          total_weight + face weights)
    else (score, total_weight) in
  let '(score, total_weight) :=
    if Py.truthy (PoseData.available pose_data)
    then (score + pose_drowsiness pose_data * pose weights,
          total_weight + pose weights)
    else (score, total_weight) in
  let '(score, total_weight) :=
    if Py.truthy (EmotionData.available emotion_data)
    then (score + emotion_fatigue emotion_data * emotion weights,
          total_weight + emotion weights)
    else (score, total_weight) in
  if gt total_weight 0 then score / total_weight else 0.

(** The local [face_distraction]. *)
Definition face_distraction (face_data : FaceData.t) : float :=
  let gaze_score := Py.get (FaceData.gaze_deviation_score face_data) 0 in
  let attention_score :=
    1 - Py.get (FaceData.attention_focus_score face_data) 1 in
  max gaze_score attention_score.

(** The local [hand_distraction]. *)
Definition hand_distraction (hand_data : HandData.t) : float :=
  1 - Py.get (HandData.hands_on_wheel_confidence hand_data) 1.

(** The local [object_distraction]. *)
Definition object_distraction (object_data : ObjectData.t) : float :=
  Py.get (ObjectData.distraction_score object_data) 0.

(** The local [emotion_distraction]. *)
Definition emotion_distraction (emotion_data : EmotionData.t) : float :=
  if bool_decide (EmotionData.emotion emotion_data = Some STRESS)
     || bool_decide (EmotionData.emotion emotion_data = Some ANGER)
  then Py.get (EmotionData.confidence emotion_data) 0
  else 0.

(** [fuse_distraction_signals]. *)
Definition fuse_distraction_signals
    (weights : Weights) (face_data : FaceData.t) (hand_data : HandData.t)
    (object_data : ObjectData.t) (emotion_data : EmotionData.t) : float :=
  let '(score, total_weight) := (0, 0) in
  let '(score, total_weight) :=
    if Py.truthy (FaceData.available face_data)
    then (score + face_distraction face_data * face weights,
          total_weight + face weights)
    else (score, total_weight) in
  let '(score, total_weight) :=
    if Py.truthy (HandData.available hand_data)
    then (score + hand_distraction hand_data * hand weights,
          total_weight + hand weights)
    else (score, total_weight) in
  let '(score, total_weight) :=
    if Py.truthy (ObjectData.available object_data)
    then (score + object_distraction object_data * object weights,
          total_weight + object weights)
    else (score, total_weight) in
  let '(score, total_weight) :=
    if Py.truthy (EmotionData.available emotion_data)
    then (score + emotion_distraction emotion_data * emotion weights,
          total_weight + emotion weights)
    else (score, total_weight) in
  if gt total_weight 0 then score / total_weight else 0.

(** What both functions return when a single modality, of raw contribution
    [s] and weight [w], is available: the two sums start at [0.0]. *)
Definition single (s w : float) : float :=
  if gt (0 + w) 0 then (0 + s * w) / (0 + w) else 0.

End Binary64.

(** * Properties *)

(** ** Python comparisons *)

Lemma py_gt_true x y : Py.gt x y = true <-> y < x.
Proof.
  unfold Py.gt. rewrite negb_true_iff, <- not_true_iff_false, Qle_bool_iff.
  split; [apply Qnot_le_lt | apply Qlt_not_le].
Qed.

Lemma py_gt_false x y : Py.gt x y = false <-> x <= y.
Proof. unfold Py.gt. rewrite negb_false_iff. apply Qle_bool_iff. Qed.

Lemma py_lt_true x y : Py.lt x y = true <-> x < y.
Proof. apply (py_gt_true y x). Qed.

Lemma py_lt_false x y : Py.lt x y = false <-> y <= x.
Proof. apply (py_gt_false y x). Qed.

Lemma py_le_true x y : Py.le x y = true <-> x <= y.
Proof. apply Qle_bool_iff. Qed.

Lemma py_le_false x y : Py.le x y = false <-> y < x.
Proof.
  unfold Py.le. rewrite <- not_true_iff_false, Qle_bool_iff.
  split; [apply Qnot_le_lt | apply Qlt_not_le].
Qed.

(** ** Bounded deques *)

Section DequeFacts.

Context {A : Type}.

Implicit Types (d xs : list A) (x : A).

Lemma deque_append_room maxlen d x :
  (length d < maxlen)%nat -> Deque.append maxlen d x = d ++ [x].
Proof.
  intros Hlt. unfold Deque.append. rewrite length_app. simpl.
  replace (length d + 1 - maxlen)%nat with 0%nat by lia. reflexivity.
Qed.

Lemma deque_append_length maxlen d x :
  (length (Deque.append maxlen d x) <= maxlen)%nat.
Proof. unfold Deque.append. rewrite length_drop, length_app. simpl. lia. Qed.

(** A run of appends keeps the newest [maxlen] elements. *)
Lemma deque_extend_drop maxlen xs : forall d,
  (length d <= maxlen)%nat ->
  Deque.extend maxlen d xs = drop (length (d ++ xs) - maxlen) (d ++ xs).
Proof.
  unfold Deque.extend.
  induction xs as [|x xs IH]; intros d Hlen; simpl.
  - rewrite app_nil_r. replace (length d - maxlen)%nat with 0%nat by lia.
    reflexivity.
  - rewrite IH by apply deque_append_length.
    unfold Deque.append.
    rewrite !length_app, length_drop, length_app. simpl.
    set (k := (length d + 1 - maxlen)%nat).
    assert (Hk : (k <= length (d ++ [x]))%nat)
      by (rewrite length_app; simpl; lia).
    rewrite <- (drop_app_le _ xs _ Hk), drop_drop, <- app_assoc. simpl.
    f_equal. lia.
Qed.

(** An element survives as long as fewer than [maxlen] elements follow it. *)
Lemma deque_extend_keeps maxlen d x xs :
  (length xs < maxlen)%nat ->
  exists pre, Deque.extend maxlen (Deque.append maxlen d x) xs = pre ++ x :: xs.
Proof.
  intros Hxs.
  rewrite deque_extend_drop by apply deque_append_length.
  unfold Deque.append.
  set (k := (length (d ++ [x]) - maxlen)%nat).
  assert (Hk : (k <= length d)%nat) by (subst k; rewrite length_app; simpl; lia).
  rewrite (drop_app_le d [x] k Hk), <- app_assoc. simpl.
  rewrite !length_app, length_drop. simpl.
  set (j := (length d - k + S (length xs) - maxlen)%nat).
  assert (Hj : (j <= length (drop k d))%nat) by (rewrite length_drop; lia).
  rewrite (drop_app_le (drop k d) (x :: xs) j Hj).
  eauto.
Qed.

End DequeFacts.

(** ** The state machine *)

Section StateManagerFacts.

Import StateManager.

Lemma determine_normal_early (sm : StateManager.t) (now : Q) :
  now - state_start_time sm <= 5 ->
  _determine_enhanced_new_state sm NORMAL_BEHAVIOR now = current_state sm.
Proof.
  intros Hd. unfold _determine_enhanced_new_state. simpl.
  apply py_gt_false in Hd. now rewrite Hd.
Qed.

Lemma determine_normal_late (sm : StateManager.t) (now : Q) :
  5 < now - state_start_time sm ->
  _determine_enhanced_new_state sm NORMAL_BEHAVIOR now = SAFE.
Proof.
  intros Hd. unfold _determine_enhanced_new_state. simpl.
  apply py_gt_true in Hd. now rewrite Hd.
Qed.

Lemma handle_event_same (sm : StateManager.t) event t1 t2 t3 :
  _determine_enhanced_new_state sm event t1 = current_state sm ->
  handle_event sm event t1 t2 t3 = sm.
Proof.
  intros Hsame. unfold handle_event. rewrite Hsame.
  destruct (decide (current_state sm = current_state sm)); congruence.
Qed.

Lemma handle_event_change (sm : StateManager.t) event t1 t2 t3 :
  _determine_enhanced_new_state sm event t1 <> current_state sm ->
  handle_event sm event t1 t2 t3 =
  {| current_state := _determine_enhanced_new_state sm event t1;
     state_start_time := t3;
     state_history :=
       Deque.append history_maxlen (state_history sm)
         {| timestamp := t2;
            from_state := current_state sm;
            to_state := _determine_enhanced_new_state sm event t1;
            trigger_event := event |} |}.
Proof.
  intros Hne. unfold handle_event.
  destruct (decide (_ = current_state sm)); congruence.
Qed.

(** In [SAFE], [NORMAL_BEHAVIOR] changes nothing, whatever the clock says. *)
Lemma handle_normal_in_safe (sm : StateManager.t) t1 t2 t3 :
  current_state sm = SAFE -> handle_event sm NORMAL_BEHAVIOR t1 t2 t3 = sm.
Proof.
  intros Hsafe. apply handle_event_same.
  unfold _determine_enhanced_new_state. simpl.
  destruct (Py.gt _ _); congruence.
Qed.

Lemma deliver_normal_in_safe rs : forall sm : StateManager.t,
  current_state sm = SAFE -> deliver_all NORMAL_BEHAVIOR rs sm = sm.
Proof.
  unfold deliver_all.
  induction rs as [|r rs IH]; intros sm Hsafe; simpl; [reflexivity|].
  rewrite handle_normal_in_safe by exact Hsafe. now apply IH.
Qed.

Lemma deliver_normal_early rs : forall sm : StateManager.t,
  Forall (fun r => r_decide r - state_start_time sm <= 5) rs ->
  deliver_all NORMAL_BEHAVIOR rs sm = sm.
Proof.
  unfold deliver_all.
  induction rs as [|r rs IH]; intros sm Hall; simpl; [reflexivity|].
  inversion Hall as [|? ? Hr Hrs]; subst.
  rewrite handle_event_same by now apply determine_normal_early.
  now apply IH.
Qed.

End StateManagerFacts.

(** C4.  While the current state has lasted at most 5 s, [NORMAL_BEHAVIOR]
    (once or repeatedly) leaves the state, the history and the start time as
    they are, and so does an unknown event at any time.  Once the state has
    lasted more than 5 s, [NORMAL_BEHAVIOR] in a state other than [SAFE] makes
    one transition to [SAFE]: the record of this transition becomes the last
    element of the history, after all the records that were there, except
    that a history of 100 records loses its oldest one; the start time is
    reset, and further [NORMAL_BEHAVIOR] events change nothing. *)
Theorem state_hysteresis (sm : StateManager.t) (t1 t2 t3 : Q) :
  (forall rs,
     Forall (fun r =>
               StateManager.r_decide r - StateManager.state_start_time sm <= 5) rs ->
     StateManager.deliver_all NORMAL_BEHAVIOR rs sm = sm)
  /\ (forall tag, StateManager.handle_event sm (OTHER_EVENT tag) t1 t2 t3 = sm)
  /\ (5 < t1 - StateManager.state_start_time sm ->
      StateManager.current_state sm <> SAFE ->
      let sm' := StateManager.handle_event sm NORMAL_BEHAVIOR t1 t2 t3 in
      let history := StateManager.state_history sm in
      let record :=
        {| StateManager.timestamp := t2;
           StateManager.from_state := StateManager.current_state sm;
           StateManager.to_state := SAFE;
           StateManager.trigger_event := NORMAL_BEHAVIOR |} in
      StateManager.current_state sm' = SAFE
      /\ StateManager.state_start_time sm' = t3
      /\ StateManager.state_history sm'
         = drop (length history + 1 - 100) (history ++ [record])
      /\ ((length history < 100)%nat ->
          StateManager.state_history sm' = history ++ [record])
      /\ (forall oldest rest,
            history = oldest :: rest -> length history = 100%nat ->
            StateManager.state_history sm' = rest ++ [record])
      /\ (length (StateManager.state_history sm') <= 100)%nat
      /\ forall rs, StateManager.deliver_all NORMAL_BEHAVIOR rs sm' = sm').
Proof.
  split; [|split].
  - intros rs Hrs. now apply deliver_normal_early.
  - intros tag. now apply handle_event_same.
  - intros Hlate Hns sm' history record.
    assert (Hnew : StateManager._determine_enhanced_new_state sm NORMAL_BEHAVIOR t1
                   = SAFE) by now apply determine_normal_late.
    assert (Hsm' : sm' =
      {| StateManager.current_state := SAFE;
         StateManager.state_start_time := t3;
         StateManager.state_history := Deque.append 100 history record |}).
    { subst sm'. rewrite handle_event_change by congruence.
      now rewrite Hnew. }
    assert (Hhistory : Deque.append 100 history record
                       = drop (length history + 1 - 100) (history ++ [record])).
    { unfold Deque.append. rewrite length_app. reflexivity. }
    rewrite Hsm'. cbn [StateManager.current_state StateManager.state_start_time
                       StateManager.state_history].
    split; [reflexivity|]. split; [reflexivity|]. split; [exact Hhistory|].
    split; [|split; [|split]].
    + intros Hroom. rewrite Hhistory.
      replace (length history + 1 - 100)%nat with 0%nat by lia. reflexivity.
    + intros oldest rest Hcons Hfull. rewrite Hhistory, Hfull, Hcons.
      reflexivity.
    + apply deque_append_length.
    + intros rs. now apply deliver_normal_in_safe.
Qed.

Lemma state_hysteresis_witness :
  let earlier :=
    {| StateManager.timestamp := 0;
       StateManager.from_state := FATIGUE_LOW;
       StateManager.to_state := FATIGUE_HIGH;
       StateManager.trigger_event := FATIGUE_ACCUMULATION |} in
  let held :=
    {| StateManager.current_state := FATIGUE_HIGH;
       StateManager.state_start_time := 0;
       StateManager.state_history := [earlier] |} in
  let early :=
    {| StateManager.r_decide := 49 # 10; StateManager.r_record := 49 # 10;
       StateManager.r_restart := 49 # 10 |} in
  let calm :=
    StateManager.handle_event held NORMAL_BEHAVIOR (51 # 10) (52 # 10) (53 # 10) in
  StateManager.deliver_all NORMAL_BEHAVIOR [early; early; early] held = held
  /\ StateManager.current_state calm = SAFE
  /\ StateManager.state_start_time calm = 53 # 10
  /\ StateManager.state_history calm
     = [earlier;
        {| StateManager.timestamp := 52 # 10;
           StateManager.from_state := FATIGUE_HIGH;
           StateManager.to_state := SAFE;
           StateManager.trigger_event := NORMAL_BEHAVIOR |}]
  /\ StateManager.deliver_all NORMAL_BEHAVIOR [early; early] calm = calm.
Proof.
  intros earlier held early calm.
  destruct (state_hysteresis held (51 # 10) (52 # 10) (53 # 10))
    as (Hearly & _ & Hlate).
  split.
  - apply Hearly. repeat constructor; vm_compute; discriminate.
  - destruct Hlate as (Hstate & Hstart & _ & Hroom & _ & _ & Hrepeat).
    + vm_compute. reflexivity.
    + discriminate.
    + split; [exact Hstate|]. split; [exact Hstart|].
      split; [apply Hroom; simpl; lia | apply Hrepeat].
Defined.

(** C5.  [FATIGUE_ACCUMULATION] leads to [FATIGUE_HIGH] exactly from
    [FATIGUE_LOW] and to [FATIGUE_LOW] from every other state, [FATIGUE_HIGH]
    included; [ATTENTION_DECLINE] leads to [DISTRACTION_DANGER] exactly from
    [DISTRACTION_NORMAL] and to [DISTRACTION_NORMAL] from every other state.
    Either event always changes the state. *)
Theorem toggle_transitions (sm : StateManager.t) (t1 t2 t3 : Q) :
  let cur := StateManager.current_state sm in
  let fat :=
    StateManager.current_state
      (StateManager.handle_event sm FATIGUE_ACCUMULATION t1 t2 t3) in
  let att :=
    StateManager.current_state
      (StateManager.handle_event sm ATTENTION_DECLINE t1 t2 t3) in
  (fat = FATIGUE_HIGH <-> cur = FATIGUE_LOW)
  /\ (cur <> FATIGUE_LOW -> fat = FATIGUE_LOW)
  /\ fat <> cur
  /\ (att = DISTRACTION_DANGER <-> cur = DISTRACTION_NORMAL)
  /\ (cur <> DISTRACTION_NORMAL -> att = DISTRACTION_NORMAL)
  /\ att <> cur.
Proof.
  destruct sm as [cur start history]. simpl.
  unfold StateManager.handle_event, StateManager._determine_enhanced_new_state.
  simpl.
  destruct cur; simpl; repeat split; intros; try congruence.
Qed.

Lemma toggle_transitions_witness :
  StateManager.current_state
    (StateManager.handle_event
       {| StateManager.current_state := FATIGUE_HIGH;
          StateManager.state_start_time := 0;
          StateManager.state_history := [] |}
       FATIGUE_ACCUMULATION 1 1 1) = FATIGUE_LOW
  /\ StateManager.current_state
       (StateManager.handle_event
          {| StateManager.current_state := SAFE;
             StateManager.state_start_time := 0;
             StateManager.state_history := [] |}
          ATTENTION_DECLINE 1 1 1) = DISTRACTION_NORMAL.
Proof.
  split.
  - apply (toggle_transitions
             {| StateManager.current_state := FATIGUE_HIGH;
                StateManager.state_start_time := 0;
                StateManager.state_history := [] |} 1 1 1).
    discriminate.
  - apply (toggle_transitions
             {| StateManager.current_state := SAFE;
                StateManager.state_start_time := 0;
                StateManager.state_history := [] |} 1 1 1).
    discriminate.
Defined.

(** ** The event window counter *)

Section CounterFacts.

Import Counter.

Lemma count_recent_app now window (xs ys : list Q) :
  count_recent now window (xs ++ ys)
  = (count_recent now window xs + count_recent now window ys)%nat.
Proof. unfold count_recent. now rewrite List.filter_app, length_app. Qed.

Lemma count_recent_cons now window (x : Q) (xs : list Q) :
  count_recent now window (x :: xs)
  = ((if Py.le (now - x) window then 1 else 0) + count_recent now window xs)%nat.
Proof. unfold count_recent. simpl. now destruct (Py.le (now - x) window). Qed.

Lemma stamps_for_cons_same e (time : Q) calls :
  stamps_for e ((e, time) :: calls) = time :: stamps_for e calls.
Proof. unfold stamps_for. simpl. now rewrite String.eqb_refl. Qed.

Lemma stamps_for_cons_other e e' (time : Q) calls :
  e' <> e -> stamps_for e ((e', time) :: calls) = stamps_for e calls.
Proof.
  intros Hne. unfold stamps_for. simpl.
  destruct (String.eqb_spec e' e); [contradiction | reflexivity].
Qed.

(** A run of [add_event] calls extends the buffer of each type with the
    readings of the calls for that type, and with nothing else. *)
Lemma add_events_lookup calls : forall (buffers : gmap string EventLog) e d,
  buffers !! e = Some d ->
  add_events buffers calls !! e
  = Some {| maxlen := maxlen d;
            stamps := Deque.extend (maxlen d) (stamps d) (stamps_for e calls) |}.
Proof.
  unfold add_events.
  induction calls as [|[e' time] calls IH]; intros buffers e d Hd; simpl.
  - rewrite Hd. now destruct d.
  - unfold add_event at 2. simpl.
    destruct (decide (e' = e)) as [->|Hne].
    + rewrite Hd, stamps_for_cons_same.
      erewrite IH by apply lookup_insert_eq. reflexivity.
    + rewrite stamps_for_cons_other by exact Hne.
      destruct (buffers !! e') as [d'|] eqn:Hd'.
      * apply IH. now rewrite lookup_insert_ne.
      * now apply IH.
Qed.

Lemma add_event_as_call (buffers : gmap string EventLog) e time calls :
  add_events (add_event buffers e time) calls
  = add_events buffers ((e, time) :: calls).
Proof. reflexivity. Qed.

Lemma init_well_formed : well_formed init.
Proof.
  intros e cap window field Htracked.
  destruct Htracked; eexists; (split; [reflexivity | reflexivity]).
Qed.

Lemma add_events_well_formed (buffers : gmap string EventLog) calls :
  well_formed buffers -> well_formed (add_events buffers calls).
Proof.
  intros Hwf e cap window field Htracked.
  destruct (Hwf e cap window field Htracked) as (d & Hd & Hcap).
  rewrite (add_events_lookup calls buffers e d Hd).
  eexists. split; [reflexivity | exact Hcap].
Qed.

(** On well-formed buffers [get_event_counts] raises no [KeyError]. *)
Lemma get_event_counts_total (buffers : gmap string EventLog) now :
  well_formed buffers -> is_Some (get_event_counts buffers now).
Proof.
  intros Hwf. unfold get_event_counts.
  destruct (Hwf _ _ _ _ tracked_blinks) as (d1 & -> & _).
  destruct (Hwf _ _ _ _ tracked_yawns) as (d2 & -> & _).
  destruct (Hwf _ _ _ _ tracked_head_nods) as (d3 & -> & _).
  destruct (Hwf _ _ _ _ tracked_gaze_deviations) as (d4 & -> & _).
  simpl. eauto.
Qed.

(** The reported count of a tracked type is the count over its buffer. *)
Lemma get_event_counts_field (buffers : gmap string EventLog) now counts
      e cap window field d :
  tracked e cap window field ->
  get_event_counts buffers now = Some counts ->
  buffers !! e = Some d ->
  field counts = count_recent now window (stamps d).
Proof.
  intros Htracked Hcounts Hd. unfold get_event_counts in Hcounts.
  destruct (buffers !! "blinks") as [d1|] eqn:H1; [|discriminate].
  destruct (buffers !! "yawns") as [d2|] eqn:H2; [|discriminate].
  destruct (buffers !! "head_nods") as [d3|] eqn:H3; [|discriminate].
  destruct (buffers !! "gaze_deviations") as [d4|] eqn:H4; [|discriminate].
  simpl in Hcounts. injection Hcounts as <-.
  destruct Htracked; simpl; congruence.
Qed.

End CounterFacts.

(** C6, as the code has it.  For each of the four event types, an event added
    at time [T] stays in the buffer of its type as long as fewer events of
    that type than the buffer's capacity (blinks 300, yawns 100, head nods
    120, gaze deviations 60) have been added after it; while it is there, the
    count reported for the type includes it for every [now] with
    [now - T <= window] and leaves it out for every [now] with
    [now - T > window]. *)
Theorem window_expiry_in_buffer
    (buffers : gmap string Counter.EventLog) (event_type : string) (cap : nat)
    (window : Q) (field : Counter.EventCounts -> nat)
    (T : Q) (later : list (string * Q)) (now : Q) :
  Counter.tracked event_type cap window field ->
  Counter.well_formed buffers ->
  (length (Counter.stamps_for event_type later) < cap)%nat ->
  let after :=
    Counter.add_events (Counter.add_event buffers event_type T) later in
  let newer := Counter.stamps_for event_type later in
  exists older counts,
    Counter.stamps <$> after !! event_type = Some (older ++ T :: newer)
    /\ Counter.get_event_counts after now = Some counts
    /\ (now - T <= window ->
        field counts
        = (Counter.count_recent now window older + 1
           + Counter.count_recent now window newer)%nat)
    /\ (window < now - T ->
        field counts
        = (Counter.count_recent now window older
           + Counter.count_recent now window newer)%nat).
Proof.
  intros Htracked Hwf Hroom after newer.
  destruct (Hwf _ _ _ _ Htracked) as (d & Hd & Hcap).
  assert (Hafter : after !! event_type
                   = Some {| Counter.maxlen := cap;
                             Counter.stamps :=
                               Deque.extend cap
                                 (Deque.append cap (Counter.stamps d) T) newer |}).
  { subst after. rewrite add_event_as_call.
    rewrite (add_events_lookup _ _ _ _ Hd), stamps_for_cons_same, Hcap.
    reflexivity. }
  destruct (deque_extend_keeps cap (Counter.stamps d) T newer Hroom)
    as (older & Hkeeps).
  rewrite Hkeeps in Hafter.
  assert (Hwf' : Counter.well_formed after).
  { subst after. rewrite add_event_as_call. now apply add_events_well_formed. }
  destruct (get_event_counts_total after now Hwf') as (counts & Hcounts).
  exists older, counts.
  pose proof (get_event_counts_field _ _ _ _ _ _ _ _ Htracked Hcounts Hafter)
    as Hfield.
  simpl in Hfield. rewrite count_recent_app, count_recent_cons in Hfield.
  split; [now rewrite Hafter|]. split; [exact Hcounts|]. split.
  - intros Hin. apply py_le_true in Hin. rewrite Hin in Hfield. lia.
  - intros Hout. apply py_le_false in Hout. rewrite Hout in Hfield. lia.
Qed.

Lemma window_expiry_in_buffer_witness :
  let after :=
    Counter.add_events (Counter.add_event Counter.init "blinks" 0)
                       [("yawns", 1); ("blinks", 2)] in
  exists older counts,
    Counter.stamps <$> after !! "blinks" = Some (older ++ [0; 2])
    /\ Counter.get_event_counts after 30 = Some counts
    /\ Counter.blinks_1min counts
       = S (Counter.count_recent 30 60 older + Counter.count_recent 30 60 [2]).
Proof.
  destruct (window_expiry_in_buffer Counter.init "blinks" 300 60
              Counter.blinks_1min 0 [("yawns", 1); ("blinks", 2)] 30)
    as (older & counts & Hstamps & Hcounts & Hin & _).
  - constructor.
  - apply init_well_formed.
  - vm_compute. lia.
  - exists older, counts. split; [exact Hstamps|]. split; [exact Hcounts|].
    rewrite Hin by (vm_compute; discriminate).
    rewrite Nat.add_1_r. reflexivity.
Defined.

(** C6 as stated fails: sixty-one gaze deviations within one second fill the
    buffer of capacity 60, so the first one, one second old, is no longer in
    the buffer and the count over the 60 s window is 60. *)
Lemma window_expiry_counterexample :
  let later := repeat ("gaze_deviations", 1) 60 in
  let after :=
    Counter.add_events (Counter.add_event Counter.init "gaze_deviations" 0)
                       later in
  1 - 0 <= 60
  /\ Counter.stamps <$> after !! "gaze_deviations" = Some (repeat 1 60)
  /\ Counter.gaze_deviations_1min <$> Counter.get_event_counts after 1
     = Some 60%nat.
Proof.
  split; [vm_compute; discriminate|].
  split; vm_compute; reflexivity.
Qed.

(** ** Fusion *)

Section FusionFacts.

Import Fusion.

(** The weighted sum of a single contribution, divided by its weight. *)
Lemma renormalize_single (s w : Q) :
  0 < w -> (if Py.gt (0 + w) 0 then (0 + s * w) / (0 + w) else 0) == s.
Proof.
  intros Hw.
  assert (Hgt : Py.gt (0 + w) 0 = true).
  { apply py_gt_true. now rewrite Qplus_0_l. }
  rewrite Hgt. field. intros Hzero. rewrite Hzero in Hw.
  now apply Qlt_irrefl in Hw.
Qed.

Lemma fuse_drowsiness_emotion_only weights face_data pose_data emotion_data :
  Py.truthy (FaceData.available face_data) = false ->
  Py.truthy (PoseData.available pose_data) = false ->
  Py.truthy (EmotionData.available emotion_data) = true ->
  0 < emotion weights ->
  fuse_drowsiness_signals weights face_data pose_data emotion_data
  == emotion_fatigue emotion_data.
Proof.
  intros Hf Hp He Hw. unfold fuse_drowsiness_signals.
  rewrite Hf, Hp, He. now apply renormalize_single.
Qed.

(** An unavailable emotion dictionary counts as no dictionary at all. *)
Lemma fuse_drowsiness_without_emotion weights weights' face_data pose_data emotion_data :
  Py.truthy (EmotionData.available emotion_data) = false ->
  face weights' = face weights -> pose weights' = pose weights ->
  fuse_drowsiness_signals weights face_data pose_data emotion_data
  = fuse_drowsiness_signals weights' face_data pose_data EmotionData.empty.
Proof.
  intros He Hf Hp. unfold fuse_drowsiness_signals.
  rewrite He, Hf, Hp. reflexivity.
Qed.

Lemma fuse_distraction_without_emotion
      weights weights' face_data hand_data object_data emotion_data :
  Py.truthy (EmotionData.available emotion_data) = false ->
  face weights' = face weights -> hand weights' = hand weights ->
  object weights' = object weights ->
  fuse_distraction_signals weights face_data hand_data object_data emotion_data
  = fuse_distraction_signals weights' face_data hand_data object_data
      EmotionData.empty.
Proof.
  intros He Hf Hh Ho. unfold fuse_distraction_signals.
  rewrite He, Hf, Hh, Ho. reflexivity.
Qed.

(** The final division does not depend on how the two sums are written. *)
Lemma renormalize_proper (score score' total total' : Q) :
  score == score' -> total == total' ->
  (if Py.gt total 0 then score / total else 0)
  == (if Py.gt total' 0 then score' / total' else 0).
Proof.
  intros Hscore Htotal.
  assert (Hgt : Py.gt total 0 = Py.gt total' 0).
  { unfold Py.gt. f_equal. now apply Qleb_comp. }
  rewrite Hgt. destruct (Py.gt total' 0); [|reflexivity].
  now rewrite Hscore, Htotal.
Qed.

(** An available emotion dictionary adds its contribution, times the emotion
    weight, to the score and the emotion weight to the total weight. *)
Lemma fuse_drowsiness_with_emotion weights face_data pose_data emotion_data :
  Py.truthy (EmotionData.available emotion_data) = true ->
  let f := Py.truthy (FaceData.available face_data) in
  let p := Py.truthy (PoseData.available pose_data) in
  let score :=
    (if f then face_drowsiness face_data * face weights else 0)
    + (if p then pose_drowsiness pose_data * pose weights else 0) in
  let total :=
    (if f then face weights else 0) + (if p then pose weights else 0) in
  fuse_drowsiness_signals weights face_data pose_data emotion_data
  == (if Py.gt (total + emotion weights) 0
      then (score + emotion_fatigue emotion_data * emotion weights)
           / (total + emotion weights)
      else 0).
Proof.
  intros He f p score total. subst f p score total.
  unfold fuse_drowsiness_signals. rewrite He.
  destruct (Py.truthy (FaceData.available face_data)),
    (Py.truthy (PoseData.available pose_data));
    apply renormalize_proper; ring.
Qed.

Lemma fuse_distraction_with_emotion
      weights face_data hand_data object_data emotion_data :
  Py.truthy (EmotionData.available emotion_data) = true ->
  let f := Py.truthy (FaceData.available face_data) in
  let h := Py.truthy (HandData.available hand_data) in
  let o := Py.truthy (ObjectData.available object_data) in
  let score :=
    (if f then face_distraction face_data * face weights else 0)
    + (if h then hand_distraction hand_data * hand weights else 0)
    + (if o then object_distraction object_data * object weights else 0) in
  let total :=
    (if f then face weights else 0) + (if h then hand weights else 0)
    + (if o then object weights else 0) in
  fuse_distraction_signals weights face_data hand_data object_data emotion_data
  == (if Py.gt (total + emotion weights) 0
      then (score + emotion_distraction emotion_data * emotion weights)
           / (total + emotion weights)
      else 0).
Proof.
  intros He f h o score total. subst f h o score total.
  unfold fuse_distraction_signals. rewrite He.
  destruct (Py.truthy (FaceData.available face_data)),
    (Py.truthy (HandData.available hand_data)),
    (Py.truthy (ObjectData.available object_data));
    apply renormalize_proper; ring.
Qed.

(** Without the emotion dictionary only the other modalities are summed. *)
Lemma fuse_drowsiness_sums weights face_data pose_data emotion_data :
  Py.truthy (EmotionData.available emotion_data) = false ->
  let f := Py.truthy (FaceData.available face_data) in
  let p := Py.truthy (PoseData.available pose_data) in
  let score :=
    (if f then face_drowsiness face_data * face weights else 0)
    + (if p then pose_drowsiness pose_data * pose weights else 0) in
  let total :=
    (if f then face weights else 0) + (if p then pose weights else 0) in
  fuse_drowsiness_signals weights face_data pose_data emotion_data
  == (if Py.gt total 0 then score / total else 0).
Proof.
  intros He f p score total. subst f p score total.
  unfold fuse_drowsiness_signals. rewrite He.
  destruct (Py.truthy (FaceData.available face_data)),
    (Py.truthy (PoseData.available pose_data));
    apply renormalize_proper; ring.
Qed.

Lemma fuse_distraction_sums
      weights face_data hand_data object_data emotion_data :
  Py.truthy (EmotionData.available emotion_data) = false ->
  let f := Py.truthy (FaceData.available face_data) in
  let h := Py.truthy (HandData.available hand_data) in
  let o := Py.truthy (ObjectData.available object_data) in
  let score :=
    (if f then face_distraction face_data * face weights else 0)
    + (if h then hand_distraction hand_data * hand weights else 0)
    + (if o then object_distraction object_data * object weights else 0) in
  let total :=
    (if f then face weights else 0) + (if h then hand weights else 0)
    + (if o then object weights else 0) in
  fuse_distraction_signals weights face_data hand_data object_data emotion_data
  == (if Py.gt total 0 then score / total else 0).
Proof.
  intros He f h o score total. subst f h o score total.
  unfold fuse_distraction_signals. rewrite He.
  destruct (Py.truthy (FaceData.available face_data)),
    (Py.truthy (HandData.available hand_data)),
    (Py.truthy (ObjectData.available object_data));
    apply renormalize_proper; ring.
Qed.

End FusionFacts.

Section FusionRounding.

Import PrimFloat.

#[local] Set Warnings "-inexact-float".

(** C1.  When exactly one of the modalities that a fusion reads is available,
    with raw contribution [s] and weight [w], the fused score is the quotient
    [(0.0 + s * w) / (0.0 + w)], whatever the data and the weights of the
    other modalities are (0 when [w] is not positive); when none is available
    the fused score is 0.  In exact arithmetic the quotient is [s] for every
    positive [w]; in binary64 it is the rounded quotient, which need not be
    [s].  Fatigue reads face, pose and emotion; distraction reads face, hand,
    object and emotion. *)
Theorem fusion_renormalization
    (weights : Fusion.Weights) (face_data : FaceData.t) (pose_data : PoseData.t)
    (hand_data : HandData.t) (object_data : ObjectData.t)
    (emotion_data : EmotionData.t)
    (weights64 : Binary64.Weights) (face64 : Binary64.FaceData.t)
    (pose64 : Binary64.PoseData.t) (hand64 : Binary64.HandData.t)
    (object64 : Binary64.ObjectData.t) (emotion64 : Binary64.EmotionData.t) :
  let f := Py.truthy (FaceData.available face_data) in
  let p := Py.truthy (PoseData.available pose_data) in
  let h := Py.truthy (HandData.available hand_data) in
  let o := Py.truthy (ObjectData.available object_data) in
  let e := Py.truthy (EmotionData.available emotion_data) in
  let fatigue :=
    Fusion.fuse_drowsiness_signals weights face_data pose_data emotion_data in
  let distraction :=
    Fusion.fuse_distraction_signals weights face_data hand_data object_data
      emotion_data in
  let f64 := Py.truthy (Binary64.FaceData.available face64) in
  let p64 := Py.truthy (Binary64.PoseData.available pose64) in
  let h64 := Py.truthy (Binary64.HandData.available hand64) in
  let o64 := Py.truthy (Binary64.ObjectData.available object64) in
  let e64 := Py.truthy (Binary64.EmotionData.available emotion64) in
  let fatigue64 :=
    Binary64.fuse_drowsiness_signals weights64 face64 pose64 emotion64 in
  let distraction64 :=
    Binary64.fuse_distraction_signals weights64 face64 hand64 object64
      emotion64 in
  ((f = true -> p = false -> e = false -> 0 < Fusion.face weights ->
    fatigue == Fusion.face_drowsiness face_data)
   /\ (f = false -> p = true -> e = false -> 0 < Fusion.pose weights ->
       fatigue == Fusion.pose_drowsiness pose_data)
   /\ (f = false -> p = false -> e = true -> 0 < Fusion.emotion weights ->
       fatigue == Fusion.emotion_fatigue emotion_data)
   /\ (f = false -> p = false -> e = false -> fatigue = 0)
   /\ (f = true -> h = false -> o = false -> e = false ->
       0 < Fusion.face weights ->
       distraction == Fusion.face_distraction face_data)
   /\ (f = false -> h = true -> o = false -> e = false ->
       0 < Fusion.hand weights ->
       distraction == Fusion.hand_distraction hand_data)
   /\ (f = false -> h = false -> o = true -> e = false ->
       0 < Fusion.object weights ->
       distraction == Fusion.object_distraction object_data)
   /\ (f = false -> h = false -> o = false -> e = true ->
       0 < Fusion.emotion weights ->
       distraction == Fusion.emotion_distraction emotion_data)
   /\ (f = false -> h = false -> o = false -> e = false -> distraction = 0))
  /\ ((f64 = true -> p64 = false -> e64 = false ->
       fatigue64 = Binary64.single (Binary64.face_drowsiness face64)
                                   (Binary64.face weights64))
      /\ (f64 = false -> p64 = true -> e64 = false ->
          fatigue64 = Binary64.single (Binary64.pose_drowsiness pose64)
                                      (Binary64.pose weights64))
      /\ (f64 = false -> p64 = false -> e64 = true ->
          fatigue64 = Binary64.single (Binary64.emotion_fatigue emotion64)
                                      (Binary64.emotion weights64))
      /\ (f64 = false -> p64 = false -> e64 = false -> fatigue64 = 0%float)
      /\ (f64 = true -> h64 = false -> o64 = false -> e64 = false ->
          distraction64 = Binary64.single (Binary64.face_distraction face64)
                                          (Binary64.face weights64))
      /\ (f64 = false -> h64 = true -> o64 = false -> e64 = false ->
          distraction64 = Binary64.single (Binary64.hand_distraction hand64)
                                          (Binary64.hand weights64))
      /\ (f64 = false -> h64 = false -> o64 = true -> e64 = false ->
          distraction64 = Binary64.single (Binary64.object_distraction object64)
                                          (Binary64.object weights64))
      /\ (f64 = false -> h64 = false -> o64 = false -> e64 = true ->
          distraction64
          = Binary64.single (Binary64.emotion_distraction emotion64)
                            (Binary64.emotion weights64))
      /\ (f64 = false -> h64 = false -> o64 = false -> e64 = false ->
          distraction64 = 0%float))
  /\ (forall s w : Q,
        0 < w -> (if Py.gt (0 + w) 0 then (0 + s * w) / (0 + w) else 0) == s).
Proof.
  intros f p h o e fatigue distraction
         f64 p64 h64 o64 e64 fatigue64 distraction64.
  split; [|split; [|exact renormalize_single]].
  - subst f p h o e fatigue distraction.
    unfold Fusion.fuse_drowsiness_signals, Fusion.fuse_distraction_signals.
    repeat split;
      repeat (let H := fresh in intros H; try rewrite H);
      try reflexivity; now apply renormalize_single.
  - subst f64 p64 h64 o64 e64 fatigue64 distraction64.
    unfold Binary64.fuse_drowsiness_signals, Binary64.fuse_distraction_signals,
      Binary64.single.
    repeat split;
      repeat (let H := fresh in intros H; try rewrite H);
      reflexivity.
Qed.

Lemma fusion_renormalization_witness :
  let face_only :=
    {| FaceData.available := Some true;
       FaceData.perclos := Some (9 # 10);
       FaceData.enhanced_ear := Some (2 # 10);
       FaceData.temporal_attention_score := Some (1 # 10);
       FaceData.gaze_deviation_score := Some (2 # 10);
       FaceData.attention_focus_score := Some (8 # 10) |} in
  let no_pose :=
    {| PoseData.available := Some false; PoseData.head_nod_score := Some 1;
       PoseData.pose_complexity_score := Some 0 |} in
  let no_hand :=
    {| HandData.available := Some false;
       HandData.hands_on_wheel_confidence := Some 0 |} in
  let no_object :=
    {| ObjectData.available := Some false;
       ObjectData.distraction_score := Some 1;
       ObjectData.phone_usage_score := Some 1 |} in
  let face_only64 :=
    {| Binary64.FaceData.available := Some true;
       Binary64.FaceData.perclos := Some 0.9%float;
       Binary64.FaceData.enhanced_ear := Some 0.2%float;
       Binary64.FaceData.temporal_attention_score := Some 0.1%float;
       Binary64.FaceData.gaze_deviation_score := Some 0.2%float;
       Binary64.FaceData.attention_focus_score := Some 0.8%float |} in
  let no_pose64 :=
    {| Binary64.PoseData.available := Some false;
       Binary64.PoseData.head_nod_score := Some 1%float;
       Binary64.PoseData.pose_complexity_score := Some 0%float |} in
  let no_hand64 :=
    {| Binary64.HandData.available := Some false;
       Binary64.HandData.hands_on_wheel_confidence := Some 0%float |} in
  let no_object64 :=
    {| Binary64.ObjectData.available := Some false;
       Binary64.ObjectData.distraction_score := Some 1%float;
       Binary64.ObjectData.phone_usage_score := Some 1%float |} in
  (Fusion.fuse_drowsiness_signals Fusion.init face_only no_pose EmotionData.empty
   == 45 # 100
   /\ Fusion.fuse_distraction_signals Fusion.init face_only no_hand no_object
        EmotionData.empty
      == 2 # 10)
  /\ (Binary64.face_drowsiness face_only64 = 0.45000000000000007%float
      /\ Binary64.fuse_drowsiness_signals Binary64.init face_only64 no_pose64
           Binary64.EmotionData.empty
         = 0.45%float
      /\ Binary64.face_distraction face_only64 = 0.2%float
      /\ Binary64.fuse_distraction_signals Binary64.init face_only64 no_hand64
           no_object64 Binary64.EmotionData.empty
         = 0.19999999999999998%float).
Proof.
  intros face_only no_pose no_hand no_object
         face_only64 no_pose64 no_hand64 no_object64.
  destruct (fusion_renormalization Fusion.init face_only no_pose no_hand
              no_object EmotionData.empty
              Binary64.init face_only64 no_pose64 no_hand64 no_object64
              Binary64.EmotionData.empty)
    as ((Hfatigue & _ & _ & _ & Hdistraction & _)
        & (Hfatigue64 & _ & _ & _ & Hdistraction64 & _) & _).
  split; [split|].
  - rewrite Hfatigue by (vm_compute; reflexivity). vm_compute. reflexivity.
  - rewrite Hdistraction by (vm_compute; reflexivity). vm_compute. reflexivity.
  - split; [vm_compute; reflexivity|]. split.
    + rewrite Hfatigue64 by reflexivity. vm_compute. reflexivity.
    + split; [vm_compute; reflexivity|].
      rewrite Hdistraction64 by reflexivity. vm_compute. reflexivity.
Defined.

(** C1 as stated fails in the arithmetic of the code.  With emotion the only
    available modality and a raw fatigue contribution of 0.8, the fused
    score under the weights of [__init__] (emotion 0.1) is
    0.8000000000000002: it is not 0.8, it exceeds the threshold 0.8 that the
    contribution does not exceed, and with an emotion weight of 0.5 the same
    contribution gives 0.8.  The same contribution fuses to
    0.7999999999999999 under the face weight 0.35.  An object contribution
    of 0.8 fuses to 0.8000000000000002 in the distraction score. *)
Lemma fusion_renormalization_counterexample :
  let tired :=
    {| Binary64.EmotionData.available := Some true;
       Binary64.EmotionData.emotion := Some FATIGUE;
       Binary64.EmotionData.confidence := Some 0.8%float;
       Binary64.EmotionData.arousal := Some 0.5%float;
       Binary64.EmotionData.valence := Some 0%float |} in
  let no_face :=
    {| Binary64.FaceData.available := Some false;
       Binary64.FaceData.perclos := Some 0%float;
       Binary64.FaceData.enhanced_ear := Some 0%float;
       Binary64.FaceData.temporal_attention_score := Some 0%float;
       Binary64.FaceData.gaze_deviation_score := Some 0%float;
       Binary64.FaceData.attention_focus_score := Some 1%float |} in
  let no_pose :=
    {| Binary64.PoseData.available := Some false;
       Binary64.PoseData.head_nod_score := Some 0%float;
       Binary64.PoseData.pose_complexity_score := Some 0%float |} in
  let no_hand :=
    {| Binary64.HandData.available := Some false;
       Binary64.HandData.hands_on_wheel_confidence := Some 1%float |} in
  let cup :=
    {| Binary64.ObjectData.available := Some true;
       Binary64.ObjectData.distraction_score := Some 0.8%float;
       Binary64.ObjectData.phone_usage_score := Some 0%float |} in
  let heavier :=
    {| Binary64.face := 0.35%float; Binary64.pose := 0.25%float;
       Binary64.hand := 0.20%float; Binary64.object := 0.10%float;
       Binary64.emotion := 0.5%float |} in
  let fatigue :=
    Binary64.fuse_drowsiness_signals Binary64.init no_face no_pose tired in
  Binary64.emotion_fatigue tired = 0.8%float
  /\ fatigue = 0.8000000000000002%float
  /\ PrimFloat.eqb fatigue (Binary64.emotion_fatigue tired) = false
  /\ Binary64.gt fatigue 0.8%float = true
  /\ Binary64.gt (Binary64.emotion_fatigue tired) 0.8%float = false
  /\ Binary64.fuse_drowsiness_signals heavier no_face no_pose tired = 0.8%float
  /\ Binary64.single 0.8%float (Binary64.face Binary64.init)
     = 0.7999999999999999%float
  /\ Binary64.object_distraction cup = 0.8%float
  /\ Binary64.fuse_distraction_signals Binary64.init no_face no_hand cup
       Binary64.EmotionData.empty
     = 0.8000000000000002%float.
Proof.
  repeat split; vm_compute; reflexivity.
Qed.

End FusionRounding.

(** C9, as the code has it.  The raw fatigue contribution of the emotion
    modality is the confidence when the emotion is [FATIGUE]; for any other
    emotion it is [1 - arousal] when the arousal is below 0.3 and 0 when the
    arousal is 0.3 or more.  When emotion is the only available modality,
    this contribution is the fused fatigue score. *)
Theorem emotion_fatigue_contribution
    (weights : Fusion.Weights) (face_data : FaceData.t) (pose_data : PoseData.t)
    (emotion_data : EmotionData.t) :
  let arousal := Py.get (EmotionData.arousal emotion_data) (5 # 10) in
  let contribution := Fusion.emotion_fatigue emotion_data in
  (EmotionData.emotion emotion_data = Some FATIGUE ->
   contribution = Py.get (EmotionData.confidence emotion_data) 0)
  /\ (EmotionData.emotion emotion_data <> Some FATIGUE ->
      arousal < 3 # 10 -> contribution = 1 - arousal)
  /\ (EmotionData.emotion emotion_data <> Some FATIGUE ->
      3 # 10 <= arousal -> contribution = 0)
  /\ (Py.truthy (FaceData.available face_data) = false ->
      Py.truthy (PoseData.available pose_data) = false ->
      Py.truthy (EmotionData.available emotion_data) = true ->
      0 < Fusion.emotion weights ->
      Fusion.fuse_drowsiness_signals weights face_data pose_data emotion_data
      == contribution).
Proof.
  intros arousal contribution. subst arousal contribution.
  unfold Fusion.emotion_fatigue.
  split; [|split; [|split]].
  - intros Hfatigue. now rewrite bool_decide_eq_true_2.
  - intros Hother Hlow. rewrite bool_decide_eq_false_2 by exact Hother.
    apply py_lt_true in Hlow. now rewrite Hlow.
  - intros Hother Hhigh. rewrite bool_decide_eq_false_2 by exact Hother.
    apply py_lt_false in Hhigh. now rewrite Hhigh.
  - apply fuse_drowsiness_emotion_only.
Qed.

Lemma emotion_fatigue_contribution_witness :
  let calm :=
    {| EmotionData.available := Some true;
       EmotionData.emotion := Some (OTHER_EMOTION 0);
       EmotionData.confidence := Some (9 # 10);
       EmotionData.arousal := Some (2 # 10);
       EmotionData.valence := Some 0 |} in
  let tired :=
    {| EmotionData.available := Some true;
       EmotionData.emotion := Some FATIGUE;
       EmotionData.confidence := Some (9 # 10);
       EmotionData.arousal := Some (2 # 10);
       EmotionData.valence := Some 0 |} in
  let alert :=
    {| EmotionData.available := Some true;
       EmotionData.emotion := Some STRESS;
       EmotionData.confidence := Some (9 # 10);
       EmotionData.arousal := Some (3 # 10);
       EmotionData.valence := Some 0 |} in
  let no_face :=
    {| FaceData.available := None; FaceData.perclos := None;
       FaceData.enhanced_ear := None;
       FaceData.temporal_attention_score := None;
       FaceData.gaze_deviation_score := None;
       FaceData.attention_focus_score := None |} in
  let no_pose :=
    {| PoseData.available := None; PoseData.head_nod_score := None;
       PoseData.pose_complexity_score := None |} in
  Fusion.emotion_fatigue tired = 9 # 10
  /\ Fusion.emotion_fatigue calm = 1 - (2 # 10)
  /\ Fusion.emotion_fatigue alert = 0
  /\ Fusion.fuse_drowsiness_signals Fusion.init no_face no_pose calm
     == Fusion.emotion_fatigue calm.
Proof.
  intros calm tired alert no_face no_pose.
  split; [|split; [|split]].
  - apply (emotion_fatigue_contribution Fusion.init no_face no_pose tired).
    reflexivity.
  - apply (emotion_fatigue_contribution Fusion.init no_face no_pose calm).
    + discriminate.
    + vm_compute. reflexivity.
  - apply (emotion_fatigue_contribution Fusion.init no_face no_pose alert).
    + discriminate.
    + vm_compute. discriminate.
  - apply (emotion_fatigue_contribution Fusion.init no_face no_pose calm).
    + reflexivity.
    + reflexivity.
    + reflexivity.
    + vm_compute. reflexivity.
Defined.

(** C9 as stated fails: for a recognised emotion other than [FATIGUE] with
    arousal 0.5 the contribution is 0, not [max(0, 1 - 0.5) = 0.5], and an
    emotion-only fusion yields a fatigue score of 0. *)
Lemma emotion_fatigue_contribution_counterexample :
  let stressed :=
    {| EmotionData.available := Some true;
       EmotionData.emotion := Some STRESS;
       EmotionData.confidence := Some (9 # 10);
       EmotionData.arousal := Some (5 # 10);
       EmotionData.valence := Some 0 |} in
  let no_face :=
    {| FaceData.available := Some false; FaceData.perclos := Some 0;
       FaceData.enhanced_ear := Some 0;
       FaceData.temporal_attention_score := Some 0;
       FaceData.gaze_deviation_score := Some 0;
       FaceData.attention_focus_score := Some 1 |} in
  let no_pose :=
    {| PoseData.available := Some false; PoseData.head_nod_score := Some 0;
       PoseData.pose_complexity_score := Some 0 |} in
  Fusion.emotion_fatigue stressed = 0
  /\ Py.max 0 (1 - (5 # 10)) == 5 # 10
  /\ ~ Fusion.emotion_fatigue stressed == Py.max 0 (1 - (5 # 10))
  /\ Fusion.fuse_drowsiness_signals Fusion.init no_face no_pose stressed == 0.
Proof.
  split; [reflexivity|].
  split; [vm_compute; reflexivity|].
  split; [vm_compute; discriminate|].
  vm_compute. reflexivity.
Qed.

(** ** The fusion and risk steps of the engine *)

Section EngineFacts.

Import Engine.

Lemma emotion_available_iff (self : Engine.t) :
  Py.truthy (EmotionData.available (emotion_data self)) = true
  <-> 5 # 10 < Metrics.emotion_confidence (metrics self).
Proof. unfold emotion_data. simpl. apply py_gt_true. Qed.

Lemma emotion_unavailable (self : Engine.t) :
  Metrics.emotion_confidence (metrics self) <= 5 # 10 ->
  Py.truthy (EmotionData.available (emotion_data self)) = false.
Proof. intros Hlow. unfold emotion_data. simpl. now apply py_gt_false. Qed.

(** The fusion step succeeds whenever the counter has its four buffers, and
    stores the two fused scores. *)
Lemma perform_fusion_result (self : Engine.t) (now : Q) :
  Counter.well_formed (counter_analyzer self) ->
  exists counts self',
    Counter.get_event_counts (counter_analyzer self) now = Some counts
    /\ _perform_multimodal_fusion_analysis self now = Some self'
    /\ Metrics.fatigue_risk_score (metrics self')
       = Fusion.fuse_drowsiness_signals (multimodal_analyzer self)
           (face_data self) (pose_data self counts) (emotion_data self)
    /\ Metrics.distraction_risk_score (metrics self')
       = Fusion.fuse_distraction_signals (multimodal_analyzer self)
           (face_data self) (hand_data self) (object_data self)
           (emotion_data self).
Proof.
  intros Hwf.
  destruct (get_event_counts_total _ now Hwf) as (counts & Hcounts).
  unfold _perform_multimodal_fusion_analysis. rewrite Hcounts. simpl.
  eexists _, _. repeat split.
Qed.

(** The threshold checks do not depend on how a rational is written. *)
Lemma risk_level_of_proper (c c' : Q) :
  c == c' -> risk_level_of c = risk_level_of c'.
Proof.
  intros Heq.
  assert (Hgt : forall t, Py.gt c t = Py.gt c' t).
  { intros t. unfold Py.gt. f_equal. now apply Qleb_comp. }
  unfold risk_level_of. now rewrite !Hgt.
Qed.

(** Every value is the combined risk of some metrics. *)
Lemma combined_risk_attained (c : Q) : combined_risk (metrics_with_risk c) == c.
Proof.
  unfold combined_risk, metrics_with_risk. simpl.
  unfold Py.max. destruct (Py.gt c c); field.
Qed.

End EngineFacts.

(** C10.  The fusion step treats emotion as available exactly when the
    emotion confidence exceeds 0.5.  The emotion dictionary always carries
    the emotion state, confidence, arousal and valence of the metrics.  With
    a confidence above 0.5 both fused scores include emotion: its
    contribution times the emotion weight is added to the weighted sum of the
    other available modalities, and the emotion weight to their total
    weight.  With a confidence of 0.5 or less both fused scores are the
    weighted average of the other available modalities alone, the same as
    with an empty emotion dictionary and with any other emotion weight:
    emotion adds neither score nor weight. *)
Theorem emotion_availability_gate (self : Engine.t) (now : Q) (any_weight : Q) :
  Counter.well_formed (Engine.counter_analyzer self) ->
  let m := Engine.metrics self in
  let weights := Engine.multimodal_analyzer self in
  let weights' :=
    {| Fusion.face := Fusion.face weights; Fusion.pose := Fusion.pose weights;
       Fusion.hand := Fusion.hand weights;
       Fusion.object := Fusion.object weights;
       Fusion.emotion := any_weight |} in
  (Py.truthy (EmotionData.available (Engine.emotion_data self)) = true
   <-> 5 # 10 < Metrics.emotion_confidence m)
  /\ EmotionData.emotion (Engine.emotion_data self)
     = Some (Metrics.emotion_state m)
  /\ EmotionData.confidence (Engine.emotion_data self)
     = Some (Metrics.emotion_confidence m)
  /\ EmotionData.arousal (Engine.emotion_data self)
     = Some (Metrics.arousal_level m)
  /\ EmotionData.valence (Engine.emotion_data self)
     = Some (Metrics.valence_level m)
  /\ exists counts self',
       Counter.get_event_counts (Engine.counter_analyzer self) now = Some counts
       /\ Engine._perform_multimodal_fusion_analysis self now = Some self'
       /\ (Metrics.emotion_confidence m <= 5 # 10 ->
           Metrics.fatigue_risk_score (Engine.metrics self')
           = Fusion.fuse_drowsiness_signals weights'
               (Engine.face_data self) (Engine.pose_data self counts)
               EmotionData.empty
           /\ Metrics.distraction_risk_score (Engine.metrics self')
              = Fusion.fuse_distraction_signals weights'
                  (Engine.face_data self) (Engine.hand_data self)
                  (Engine.object_data self) EmotionData.empty)
       /\ let f := Py.truthy (FaceData.available (Engine.face_data self)) in
          let p := Py.truthy (PoseData.available (Engine.pose_data self counts)) in
          let h := Py.truthy (HandData.available (Engine.hand_data self)) in
          let o := Py.truthy (ObjectData.available (Engine.object_data self)) in
          let fatigue_score :=
            (if f then Fusion.face_drowsiness (Engine.face_data self)
                       * Fusion.face weights else 0)
            + (if p then Fusion.pose_drowsiness (Engine.pose_data self counts)
                         * Fusion.pose weights else 0) in
          let fatigue_weight :=
            (if f then Fusion.face weights else 0)
            + (if p then Fusion.pose weights else 0) in
          let distraction_score :=
            (if f then Fusion.face_distraction (Engine.face_data self)
                       * Fusion.face weights else 0)
            + (if h then Fusion.hand_distraction (Engine.hand_data self)
                         * Fusion.hand weights else 0)
            + (if o then Fusion.object_distraction (Engine.object_data self)
                         * Fusion.object weights else 0) in
          let distraction_weight :=
            (if f then Fusion.face weights else 0)
            + (if h then Fusion.hand weights else 0)
            + (if o then Fusion.object weights else 0) in
          let emotion_weight := Fusion.emotion weights in
          (5 # 10 < Metrics.emotion_confidence m ->
           Metrics.fatigue_risk_score (Engine.metrics self')
           == (if Py.gt (fatigue_weight + emotion_weight) 0
               then (fatigue_score
                     + Fusion.emotion_fatigue (Engine.emotion_data self)
                       * emotion_weight)
                    / (fatigue_weight + emotion_weight)
               else 0)
           /\ Metrics.distraction_risk_score (Engine.metrics self')
              == (if Py.gt (distraction_weight + emotion_weight) 0
                  then (distraction_score
                        + Fusion.emotion_distraction (Engine.emotion_data self)
                          * emotion_weight)
                       / (distraction_weight + emotion_weight)
                  else 0))
          /\ (Metrics.emotion_confidence m <= 5 # 10 ->
              Metrics.fatigue_risk_score (Engine.metrics self')
              == (if Py.gt fatigue_weight 0
                  then fatigue_score / fatigue_weight else 0)
              /\ Metrics.distraction_risk_score (Engine.metrics self')
                 == (if Py.gt distraction_weight 0
                     then distraction_score / distraction_weight else 0)).
Proof.
  intros Hwf m weights weights'.
  split; [apply emotion_available_iff|].
  do 4 (split; [reflexivity|]).
  destruct (perform_fusion_result self now Hwf)
    as (counts & self' & Hcounts & Hperform & Hfatigue & Hdistraction).
  exists counts, self'.
  split; [exact Hcounts|]. split; [exact Hperform|].
  rewrite Hfatigue, Hdistraction. fold weights.
  split; [|split].
  - intros Hlow. apply emotion_unavailable in Hlow. split.
    + now apply fuse_drowsiness_without_emotion.
    + now apply fuse_distraction_without_emotion.
  - intros Hhigh. apply emotion_available_iff in Hhigh. split.
    + now apply fuse_drowsiness_with_emotion.
    + now apply fuse_distraction_with_emotion.
  - intros Hlow. apply emotion_unavailable in Hlow. split.
    + now apply fuse_drowsiness_sums.
    + now apply fuse_distraction_sums.
Qed.

Lemma emotion_availability_gate_witness :
  let engine_with (confidence : Q) :=
    {| Engine.latest_results :=
         {| LatestResults.face := Some 1%nat; LatestResults.pose := None;
            LatestResults.hand := None; LatestResults.object := None;
            LatestResults.hand_positions := Some [] |};
       Engine.metrics :=
         {| Metrics.perclos := 9 # 10; Metrics.enhanced_ear := 2 # 10;
            Metrics.temporal_attention_score := 1 # 10;
            Metrics.pose_complexity_score := 0;
            Metrics.distraction_objects := [];
            Metrics.phone_detected := false;
            Metrics.emotion_state := FATIGUE;
            Metrics.emotion_confidence := confidence;
            Metrics.arousal_level := 1 # 10; Metrics.valence_level := 0;
            Metrics.head_yaw := 0; Metrics.head_roll := 0;
            Metrics.gaze_zone_duration := 0;
            Metrics.fatigue_risk_score := 0;
            Metrics.distraction_risk_score := 0;
            Metrics.attention_focus_score := 0;
            Metrics.predictive_risk_score := 0 |};
       Engine.counter_analyzer := Counter.init;
       Engine.gaze_classifier :=
         {| GazeClassifier.get_gaze_stability := 1;
            GazeClassifier.get_attention_focus_score := 8 # 10 |};
       Engine.current_gaze_zone := FRONT;
       Engine.multimodal_analyzer := Fusion.init |} in
  (exists self',
     Engine._perform_multimodal_fusion_analysis (engine_with (5 # 10)) 0
     = Some self'
     /\ Metrics.fatigue_risk_score (Engine.metrics self') == 45 # 100
     /\ Metrics.distraction_risk_score (Engine.metrics self') == 2 # 10)
  /\ (exists self',
        Engine._perform_multimodal_fusion_analysis (engine_with (8 # 10)) 0
        = Some self'
        /\ Metrics.fatigue_risk_score (Engine.metrics self') == 19 # 36
        /\ Metrics.distraction_risk_score (Engine.metrics self') == 7 # 45).
Proof.
  intros engine_with. split.
  - destruct (emotion_availability_gate (engine_with (5 # 10)) 0 (10 # 100)
                init_well_formed)
      as (_ & _ & _ & _ & _ & counts & self' & Hcounts & Hperform & Hlow & _).
    exists self'. split; [exact Hperform|].
    destruct Hlow as (Hfatigue & Hdistraction); [vm_compute; discriminate|].
    rewrite Hfatigue, Hdistraction.
    vm_compute in Hcounts. injection Hcounts as <-.
    split; vm_compute; reflexivity.
  - destruct (emotion_availability_gate (engine_with (8 # 10)) 0 (10 # 100)
                init_well_formed)
      as (_ & _ & _ & _ & _ & counts & self' & Hcounts & Hperform & _ & Hhigh & _).
    exists self'. split; [exact Hperform|].
    destruct Hhigh as (Hfatigue & Hdistraction); [vm_compute; reflexivity|].
    rewrite Hfatigue, Hdistraction.
    vm_compute in Hcounts. injection Hcounts as <-.
    split; vm_compute; reflexivity.
Defined.

(** C2.  The risk level is decided by strict comparisons, first match first:
    a combined risk above 0.8 is [CRITICAL], above 0.6 and at most 0.8 is
    [HIGH], above 0.4 and at most 0.6 is [MEDIUM], above 0.2 and at most 0.4
    is [LOW], and at most 0.2 is [SAFE].  The values 0.2, 0.4, 0.6 and 0.8
    themselves give [SAFE], [LOW], [MEDIUM] and [HIGH]. *)
Theorem risk_level_boundaries (self : Engine.t) :
  let c := Engine.combined_risk (Engine.metrics self) in
  let level := Engine._determine_enhanced_overall_risk self in
  (8 # 10 < c -> level = RiskLevel.CRITICAL)
  /\ (6 # 10 < c -> c <= 8 # 10 -> level = RiskLevel.HIGH)
  /\ (4 # 10 < c -> c <= 6 # 10 -> level = RiskLevel.MEDIUM)
  /\ (2 # 10 < c -> c <= 4 # 10 -> level = RiskLevel.LOW)
  /\ (c <= 2 # 10 -> level = RiskLevel.SAFE)
  /\ (c == 2 # 10 -> level = RiskLevel.SAFE)
  /\ (c == 4 # 10 -> level = RiskLevel.LOW)
  /\ (c == 6 # 10 -> level = RiskLevel.MEDIUM)
  /\ (c == 8 # 10 -> level = RiskLevel.HIGH).
Proof.
  intros c level. subst level.
  unfold Engine._determine_enhanced_overall_risk. fold c.
  assert (Hcritical : 8 # 10 < c -> Engine.risk_level_of c = RiskLevel.CRITICAL).
  { intros H. unfold Engine.risk_level_of.
    apply py_gt_true in H. now rewrite H. }
  assert (Hhigh : 6 # 10 < c -> c <= 8 # 10 ->
                  Engine.risk_level_of c = RiskLevel.HIGH).
  { intros H1 H2. unfold Engine.risk_level_of.
    apply py_gt_true in H1. apply py_gt_false in H2. now rewrite H2, H1. }
  assert (Hmedium : 4 # 10 < c -> c <= 6 # 10 ->
                    Engine.risk_level_of c = RiskLevel.MEDIUM).
  { intros H1 H2. unfold Engine.risk_level_of.
    assert (H3 : c <= 8 # 10) by (eapply Qle_trans; [exact H2 | easy]).
    apply py_gt_true in H1. apply py_gt_false in H2, H3.
    now rewrite H3, H2, H1. }
  assert (Hlow : 2 # 10 < c -> c <= 4 # 10 ->
                 Engine.risk_level_of c = RiskLevel.LOW).
  { intros H1 H2. unfold Engine.risk_level_of.
    assert (H3 : c <= 6 # 10) by (eapply Qle_trans; [exact H2 | easy]).
    assert (H4 : c <= 8 # 10) by (eapply Qle_trans; [exact H2 | easy]).
    apply py_gt_true in H1. apply py_gt_false in H2, H3, H4.
    now rewrite H4, H3, H2, H1. }
  assert (Hsafe : c <= 2 # 10 -> Engine.risk_level_of c = RiskLevel.SAFE).
  { intros H1. unfold Engine.risk_level_of.
    assert (H2 : c <= 4 # 10) by (eapply Qle_trans; [exact H1 | easy]).
    assert (H3 : c <= 6 # 10) by (eapply Qle_trans; [exact H1 | easy]).
    assert (H4 : c <= 8 # 10) by (eapply Qle_trans; [exact H1 | easy]).
    apply py_gt_false in H1, H2, H3, H4.
    now rewrite H4, H3, H2, H1. }
  repeat split; try assumption.
  - intros Heq. apply Hsafe. rewrite Heq. apply Qle_refl.
  - intros Heq. apply Hlow; rewrite Heq; easy.
  - intros Heq. apply Hmedium; rewrite Heq; easy.
  - intros Heq. apply Hhigh; rewrite Heq; easy.
Qed.

Lemma risk_level_boundaries_witness :
  let engine_at (c : Q) :=
    {| Engine.latest_results :=
         {| LatestResults.face := None; LatestResults.pose := None;
            LatestResults.hand := None; LatestResults.object := None;
            LatestResults.hand_positions := None |};
       Engine.metrics := Engine.metrics_with_risk c;
       Engine.counter_analyzer := Counter.init;
       Engine.gaze_classifier :=
         {| GazeClassifier.get_gaze_stability := 1;
            GazeClassifier.get_attention_focus_score := 1 |};
       Engine.current_gaze_zone := FRONT;
       Engine.multimodal_analyzer := Fusion.init |} in
  Engine._determine_enhanced_overall_risk (engine_at (2 # 10)) = RiskLevel.SAFE
  /\ Engine._determine_enhanced_overall_risk (engine_at (20001 # 100000))
     = RiskLevel.LOW
  /\ Engine._determine_enhanced_overall_risk (engine_at (4 # 10)) = RiskLevel.LOW
  /\ Engine._determine_enhanced_overall_risk (engine_at (6 # 10))
     = RiskLevel.MEDIUM
  /\ Engine._determine_enhanced_overall_risk (engine_at (8 # 10)) = RiskLevel.HIGH
  /\ Engine._determine_enhanced_overall_risk (engine_at (80001 # 100000))
     = RiskLevel.CRITICAL.
Proof.
  intros engine_at.
  split; [|split; [|split; [|split; [|split]]]].
  - destruct (risk_level_boundaries (engine_at (2 # 10)))
      as (_ & _ & _ & _ & _ & Hsafe & _).
    apply Hsafe. vm_compute. reflexivity.
  - destruct (risk_level_boundaries (engine_at (20001 # 100000)))
      as (_ & _ & _ & Hlow & _).
    apply Hlow; vm_compute; [reflexivity | discriminate].
  - destruct (risk_level_boundaries (engine_at (4 # 10)))
      as (_ & _ & _ & _ & _ & _ & Hlow & _).
    apply Hlow. vm_compute. reflexivity.
  - destruct (risk_level_boundaries (engine_at (6 # 10)))
      as (_ & _ & _ & _ & _ & _ & _ & Hmedium & _).
    apply Hmedium. vm_compute. reflexivity.
  - destruct (risk_level_boundaries (engine_at (8 # 10)))
      as (_ & _ & _ & _ & _ & _ & _ & _ & Hhigh).
    apply Hhigh. vm_compute. reflexivity.
  - destruct (risk_level_boundaries (engine_at (80001 # 100000)))
      as (Hcritical & _).
    apply Hcritical. vm_compute. reflexivity.
Defined.

(** ** The synchronisation buffers *)

Section SyncBufferFacts.

Context {Frame Result : Type}.

Import SyncBuffer.

Implicit Types (s : SyncBuffer.t Frame Result) (ts now : Z) (ks : list Z).

(** *** Pruning *)

Lemma drop_all_heap ks : forall s,
  heap (fold_left drop_timestamp ks s) = heap s.
Proof. induction ks as [|k ks IH]; intros s; simpl; [|rewrite IH]; reflexivity. Qed.

Lemma drop_all_queue ks : forall s,
  processed_data_queue (fold_left drop_timestamp ks s) = processed_data_queue s.
Proof. induction ks as [|k ks IH]; intros s; simpl; [|rewrite IH]; reflexivity. Qed.

Lemma drop_all_result_buffer ks : forall s ts,
  result_buffer (fold_left drop_timestamp ks s) !! ts
  = if bool_decide (ts ∈ ks) then None else result_buffer s !! ts.
Proof.
  induction ks as [|k ks IH]; intros s ts; cbn [fold_left].
  - rewrite bool_decide_eq_false_2 by apply not_elem_of_nil. reflexivity.
  - rewrite IH. cbn [drop_timestamp result_buffer frame_buffer].
    destruct (decide (ts ∈ ks)) as [Hin|Hout].
    + rewrite (bool_decide_eq_true_2 _ Hin).
      rewrite (bool_decide_eq_true_2 (ts ∈ k :: ks)) by now right.
      reflexivity.
    + rewrite (bool_decide_eq_false_2 _ Hout).
      destruct (decide (ts = k)) as [->|Hne].
      * rewrite bool_decide_eq_true_2 by left. apply lookup_delete_eq.
      * rewrite bool_decide_eq_false_2
          by (intros Hin; apply elem_of_cons in Hin; tauto).
        now apply lookup_delete_ne.
Qed.

Lemma drop_all_frame_buffer ks : forall s ts,
  frame_buffer (fold_left drop_timestamp ks s) !! ts
  = if bool_decide (ts ∈ ks) then None else frame_buffer s !! ts.
Proof.
  induction ks as [|k ks IH]; intros s ts; cbn [fold_left].
  - rewrite bool_decide_eq_false_2 by apply not_elem_of_nil. reflexivity.
  - rewrite IH. cbn [drop_timestamp result_buffer frame_buffer].
    destruct (decide (ts ∈ ks)) as [Hin|Hout].
    + rewrite (bool_decide_eq_true_2 _ Hin).
      rewrite (bool_decide_eq_true_2 (ts ∈ k :: ks)) by now right.
      reflexivity.
    + rewrite (bool_decide_eq_false_2 _ Hout).
      destruct (decide (ts = k)) as [->|Hne].
      * rewrite bool_decide_eq_true_2 by left. apply lookup_delete_eq.
      * rewrite bool_decide_eq_false_2
          by (intros Hin; apply elem_of_cons in Hin; tauto).
        now apply lookup_delete_ne.
Qed.

(** The comprehension selects the stored frames older than the horizon. *)
Lemma elem_of_stale_keys s now ts :
  ts ∈ stale_keys s now
  <-> is_Some (frame_buffer s !! ts) /\ (now - ts > horizon_ms)%Z.
Proof.
  unfold stale_keys. rewrite list_elem_of_In, List.filter_In, <- list_elem_of_In.
  rewrite Z.gtb_gt. split.
  - intros [Hin Hold]. split; [|lia].
    apply list_elem_of_fmap in Hin as ([k f] & -> & Hkf).
    apply elem_of_map_to_list in Hkf. simpl. eauto.
  - intros [[f Hf] Hold]. split; [|lia].
    apply list_elem_of_fmap. exists (ts, f). split; [reflexivity|].
    now apply elem_of_map_to_list.
Qed.

Lemma prune_heap s now : heap (_prune_buffers s now) = heap s.
Proof. apply drop_all_heap. Qed.

Lemma prune_queue s now :
  processed_data_queue (_prune_buffers s now) = processed_data_queue s.
Proof. apply drop_all_queue. Qed.

Lemma prune_result_buffer s now ts :
  result_buffer (_prune_buffers s now) !! ts
  = if bool_decide (is_Some (frame_buffer s !! ts) /\ (now - ts > horizon_ms)%Z)
    then None else result_buffer s !! ts.
Proof.
  unfold _prune_buffers. rewrite drop_all_result_buffer.
  now rewrite (bool_decide_ext _ _ (elem_of_stale_keys s now ts)).
Qed.

Lemma prune_frame_buffer s now ts :
  frame_buffer (_prune_buffers s now) !! ts
  = if bool_decide (is_Some (frame_buffer s !! ts) /\ (now - ts > horizon_ms)%Z)
    then None else frame_buffer s !! ts.
Proof.
  unfold _prune_buffers. rewrite drop_all_frame_buffer.
  now rewrite (bool_decide_ext _ _ (elem_of_stale_keys s now ts)).
Qed.

(** Pruning never removes a result entry whose timestamp has no frame. *)
Lemma prune_keeps_frameless s now ts :
  frame_buffer s !! ts = None ->
  result_buffer (_prune_buffers s now) !! ts = result_buffer s !! ts.
Proof.
  intros Hnone. rewrite prune_result_buffer, Hnone.
  rewrite bool_decide_eq_false_2; [reflexivity|].
  intros [[f Hf] _]. discriminate.
Qed.

Lemma prune_result_buffer_Some s now ts l :
  result_buffer (_prune_buffers s now) !! ts = Some l ->
  result_buffer s !! ts = Some l.
Proof. rewrite prune_result_buffer. now case_bool_decide. Qed.

End SyncBufferFacts.

(** C8 fails on the code.  [_prune_buffers] walks the timestamps of
    [frame_buffer] only.  A hand result recorded for timestamp 1000 with no
    frame stored is still pending after a prune at 3101 ms, 2101 ms later.
    The same happens once a bundle has taken its frame along: a hand result
    that arrives for the emitted timestamp is never pruned. *)
Theorem prune_leaves_frameless_results :
  let s := SyncBuffer.on_hand_result (Frame := nat) SyncBuffer.init 7%nat 1000 in
  let s' := SyncBuffer._prune_buffers s 3101 in
  let framed : SyncBuffer.t nat nat :=
    {| SyncBuffer.heap := [];
       SyncBuffer.frame_buffer := {[1000%Z := 42%nat]};
       SyncBuffer.result_buffer := ∅;
       SyncBuffer.processed_data_queue := [] |} in
  let emitted :=
    SyncBuffer.on_pose_result
      (SyncBuffer.on_face_result framed 10%nat 1000 1000) 11%nat 1000 1001 in
  let late := SyncBuffer.on_hand_result emitted 12%nat 1000 in
  (3101 - 1000 > SyncBuffer.horizon_ms)%Z
  /\ SyncBuffer.frame_buffer s !! 1000%Z = None
  /\ SyncBuffer.pending s 1000 = Some {["hand" := 7%nat]}
  /\ SyncBuffer.pending s' 1000 = Some {["hand" := 7%nat]}
  /\ length (SyncBuffer.processed_data_queue emitted) = 1%nat
  /\ SyncBuffer.pending (SyncBuffer._prune_buffers late 9999) 1000
     = Some {["hand" := 12%nat]}.
Proof. repeat split; reflexivity. Qed.

Section DequeMembership.

Context {A : Type}.

Lemma deque_append_last (maxlen : nat) (d : list A) (x : A) :
  (0 < maxlen)%nat -> exists pre, Deque.append maxlen d x = pre ++ [x].
Proof.
  intros Hpos.
  destruct (deque_extend_keeps maxlen d x [] Hpos) as (pre & Hpre).
  exists pre. exact Hpre.
Qed.

Lemma deque_append_inj (maxlen : nat) (d : list A) (x y : A) :
  (0 < maxlen)%nat ->
  Deque.append maxlen d x = Deque.append maxlen d y -> x = y.
Proof.
  intros Hpos Heq.
  destruct (deque_append_last maxlen d x Hpos) as (px & Hx).
  destruct (deque_append_last maxlen d y Hpos) as (py & Hy).
  rewrite Hx, Hy in Heq. now apply app_inj_tail in Heq.
Qed.

Lemma elem_of_deque_append (maxlen : nat) (d : list A) (x b : A) :
  b ∈ Deque.append maxlen d x -> b ∈ d \/ b = x.
Proof.
  intros Hin. unfold Deque.append in Hin.
  apply subseteq_drop in Hin. apply elem_of_app in Hin as [Hd|Hx].
  - now left.
  - right. now apply list_elem_of_singleton in Hx.
Qed.

Lemma deque_append_elem_of (maxlen : nat) (d : list A) (x : A) :
  (0 < maxlen)%nat -> x ∈ Deque.append maxlen d x.
Proof.
  intros Hpos. destruct (deque_append_last maxlen d x Hpos) as (pre & ->).
  apply elem_of_app. right. left.
Qed.

End DequeMembership.

Section SyncEmission.

Context {Frame Result : Type}.

Import SyncBuffer.

Implicit Types (s : SyncBuffer.t Frame Result) (ts now : Z) (r : Result).
Implicit Types (key : string) (d : gmap string Result).

(** *** Recording a result *)

Lemma ensure_entry_frame_buffer s ts :
  frame_buffer (ensure_entry s ts) = frame_buffer s.
Proof. unfold ensure_entry. now destruct (result_buffer s !! ts). Qed.

Lemma ensure_entry_queue s ts :
  processed_data_queue (ensure_entry s ts) = processed_data_queue s.
Proof. unfold ensure_entry. now destruct (result_buffer s !! ts). Qed.

Lemma store_frame_buffer s ts key r :
  frame_buffer (store s ts key r) = frame_buffer s.
Proof. unfold store. now destruct (result_buffer s !! ts). Qed.

Lemma store_queue s ts key r :
  processed_data_queue (store s ts key r) = processed_data_queue s.
Proof. unfold store. now destruct (result_buffer s !! ts). Qed.

Lemma store_result_buffer s ts key r :
  result_buffer (store s ts key r) = result_buffer s.
Proof. unfold store. now destruct (result_buffer s !! ts). Qed.

(** After a callback has recorded its result, the pending dictionary of the
    timestamp is the former one (or a new, empty one) with the key set. *)
Lemma record_pending s ts key r :
  well_formed s ->
  pending (store (ensure_entry s ts) ts key r) ts
  = Some (<[key := r]> (default ∅ (pending s ts))).
Proof.
  intros (Hvalid & _ & _). unfold pending, store, ensure_entry.
  destruct (result_buffer s !! ts) as [l|] eqn:Hl; simpl.
  - rewrite Hl. simpl. rewrite Hl. simpl.
    rewrite list_lookup_alter_eq.
    destruct (lookup_lt_is_Some_2 (heap s) l (Hvalid ts l Hl)) as (d & ->).
    reflexivity.
  - rewrite lookup_insert_eq. simpl. rewrite lookup_insert_eq. simpl.
    rewrite list_lookup_alter_eq.
    rewrite lookup_app_r by lia. rewrite Nat.sub_diag. reflexivity.
Qed.

(** It changes no dictionary other than the pending one of its timestamp. *)
Lemma record_heap_other s ts key r (l : nat) :
  (l < length (heap s))%nat ->
  result_buffer s !! ts <> Some l ->
  heap (store (ensure_entry s ts) ts key r) !! l = heap s !! l.
Proof.
  intros Hl Hother. unfold store, ensure_entry.
  destruct (result_buffer s !! ts) as [l'|] eqn:Hl'; simpl.
  - rewrite Hl'. simpl. apply list_lookup_alter_ne. congruence.
  - rewrite lookup_insert_eq. simpl.
    rewrite list_lookup_alter_ne by lia. now apply lookup_app_l.
Qed.

End SyncEmission.

Section SyncInvariant.

Context {Frame Result : Type}.

Import SyncBuffer.

Implicit Types (s : SyncBuffer.t Frame Result) (ts now : Z) (r : Result).
Implicit Types (key : string) (d : gmap string Result).

(** *** The two outcomes of [_try_queue_results] *)

Lemma try_queue_fire s ts now l d :
  result_buffer s !! ts = Some l -> heap s !! l = Some d ->
  is_Some (d !! "face") -> is_Some (d !! "pose") ->
  _try_queue_results s ts now
  = _prune_buffers
      {| heap := heap s;
         frame_buffer := delete ts (frame_buffer s);
         result_buffer := delete ts (result_buffer s);
         processed_data_queue :=
           match frame_buffer s !! ts with
           | Some f => Deque.append queue_maxlen (processed_data_queue s) (f, l)
           | None => processed_data_queue s
           end |} now.
Proof.
  intros Hl Hd Hface Hpose. unfold _try_queue_results, pending.
  rewrite Hl. simpl. rewrite Hd.
  rewrite !bool_decide_eq_true_2 by assumption. simpl.
  now destruct (frame_buffer s !! ts).
Qed.

Lemma try_queue_idle s ts now :
  (forall d, pending s ts = Some d ->
             ~ (is_Some (d !! "face") /\ is_Some (d !! "pose"))) ->
  _try_queue_results s ts now = s.
Proof.
  intros Hidle. unfold _try_queue_results.
  destruct (pending s ts) as [d|] eqn:Hd; [|reflexivity].
  specialize (Hidle d eq_refl).
  destruct (bool_decide (is_Some (d !! "face"))) eqn:Hface; [|reflexivity].
  destruct (bool_decide (is_Some (d !! "pose"))) eqn:Hpose; [|reflexivity].
  apply bool_decide_eq_true_1 in Hface, Hpose. tauto.
Qed.

Lemma try_queue_heap s ts now : heap (_try_queue_results s ts now) = heap s.
Proof.
  unfold _try_queue_results.
  destruct (pending s ts) as [d|]; [|reflexivity].
  destruct (_ && _); [|reflexivity].
  now rewrite prune_heap.
Qed.

(** *** The invariant *)

Lemma init_well_formed_sync (frames : gmap Z Frame) :
  well_formed (Result := Result)
    {| heap := []; frame_buffer := frames; result_buffer := ∅;
       processed_data_queue := [] |}.
Proof.
  split; [|split]; simpl.
  - intros ts l Hl. now rewrite lookup_empty in Hl.
  - intros ts1 ts2 l Hl. now rewrite lookup_empty in Hl.
  - intros b Hb. now apply not_elem_of_nil in Hb.
Qed.

(** Storing or dropping frames, which the capture side does, keeps it. *)
Lemma frame_buffer_well_formed s (frames : gmap Z Frame) :
  well_formed s ->
  well_formed
    {| heap := heap s; frame_buffer := frames;
       result_buffer := result_buffer s;
       processed_data_queue := processed_data_queue s |}.
Proof. intros Hwf. exact Hwf. Qed.

Lemma ensure_entry_well_formed s ts :
  well_formed s -> well_formed (ensure_entry s ts).
Proof.
  intros Hwf. unfold ensure_entry.
  destruct (result_buffer s !! ts) as [l0|] eqn:Hts; [exact Hwf|].
  destruct Hwf as (Hvalid & Hinj & Hqueue).
  split; [|split]; simpl.
  - intros ts' l Hl. rewrite length_app. simpl.
    apply lookup_insert_Some in Hl as [[_ <-]|[_ Hl]]; [lia|].
    apply Hvalid in Hl. lia.
  - intros ts1 ts2 l H1 H2.
    apply lookup_insert_Some in H1 as [[<- <-]|[Hne1 H1]];
      apply lookup_insert_Some in H2 as [[<- Heq]|[Hne2 H2]];
      try reflexivity.
    + apply Hvalid in H2. lia.
    + apply Hvalid in H1. lia.
    + now apply (Hinj ts1 ts2 l).
  - intros b Hb. destruct (Hqueue b Hb) as (Hlt & Hfree).
    split; [rewrite length_app; lia|].
    intros ts' Hl.
    apply lookup_insert_Some in Hl as [[_ Heq]|[_ Hl]]; [lia|].
    now apply (Hfree ts').
Qed.

Lemma store_well_formed s ts key r :
  well_formed s -> well_formed (store s ts key r).
Proof.
  intros Hwf. unfold store.
  destruct (result_buffer s !! ts) as [l|]; [|exact Hwf].
  destruct Hwf as (Hvalid & Hinj & Hqueue).
  split; [|split]; simpl; try rewrite length_alter; assumption.
Qed.

Lemma prune_well_formed s now :
  well_formed s -> well_formed (_prune_buffers s now).
Proof.
  intros (Hvalid & Hinj & Hqueue).
  split; [|split]; rewrite ?prune_heap, ?prune_queue.
  - intros ts l Hl. apply prune_result_buffer_Some in Hl. eauto.
  - intros ts1 ts2 l H1 H2.
    apply prune_result_buffer_Some in H1, H2. eauto.
  - intros b Hb. destruct (Hqueue b Hb) as (Hlt & Hfree).
    split; [exact Hlt|].
    intros ts Hl. apply prune_result_buffer_Some in Hl. now apply (Hfree ts).
Qed.

Lemma try_queue_well_formed s ts now :
  well_formed s -> well_formed (_try_queue_results s ts now).
Proof.
  intros Hwf. unfold _try_queue_results.
  destruct (pending s ts) as [d|] eqn:Hd; [|exact Hwf].
  destruct (_ && _); [|exact Hwf].
  apply prune_well_formed.
  destruct Hwf as (Hvalid & Hinj & Hqueue).
  split; [|split]; simpl.
  - intros ts' l Hl. apply lookup_delete_Some in Hl as [_ Hl]. eauto.
  - intros ts1 ts2 l H1 H2.
    apply lookup_delete_Some in H1 as [_ H1].
    apply lookup_delete_Some in H2 as [_ H2]. eauto.
  - assert (Hold : forall b, b ∈ processed_data_queue s ->
              (snd b < length (heap s))%nat
              /\ forall ts', delete ts (result_buffer s) !! ts' <> Some (snd b)).
    { intros b Hb. destruct (Hqueue b Hb) as (Hlt & Hfree).
      split; [exact Hlt|]. intros ts' Hl.
      apply lookup_delete_Some in Hl as [_ Hl]. now apply (Hfree ts'). }
    destruct (frame_buffer s !! ts) as [f|]; [|exact Hold].
    destruct (result_buffer s !! ts) as [l|] eqn:Hl; [|exact Hold].
    intros b Hb. apply elem_of_deque_append in Hb as [Hb| ->]; [now apply Hold|].
    simpl. split; [now apply (Hvalid ts)|].
    intros ts' Hl'. apply lookup_delete_Some in Hl' as [Hne Hl'].
    apply Hne. now apply (Hinj ts ts' l).
Qed.

Lemma on_face_result_well_formed s r ts now :
  well_formed s -> well_formed (on_face_result s r ts now).
Proof.
  intros Hwf. unfold on_face_result.
  now apply try_queue_well_formed, store_well_formed, ensure_entry_well_formed.
Qed.

Lemma on_pose_result_well_formed s r ts now :
  well_formed s -> well_formed (on_pose_result s r ts now).
Proof.
  intros Hwf. unfold on_pose_result.
  now apply try_queue_well_formed, store_well_formed, ensure_entry_well_formed.
Qed.

Lemma on_hand_result_well_formed s r ts :
  well_formed s -> well_formed (on_hand_result s r ts).
Proof.
  intros Hwf. unfold on_hand_result.
  now apply store_well_formed, ensure_entry_well_formed.
Qed.

Lemma on_object_result_well_formed s r ts :
  well_formed s -> well_formed (on_object_result s r ts).
Proof.
  intros Hwf. unfold on_object_result.
  now apply store_well_formed, ensure_entry_well_formed.
Qed.

Lemma popleft_well_formed s b s' :
  well_formed s -> popleft s = Some (b, s') -> well_formed s'.
Proof.
  intros (Hvalid & Hinj & Hqueue) Hpop. unfold popleft in Hpop.
  destruct (processed_data_queue s) as [|b0 rest] eqn:Hq; [discriminate|].
  injection Hpop as <- <-.
  split; [|split]; simpl; try assumption.
  intros b Hb. apply Hqueue. now right.
Qed.

End SyncInvariant.

Section SyncBundles.

Context {Frame Result : Type}.

Import SyncBuffer.

Implicit Types (s : SyncBuffer.t Frame Result) (ts now : Z) (r : Result).
Implicit Types (key : string) (d : gmap string Result).

(** A queue that did not change received no bundle. *)
Lemma same_queue_no_emit s s' f d :
  processed_data_queue s' = processed_data_queue s -> ~ emits s s' f d.
Proof.
  intros Hsame (l & Hq & _ & Hfresh).
  assert (Hin : (f, l) ∈ processed_data_queue s).
  { rewrite <- Hsame, Hq. apply deque_append_elem_of. unfold queue_maxlen. lia. }
  now apply (Hfresh _ Hin).
Qed.

(** What a face or pose callback does: record under [key], then try to
    queue. *)
Lemma record_then_try s ts now key r :
  well_formed s ->
  let entry := <[key := r]> (default ∅ (pending s ts)) in
  let ready :=
    is_Some (entry !! "face") /\ is_Some (entry !! "pose")
    /\ is_Some (frame_buffer s !! ts) in
  let s' :=
    _try_queue_results (store (ensure_entry s ts) ts key r) ts now in
  ((exists f d, emits s s' f d) <-> ready)
  /\ (forall f d, emits s s' f d -> frame_buffer s !! ts = Some f /\ d = entry)
  /\ (~ ready -> processed_data_queue s' = processed_data_queue s).
Proof.
  intros Hwf entry ready s'.
  set (s1 := store (ensure_entry s ts) ts key r) in *.
  assert (Hwf1 : well_formed s1)
    by now apply store_well_formed, ensure_entry_well_formed.
  assert (Hpending : pending s1 ts = Some entry) by now apply record_pending.
  assert (Hframes : frame_buffer s1 = frame_buffer s)
    by (subst s1; now rewrite store_frame_buffer, ensure_entry_frame_buffer).
  assert (Hqueue : processed_data_queue s1 = processed_data_queue s)
    by (subst s1; now rewrite store_queue, ensure_entry_queue).
  unfold pending in Hpending.
  destruct (result_buffer s1 !! ts) as [l|] eqn:Hl; [|discriminate].
  simpl in Hpending.
  destruct (decide (is_Some (entry !! "face") /\ is_Some (entry !! "pose")))
    as [[Hface Hpose]|Hnot].
  - assert (Hs' : s' = _prune_buffers
        {| heap := heap s1;
           frame_buffer := delete ts (frame_buffer s1);
           result_buffer := delete ts (result_buffer s1);
           processed_data_queue :=
             match frame_buffer s1 !! ts with
             | Some f =>
                 Deque.append queue_maxlen (processed_data_queue s1) (f, l)
             | None => processed_data_queue s1
             end |} now)
      by (subst s'; now apply (try_queue_fire s1 ts now l entry)).
    assert (Hheap : heap s' = heap s1) by (rewrite Hs', prune_heap; reflexivity).
    assert (Hq' : processed_data_queue s'
                  = match frame_buffer s !! ts with
                    | Some f =>
                        Deque.append queue_maxlen (processed_data_queue s) (f, l)
                    | None => processed_data_queue s
                    end).
    { rewrite Hs', prune_queue. simpl. now rewrite Hframes, Hqueue. }
    destruct (frame_buffer s !! ts) as [f|] eqn:Hf.
    + assert (Hemit : emits s s' f entry).
      { exists l. split; [exact Hq'|]. split; [now rewrite Hheap|].
        intros b Hb Heq. rewrite <- Hqueue in Hb.
        destruct Hwf1 as (_ & _ & Hfree).
        destruct (Hfree b Hb) as (_ & Hnone).
        apply (Hnone ts). now rewrite Heq. }
      split; [|split].
      * split; [intros _; unfold ready; eauto | intros _; eauto].
      * intros f' d' (l' & Hq'' & Hd' & _).
        rewrite Hq' in Hq''.
        apply deque_append_inj in Hq''; [|unfold queue_maxlen; lia].
        injection Hq'' as -> ->.
        rewrite Hheap, Hpending in Hd'. injection Hd' as <-. now split.
      * intros Hnr. exfalso. apply Hnr. unfold ready. eauto.
    + split; [|split].
      * split.
        -- intros (f & d & Hemit). now apply same_queue_no_emit in Hemit.
        -- intros (_ & _ & [f Hsome]). discriminate.
      * intros f d Hemit. now apply same_queue_no_emit in Hemit.
      * intros _. exact Hq'.
  - assert (Hs' : s' = s1).
    { subst s'. apply try_queue_idle. intros d Hd.
      unfold pending in Hd. rewrite Hl in Hd. simpl in Hd.
      rewrite Hpending in Hd. injection Hd as <-. exact Hnot. }
    assert (Hq' : processed_data_queue s' = processed_data_queue s)
      by now rewrite Hs'.
    split; [|split].
    + split.
      * intros (f & d & Hemit). now apply same_queue_no_emit in Hemit.
      * intros (Hface & Hpose & _). tauto.
    + intros f d Hemit. now apply same_queue_no_emit in Hemit.
    + intros _. exact Hq'.
Qed.

(** A hand or object callback leaves every queued bundle as it is. *)
Lemma record_keeps_bundles s ts key r :
  well_formed s -> bundles (store (ensure_entry s ts) ts key r) = bundles s.
Proof.
  intros (Hvalid & Hinj & Hqueue). unfold bundles.
  rewrite store_queue, ensure_entry_queue.
  apply List.map_ext_in. intros b Hb. apply list_elem_of_In in Hb.
  destruct (Hqueue b Hb) as (Hlt & Hfree).
  f_equal. apply record_heap_other; [exact Hlt | apply Hfree].
Qed.

End SyncBundles.

(** C3, as the code has it.  A face or pose callback appends a bundle to the
    output queue exactly when, with its own result recorded, the timestamp
    has a face entry, a pose entry and a frame stored in [frame_buffer].  The
    bundle pairs that frame with the pending dictionary: hand and object
    entries recorded before ride along, others are absent.  In every other
    case the queue stays as it is.  A hand or object callback never changes a
    queued bundle, whether or not its timestamp was emitted or pruned
    before. *)
Theorem bundle_emission {Frame Result : Type}
    (s : SyncBuffer.t Frame Result) (r : Result) (ts now : Z) :
  SyncBuffer.well_formed s ->
  let before := default ∅ (SyncBuffer.pending s ts) in
  let ready (entry : gmap string Result) :=
    is_Some (entry !! "face") /\ is_Some (entry !! "pose")
    /\ is_Some (SyncBuffer.frame_buffer s !! ts) in
  let rule (entry : gmap string Result) (s' : SyncBuffer.t Frame Result) :=
    ((exists f d, SyncBuffer.emits s s' f d) <-> ready entry)
    /\ (forall f d,
          SyncBuffer.emits s s' f d ->
          SyncBuffer.frame_buffer s !! ts = Some f /\ d = entry
          /\ d !! "hand" = before !! "hand"
          /\ d !! "object" = before !! "object")
    /\ (~ ready entry ->
        SyncBuffer.processed_data_queue s' = SyncBuffer.processed_data_queue s) in
  rule (<["face" := r]> before) (SyncBuffer.on_face_result s r ts now)
  /\ rule (<["pose" := r]> before) (SyncBuffer.on_pose_result s r ts now)
  /\ SyncBuffer.bundles (SyncBuffer.on_hand_result s r ts) = SyncBuffer.bundles s
  /\ SyncBuffer.bundles (SyncBuffer.on_object_result s r ts)
     = SyncBuffer.bundles s.
Proof.
  intros Hwf before ready rule.
  assert (Hrule : forall key, key <> "hand" -> key <> "object" ->
            rule (<[key := r]> before)
                 (SyncBuffer._try_queue_results
                    (SyncBuffer.store (SyncBuffer.ensure_entry s ts) ts key r)
                    ts now)).
  { intros key Hhand Hobject.
    destruct (record_then_try s ts now key r Hwf) as (Hiff & Hwhat & Hidle).
    split; [exact Hiff|]. split; [|exact Hidle].
    intros f d Hemit. destruct (Hwhat f d Hemit) as (Hf & ->).
    split; [exact Hf|]. split; [reflexivity|].
    split; now apply lookup_insert_ne. }
  split; [apply Hrule; discriminate|].
  split; [apply Hrule; discriminate|].
  split; now apply record_keeps_bundles.
Qed.

Lemma bundle_emission_witness :
  let s0 : SyncBuffer.t nat nat :=
    {| SyncBuffer.heap := [];
       SyncBuffer.frame_buffer := {[1000%Z := 42%nat]};
       SyncBuffer.result_buffer := ∅;
       SyncBuffer.processed_data_queue := [] |} in
  let s1 := SyncBuffer.on_face_result s0 10%nat 1000 1000 in
  let s2 := SyncBuffer.on_pose_result s1 11%nat 1000 1000 in
  (exists f d, SyncBuffer.emits s1 s2 f d)
  /\ SyncBuffer.bundles s2
     = [(42%nat, Some (<["face" := 10%nat]> {["pose" := 11%nat]}))]
  /\ SyncBuffer.bundles (SyncBuffer.on_hand_result s2 12%nat 1000)
     = SyncBuffer.bundles s2.
Proof.
  intros s0 s1 s2.
  assert (Hwf1 : SyncBuffer.well_formed s1)
    by apply on_face_result_well_formed, init_well_formed_sync.
  assert (Hwf2 : SyncBuffer.well_formed s2)
    by apply on_pose_result_well_formed, Hwf1.
  split; [|split].
  - destruct (bundle_emission s1 11%nat 1000 1000 Hwf1) as (_ & (Hiff & _) & _).
    apply Hiff. repeat split; vm_compute; eauto.
  - reflexivity.
  - destruct (bundle_emission s2 12%nat 1000 1000 Hwf2) as (_ & _ & Hhand & _).
    exact Hhand.
Defined.

(** C3 as stated fails.  Frames are stored for timestamps 1000 and 5000.
    The bundle of 5000 is emitted at time 5000 and the prune that follows
    drops the frame of 1000.  When face and pose then arrive for 1000, both
    entries exist as the pose callback checks, yet no bundle is appended and
    the two results are discarded. *)
Lemma bundle_emission_counterexample :
  let s0 : SyncBuffer.t nat nat :=
    {| SyncBuffer.heap := [];
       SyncBuffer.frame_buffer := <[1000%Z := 41%nat]> {[5000%Z := 45%nat]};
       SyncBuffer.result_buffer := ∅;
       SyncBuffer.processed_data_queue := [] |} in
  let s1 :=
    SyncBuffer.on_pose_result
      (SyncBuffer.on_face_result s0 20%nat 5000 5000) 21%nat 5000 5000 in
  let s2 := SyncBuffer.on_face_result s1 10%nat 1000 5001 in
  let recorded :=
    SyncBuffer.store (SyncBuffer.ensure_entry s2 1000) 1000 "pose" 11%nat in
  let s3 := SyncBuffer.on_pose_result s2 11%nat 1000 5002 in
  SyncBuffer.frame_buffer s1 !! 1000%Z = None
  /\ SyncBuffer.pending recorded 1000
     = Some (<["face" := 10%nat]> {["pose" := 11%nat]})
  /\ s3 = SyncBuffer._try_queue_results recorded 1000 5002
  /\ SyncBuffer.processed_data_queue s3 = SyncBuffer.processed_data_queue s1
  /\ length (SyncBuffer.processed_data_queue s3) = 1%nat
  /\ SyncBuffer.pending s3 1000 = None.
Proof. repeat split; reflexivity. Qed.

(** ** The identity cache *)

Section IdentityCacheFacts.

Context {K V W : Type} `{EqDecision K}.

Import IdentityCache.

Implicit Types (entries pre post : list (CacheEntry K V)) (e : CacheEntry K V).
Implicit Types (k : K) (f : W -> V * W) (w : W) (now : Q).

Lemma find_entry_skip k pre rest :
  Forall (fun x => key x <> k) pre ->
  find_entry k (pre ++ rest) = find_entry k rest.
Proof.
  unfold find_entry. induction pre as [|x pre IH]; intros Hpre; [reflexivity|].
  inversion Hpre as [|? ? Hx Hrest]; subst. simpl.
  rewrite bool_decide_eq_false_2 by exact Hx. now apply IH.
Qed.

Lemma find_entry_holds k e n entries :
  key e = k -> holds k e n entries -> find_entry k entries = Some e.
Proof.
  intros Hk (pre & post & -> & Hpre & _ & _).
  rewrite find_entry_skip by exact Hpre.
  unfold find_entry. simpl. now rewrite bool_decide_eq_true_2.
Qed.

Lemma filter_other_keys k k' pre :
  Forall (fun x => key x <> k) pre ->
  Forall (fun x => key x <> k)
         (List.filter (fun x => negb (bool_decide (key x = k'))) pre).
Proof.
  intros Hpre. apply List.Forall_forall. intros x Hx.
  apply List.filter_In in Hx as [Hx _].
  rewrite List.Forall_forall in Hpre. now apply Hpre.
Qed.

Lemma filter_length_le k' pre :
  (length (List.filter (fun x : CacheEntry K V =>
                          negb (bool_decide (key x = k'))) pre)
   <= length pre)%nat.
Proof. apply List.filter_length_le. Qed.

(** The outcome of a lookup that finds no usable entry. *)
Lemma get_or_compute_miss entries k f now w :
  match find_entry k entries with
  | Some e => ttl < now - inserted e
  | None => True
  end ->
  get_or_compute entries k f now w
  = (let inserted_entries :=
       List.filter (fun x => negb (bool_decide (key x = k))) entries
       ++ [{| key := k; value := fst (f w); inserted := now |}] in
     (fst (f w),
      if (capacity <? length inserted_entries)%nat
      then tail inserted_entries else inserted_entries,
      snd (f w))).
Proof.
  intros Hmiss. unfold get_or_compute.
  destruct (f w) as [v w'] eqn:Hf. simpl.
  destruct (find_entry k entries) as [e|]; [|reflexivity].
  apply py_le_false in Hmiss. now rewrite Hmiss.
Qed.

(** The outcome of a lookup that finds an entry young enough. *)
Lemma get_or_compute_hit entries k f now w e :
  find_entry k entries = Some e -> now - inserted e <= ttl ->
  get_or_compute entries k f now w = (value e, entries, w).
Proof.
  intros Hfind Hyoung. unfold get_or_compute. rewrite Hfind.
  apply py_le_true in Hyoung. now rewrite Hyoung.
Qed.

End IdentityCacheFacts.

Section IdentityCacheRuns.

Context {K V W : Type} `{EqDecision K}.

Import IdentityCache.

Implicit Types (entries pre post : list (CacheEntry K V)) (e : CacheEntry K V).
Implicit Types (k : K) (f : W -> V * W) (w : W) (now : Q).
Implicit Types (mid : list (Lookup K V W)).

(** A lookup either returns a stored value and changes nothing, or computes
    and inserts. *)
Lemma get_or_compute_cases entries k f now w :
  (exists e, find_entry k entries = Some e
             /\ get_or_compute entries k f now w = (value e, entries, w))
  \/ get_or_compute entries k f now w
     = (let inserted_entries :=
          List.filter (fun x => negb (bool_decide (key x = k))) entries
          ++ [{| key := k; value := fst (f w); inserted := now |}] in
        (fst (f w),
         if (capacity <? length inserted_entries)%nat
         then tail inserted_entries else inserted_entries,
         snd (f w))).
Proof.
  destruct (find_entry k entries) as [e|] eqn:Hfind.
  - destruct (Py.le (now - inserted e) ttl) eqn:Hage.
    + left. exists e. split; [reflexivity|].
      apply get_or_compute_hit; [exact Hfind | now apply py_le_true].
    + right. apply get_or_compute_miss. rewrite Hfind.
      now apply py_le_false.
  - right. apply get_or_compute_miss. now rewrite Hfind.
Qed.

(** After a computation for [k], its entry is the newest one. *)
Lemma miss_holds entries k (v : V) now :
  let inserted_entries :=
    List.filter (fun x => negb (bool_decide (key x = k))) entries
    ++ [{| key := k; value := v; inserted := now |}] in
  holds k {| key := k; value := v; inserted := now |} 0
        (if (capacity <? length inserted_entries)%nat
         then tail inserted_entries else inserted_entries).
Proof.
  intros inserted_entries. subst inserted_entries.
  set (pre := List.filter (fun x => negb (bool_decide (key x = k))) entries).
  assert (Hpre : Forall (fun x => key x <> k) pre).
  { apply List.Forall_forall. intros x Hx.
    apply List.filter_In in Hx as [_ Hx].
    apply negb_true_iff, bool_decide_eq_false_1 in Hx. exact Hx. }
  destruct (capacity <? length (pre ++ [_]))%nat eqn:Hfull.
  - destruct pre as [|p pre'].
    + apply Nat.ltb_lt in Hfull. simpl in Hfull. unfold capacity in Hfull. lia.
    + simpl. exists pre', []. inversion Hpre; subst. now repeat split.
  - exists pre, []. now repeat split.
Qed.

(** A lookup of another key keeps the entry while few entries are newer. *)
Lemma step_holds entries k k' e n f now w :
  key e = k -> k' <> k -> (S n < capacity)%nat -> holds k e n entries ->
  holds k e (S n) (snd (fst (get_or_compute entries k' f now w))).
Proof.
  intros Hk Hne Hroom (pre & post & -> & Hpre & Hpost & Hlen).
  destruct (get_or_compute_cases (pre ++ e :: post) k' f now w)
    as [(e' & _ & ->)| ->]; simpl.
  - exists pre, post. repeat split; try assumption. lia.
  - rewrite List.filter_app. simpl.
    rewrite bool_decide_eq_false_2 by congruence. simpl.
    set (pre' := List.filter _ pre). set (post' := List.filter _ post).
    assert (Hpre' : Forall (fun x => key x <> k) pre')
      by now apply filter_other_keys.
    assert (Hpost' : Forall (fun x => key x <> k) post')
      by now apply filter_other_keys.
    assert (Hlen' : (length post' <= length post)%nat)
      by apply filter_length_le.
    set (new := {| key := k'; value := fst (f w); inserted := now |}).
    assert (Hnew : Forall (fun x => key x <> k) (post' ++ [new])).
    { apply Forall_app. split; [exact Hpost'|].
      constructor; [simpl; congruence | constructor]. }
    assert (Hshape : (pre' ++ e :: post') ++ [new]
                     = pre' ++ e :: (post' ++ [new]))
      by now rewrite <- app_assoc.
    rewrite Hshape.
    destruct (capacity <? length (pre' ++ e :: post' ++ [new]))%nat eqn:Hfull.
    + destruct pre' as [|p pre''].
      * apply Nat.ltb_lt in Hfull. simpl in Hfull.
        rewrite length_app in Hfull. simpl in Hfull. lia.
      * simpl. exists pre'', (post' ++ [new]).
        inversion Hpre'; subst. repeat split; try assumption.
        rewrite length_app. simpl. lia.
    + exists pre', (post' ++ [new]). repeat split; try assumption.
      rewrite length_app. simpl. lia.
Qed.

Lemma run_cons (l : Lookup K V W) mid entries w :
  run (l :: mid) entries w
  = run mid
      (snd (fst (get_or_compute entries (lookup_key l) (lookup_fn l)
                                (lookup_time l) w)))
      (snd (get_or_compute entries (lookup_key l) (lookup_fn l)
                           (lookup_time l) w)).
Proof.
  unfold run. simpl.
  now destruct (get_or_compute entries _ _ _ w) as [[v entries'] w'].
Qed.

(** Fewer than [capacity] lookups of other keys keep the entry. *)
Lemma run_holds mid : forall entries k e n w,
  key e = k ->
  Forall (fun l => lookup_key l <> k) mid ->
  (n + length mid < capacity)%nat ->
  holds k e n entries ->
  holds k e (n + length mid) (fst (run mid entries w)).
Proof.
  induction mid as [|l mid IH]; intros entries k e n w Hk Hmid Hroom Hholds.
  - simpl. now rewrite Nat.add_0_r.
  - inversion Hmid as [|? ? Hl Hrest]; subst. rewrite run_cons.
    simpl in Hroom |- *. rewrite <- Nat.add_succ_comm.
    apply IH; [reflexivity | exact Hrest | lia |].
    apply step_holds; [reflexivity | exact Hl | lia | exact Hholds].
Qed.

(** Lookups of other keys leave the insertion time of the key alone. *)
Lemma step_stamped entries k k' time f now w :
  k' <> k -> stamped k time entries ->
  stamped k time (snd (fst (get_or_compute entries k' f now w))).
Proof.
  intros Hne Hstamped. unfold stamped in *.
  destruct (get_or_compute_cases entries k' f now w)
    as [(e' & _ & ->)| ->]; simpl; [exact Hstamped|].
  assert (Hall : Forall (fun x => key x = k -> inserted x = time)
            (List.filter (fun x => negb (bool_decide (key x = k'))) entries
             ++ [{| key := k'; value := fst (f w); inserted := now |}])).
  { apply Forall_app. split.
    - apply List.Forall_forall. intros x Hx.
      apply List.filter_In in Hx as [Hx _].
      rewrite List.Forall_forall in Hstamped. now apply Hstamped.
    - constructor; [simpl; congruence | constructor]. }
  destruct (capacity <? _)%nat; [|exact Hall].
  destruct (List.filter _ entries ++ [_]) as [|x rest]; [constructor|].
  simpl. now inversion Hall.
Qed.

Lemma run_stamped mid : forall entries k time w,
  Forall (fun l => lookup_key l <> k) mid ->
  stamped k time entries ->
  stamped k time (fst (run mid entries w)).
Proof.
  induction mid as [|l mid IH]; intros entries k time w Hmid Hstamped.
  - exact Hstamped.
  - inversion Hmid as [|? ? Hl Hrest]; subst. rewrite run_cons.
    apply IH; [exact Hrest|]. now apply step_stamped.
Qed.

Lemma holds_stamped k e n entries :
  key e = k -> holds k e n entries -> stamped k (inserted e) entries.
Proof.
  intros Hk (pre & post & -> & Hpre & Hpost & _). unfold stamped.
  apply Forall_app. split; [|constructor].
  - eapply Forall_impl; [exact Hpre|]. simpl. intros x Hx Hkx. contradiction.
  - reflexivity.
  - eapply Forall_impl; [exact Hpost|]. simpl. intros x Hx Hkx. contradiction.
Qed.

(** The capacity bounds the cache. *)
Lemma get_or_compute_length entries k f now w :
  (length entries <= capacity)%nat ->
  (length (snd (fst (get_or_compute entries k f now w))) <= capacity)%nat.
Proof.
  intros Hlen.
  destruct (get_or_compute_cases entries k f now w)
    as [(e' & _ & ->)| ->]; simpl; [exact Hlen|].
  pose proof (filter_length_le k entries) as Hfilter.
  set (kept := List.filter _ entries) in *.
  destruct (capacity <? length (kept ++ [_]))%nat eqn:Hfull.
  - destruct kept as [|x rest]; simpl in *; [unfold capacity; lia|].
    rewrite length_app. simpl. lia.
  - now apply Nat.ltb_ge in Hfull.
Qed.

End IdentityCacheRuns.

Section IdentityCacheBounds.

Context {K V W : Type} `{EqDecision K}.

Import IdentityCache.

Lemma run_length (mid : list (Lookup K V W)) :
  forall (entries : list (CacheEntry K V)) (w : W),
  (length entries <= capacity)%nat ->
  (length (fst (run mid entries w)) <= capacity)%nat.
Proof.
  induction mid as [|l mid IH]; intros entries w Hlen; [exact Hlen|].
  rewrite run_cons. apply IH. now apply get_or_compute_length.
Qed.

Lemma filter_absent_key (k : K) (entries : list (CacheEntry K V)) :
  find_entry k entries = None ->
  List.filter (fun x => negb (bool_decide (key x = k))) entries = entries.
Proof.
  unfold find_entry. induction entries as [|x entries IH]; [reflexivity|].
  simpl. destruct (bool_decide (key x = k)); [discriminate|].
  intros Hrest. simpl. now rewrite IH.
Qed.

End IdentityCacheBounds.

(** C7, on the cache as the specification describes it.  Take a lookup of
    key [k] at time [t1] that finds no usable entry, followed by lookups of
    other keys.  The first lookup runs the computation once and returns its
    value.  After fewer than five lookups of other keys, a lookup of [k] at a
    time [t2] with [t2 - t1 <= 300] returns that same value and runs nothing:
    cache and world stay as they are.  A lookup of [k] at a time [t3] with
    [t3 - t1 > 300] runs the computation again.  A cache of at most five
    entries stays within five entries, and when a new key arrives at a full
    cache the oldest entry is the one that leaves. *)
Theorem identity_cache_memoization {K V W : Type} `{EqDecision K}
    (entries : list (IdentityCache.CacheEntry K V)) (k : K)
    (f1 f2 f3 : W -> V * W) (t1 t2 t3 : Q) (w0 : W)
    (mid : list (IdentityCache.Lookup K V W)) :
  match IdentityCache.find_entry k entries with
  | Some e => IdentityCache.ttl < t1 - IdentityCache.inserted e
  | None => True
  end ->
  Forall (fun l => IdentityCache.lookup_key l <> k) mid ->
  let first := IdentityCache.get_or_compute entries k f1 t1 w0 in
  let v1 := fst (fst first) in
  let c1 := snd (fst first) in
  let w1 := snd first in
  let cm := fst (IdentityCache.run mid c1 w1) in
  let wm := snd (IdentityCache.run mid c1 w1) in
  (v1, w1) = f1 w0
  /\ ((length mid < IdentityCache.capacity)%nat ->
      t2 - t1 <= IdentityCache.ttl ->
      IdentityCache.get_or_compute cm k f2 t2 wm = (v1, cm, wm))
  /\ (IdentityCache.ttl < t3 - t1 ->
      fst (fst (IdentityCache.get_or_compute cm k f3 t3 wm)) = fst (f3 wm)
      /\ snd (IdentityCache.get_or_compute cm k f3 t3 wm) = snd (f3 wm))
  /\ ((length entries <= IdentityCache.capacity)%nat ->
      (length c1 <= IdentityCache.capacity)%nat
      /\ (length cm <= IdentityCache.capacity)%nat)
  /\ (forall oldest rest,
        entries = oldest :: rest ->
        length entries = IdentityCache.capacity ->
        IdentityCache.find_entry k entries = None ->
        c1 = rest ++ [{| IdentityCache.key := k;
                         IdentityCache.value := v1;
                         IdentityCache.inserted := t1 |}]).
Proof.
  intros Hmiss Hmid first v1 c1 w1 cm wm.
  pose proof (get_or_compute_miss entries k f1 t1 w0 Hmiss) as Hfirst.
  fold first in Hfirst. cbv zeta in Hfirst.
  set (new := {| IdentityCache.key := k;
                 IdentityCache.value := fst (f1 w0);
                 IdentityCache.inserted := t1 |}) in *.
  assert (Hv1 : v1 = fst (f1 w0)) by (subst v1; now rewrite Hfirst).
  assert (Hw1 : w1 = snd (f1 w0)) by (subst w1; now rewrite Hfirst).
  assert (Hholds : IdentityCache.holds k new 0 c1).
  { subst c1. rewrite Hfirst. simpl. apply miss_holds. }
  split; [|split; [|split; [|split]]].
  - rewrite Hv1, Hw1. now destruct (f1 w0).
  - intros Hshort Hyoung.
    assert (Hkept : IdentityCache.holds k new (0 + length mid) cm).
    { subst cm. apply run_holds; [reflexivity | exact Hmid | | exact Hholds].
      simpl. exact Hshort. }
    rewrite (get_or_compute_hit cm k f2 t2 wm new).
    + now rewrite Hv1.
    + now apply (find_entry_holds k new (0 + length mid)).
    + exact Hyoung.
  - intros Hold.
    assert (Hstamped : IdentityCache.stamped k t1 cm).
    { subst cm. apply run_stamped; [exact Hmid|].
      now apply (holds_stamped k new 0). }
    rewrite get_or_compute_miss; [now split|].
    destruct (IdentityCache.find_entry k cm) as [e|] eqn:Hfind; [|exact I].
    unfold IdentityCache.find_entry in Hfind.
    apply List.find_some in Hfind as [Hin Hkey].
    apply bool_decide_eq_true_1 in Hkey.
    unfold IdentityCache.stamped in Hstamped.
    rewrite List.Forall_forall in Hstamped.
    now rewrite (Hstamped e Hin Hkey).
  - intros Hlen.
    assert (Hc1 : (length c1 <= IdentityCache.capacity)%nat)
      by (subst c1 first; now apply get_or_compute_length).
    split; [exact Hc1|]. subst cm. now apply run_length.
  - intros oldest rest Hentries Hfull Hnone.
    subst c1. rewrite Hfirst. simpl.
    rewrite filter_absent_key by exact Hnone.
    rewrite length_app, Hfull. simpl.
    rewrite Hentries, Hv1. reflexivity.
Qed.

Lemma identity_cache_memoization_witness :
  let f := fun calls : nat => (7%nat, S calls) in
  let other k :=
    {| IdentityCache.lookup_key := k; IdentityCache.lookup_fn := f;
       IdentityCache.lookup_time := 10 |} in
  let first := IdentityCache.get_or_compute (K := string) [] "k1" f 0 0%nat in
  let c1 := snd (fst first) in
  let w1 := snd first in
  let cm := fst (IdentityCache.run [other "k2"; other "k3"] c1 w1) in
  let wm := snd (IdentityCache.run [other "k2"; other "k3"] c1 w1) in
  w1 = 1%nat
  /\ wm = 3%nat
  /\ IdentityCache.get_or_compute cm "k1" f 299 wm = (7%nat, cm, 3%nat)
  /\ snd (IdentityCache.get_or_compute cm "k1" f 301 wm) = 4%nat.
Proof.
  intros f other first c1 w1 cm wm.
  assert (Hother : Forall (fun l => IdentityCache.lookup_key l <> "k1")
                          [other "k2"; other "k3"])
    by (repeat constructor; discriminate).
  destruct (identity_cache_memoization (K := string) [] "k1" f f f 0 299 301
              0%nat [other "k2"; other "k3"] I Hother)
    as (Hran & Hmemo & Hexpired & _).
  split; [reflexivity|]. split; [reflexivity|]. split.
  - apply Hmemo; [vm_compute; lia | vm_compute; discriminate].
  - apply Hexpired. vm_compute. reflexivity.
Defined.

(** C7 as stated fails on the cache of the specification: the key "k1" is
    looked up at time 0, five other keys are looked up at time 1, and the
    sixth entry evicts the oldest one, that of "k1"; the lookup of "k1" at
    time 2, well within 300 s of its insertion, runs the computation a second
    time. *)
Lemma identity_cache_memoization_counterexample :
  let f (k : string) :=
    fun log : list string => (String.length k, log ++ [k]) in
  let lookup k time :=
    {| IdentityCache.lookup_key := k; IdentityCache.lookup_fn := f k;
       IdentityCache.lookup_time := time |} in
  let first := IdentityCache.get_or_compute [] "k1" (f "k1") 0 [] in
  let others :=
    IdentityCache.run
      [lookup "k2" 1; lookup "k3" 1; lookup "k4" 1; lookup "k5" 1; lookup "k6" 1]
      (snd (fst first)) (snd first) in
  let second :=
    IdentityCache.get_or_compute (fst others) "k1" (f "k1") 2 (snd others) in
  2 - 0 <= IdentityCache.ttl
  /\ snd first = ["k1"]
  /\ IdentityCache.find_entry "k1" (fst others) = None
  /\ snd second = ["k1"; "k2"; "k3"; "k4"; "k5"; "k6"; "k1"].
Proof.
  split; [vm_compute; discriminate|].
  split; [reflexivity|]. split; reflexivity.
Qed.

(** * Further properties of the state machine *)

Section StateManagerRuns.

Import StateManager.

Lemma deliver_snoc input er (sm : StateManager.t) :
  deliver (input ++ [er]) sm
  = handle_event (deliver input sm) (fst er) (r_decide (snd er))
                 (r_record (snd er)) (r_restart (snd er)).
Proof. unfold deliver. now rewrite fold_left_app. Qed.

Lemma init_consistent (now : Q) : consistent (StateManager.init now).
Proof.
  unfold consistent. simpl.
  split; [unfold history_maxlen; lia|].
  split; [intros r Hr; now apply not_elem_of_nil in Hr|].
  repeat split; easy.
Qed.

Lemma handle_event_consistent (sm : StateManager.t) event t1 t2 t3 :
  consistent sm -> consistent (handle_event sm event t1 t2 t3).
Proof.
  intros Hc.
  destruct (decide (_determine_enhanced_new_state sm event t1 = current_state sm))
    as [Hsame|Hchange].
  { now rewrite handle_event_same. }
  rewrite handle_event_change by exact Hchange.
  destruct Hc as (Hlen & Hreal & Hlink & Hlast & Hempty).
  set (new := _determine_enhanced_new_state sm event t1) in *.
  set (rec := {| timestamp := t2; from_state := current_state sm;
                 to_state := new; trigger_event := event |}).
  destruct (deque_append_last history_maxlen (state_history sm) rec)
    as (pre & Hpre); [unfold history_maxlen; lia|].
  assert (Hlinked : forall i r1 r2,
            (state_history sm ++ [rec]) !! i = Some r1 ->
            (state_history sm ++ [rec]) !! S i = Some r2 ->
            to_state r1 = from_state r2).
  { intros i r1 r2 H1 H2.
    destruct (decide (S i < length (state_history sm))%nat) as [Hin|Hout].
    - rewrite lookup_app_l in H1 by lia. rewrite lookup_app_l in H2 by lia.
      now apply (Hlink i).
    - assert (Hi : S i = length (state_history sm)).
      { apply lookup_lt_Some in H2. rewrite length_app in H2. simpl in H2. lia. }
      rewrite lookup_app_l in H1 by lia.
      rewrite lookup_app_r in H2 by lia.
      rewrite Hi, Nat.sub_diag in H2. injection H2 as <-. simpl.
      apply Hlast. rewrite last_lookup. rewrite <- Hi. exact H1. }
  unfold consistent. simpl. fold rec.
  split; [apply deque_append_length|].
  split; [|split; [|split]].
  - intros r Hr. apply elem_of_deque_append in Hr as [Hr| ->].
    + now apply Hreal.
    + simpl. congruence.
  - intros i r1 r2. unfold Deque.append. rewrite !lookup_drop.
    rewrite Nat.add_succ_r. apply Hlinked.
  - intros r. rewrite Hpre, last_snoc. intros [= <-]. reflexivity.
  - rewrite Hpre. intros Hnil. now apply app_nil in Hnil as [_ Hnil].
Qed.

Lemma deliver_consistent input : forall sm : StateManager.t,
  consistent sm -> consistent (deliver input sm).
Proof.
  unfold deliver.
  induction input as [|er input IH]; intros sm Hc; [exact Hc|].
  simpl. apply IH. now apply handle_event_consistent.
Qed.

End StateManagerRuns.

(** X1.  Whatever events arrive and whatever the clock reads, the history of
    a state manager started by [__init__] holds at most 100 records, every
    record is a real change of state, each record starts in the state where
    the previous one ended, the last record ends in the current state, and
    the history is empty only while the state is still [SAFE]. *)
Theorem history_is_a_path
    (started : Q) (input : list (AnalysisEvent * StateManager.Readings)) :
  let sm := StateManager.deliver input (StateManager.init started) in
  let history := StateManager.state_history sm in
  (length history <= 100)%nat
  /\ (forall r, r ∈ history ->
                StateManager.from_state r <> StateManager.to_state r)
  /\ (forall i r1 r2,
        history !! i = Some r1 -> history !! S i = Some r2 ->
        StateManager.to_state r1 = StateManager.from_state r2)
  /\ (forall r, last history = Some r ->
                StateManager.to_state r = StateManager.current_state sm)
  /\ (history = [] -> StateManager.current_state sm = SAFE).
Proof.
  intros sm history.
  exact (deliver_consistent input _ (init_consistent started)).
Qed.

(** X2.  Only [NORMAL_BEHAVIOR], and only after the current state has lasted
    more than 5 s, brings the machine back to [SAFE]: no other event leads
    from another state to [SAFE]. *)
Theorem safe_only_after_calm
    (sm : StateManager.t) (event : AnalysisEvent) (t1 t2 t3 : Q) :
  StateManager.current_state sm <> SAFE ->
  StateManager.current_state (StateManager.handle_event sm event t1 t2 t3) = SAFE ->
  event = NORMAL_BEHAVIOR /\ 5 < t1 - StateManager.state_start_time sm.
Proof.
  intros Hnot Hsafe.
  assert (Hnew : StateManager._determine_enhanced_new_state sm event t1 = SAFE).
  { unfold StateManager.handle_event in Hsafe.
    destruct (decide (_ = StateManager.current_state sm)) as [Heq|Hne];
      [contradiction | exact Hsafe]. }
  unfold StateManager._determine_enhanced_new_state in Hnew.
  destruct event; simpl in Hnew; try discriminate;
    try (destruct (decide _); discriminate);
    try (destruct (_ || _); discriminate);
    try contradiction.
  split; [reflexivity|].
  destruct (Py.gt _ 5) eqn:Hgt; [now apply py_gt_true | contradiction].
Qed.

Lemma safe_only_after_calm_witness :
  5 < (51 # 10) - 0.
Proof.
  apply (safe_only_after_calm
           {| StateManager.current_state := MULTIPLE_RISK;
              StateManager.state_start_time := 0;
              StateManager.state_history := [] |}
           NORMAL_BEHAVIOR (51 # 10) (51 # 10) (51 # 10)).
  - discriminate.
  - reflexivity.
Defined.

(** X3.  The four immediate events ([PHONE_USAGE_CONFIRMED],
    [MICROSLEEP_PREDICTED], [EMOTION_STRESS_DETECTED], [PREDICTIVE_RISK_HIGH])
    lead to their state from every state and at every time, and delivering
    the same event again changes nothing: no second record, no new start
    time. *)
Theorem immediate_events_fire_once
    (sm : StateManager.t) (event : AnalysisEvent) (target : DriverState)
    (t1 t2 t3 u1 u2 u3 : Q) :
  StateManager.immediate_transitions event = Some target ->
  let sm' := StateManager.handle_event sm event t1 t2 t3 in
  StateManager.current_state sm' = target
  /\ StateManager.handle_event sm' event u1 u2 u3 = sm'.
Proof.
  intros Himmediate sm'.
  assert (Hnew : forall s t,
            StateManager._determine_enhanced_new_state s event t = target).
  { intros s t. unfold StateManager._determine_enhanced_new_state.
    now rewrite Himmediate. }
  assert (Hstate : StateManager.current_state sm' = target).
  { subst sm'. unfold StateManager.handle_event. rewrite Hnew.
    destruct (decide (target = StateManager.current_state sm)); [easy | reflexivity]. }
  split; [exact Hstate|].
  apply handle_event_same. now rewrite Hnew.
Qed.

Lemma immediate_events_fire_once_witness :
  let sm :=
    {| StateManager.current_state := FATIGUE_LOW;
       StateManager.state_start_time := 0;
       StateManager.state_history := [] |} in
  let sm' := StateManager.handle_event sm PHONE_USAGE_CONFIRMED 1 1 1 in
  StateManager.current_state sm' = PHONE_USAGE
  /\ StateManager.handle_event sm' PHONE_USAGE_CONFIRMED 2 2 2 = sm'.
Proof.
  intros sm sm'.
  apply (immediate_events_fire_once sm PHONE_USAGE_CONFIRMED PHONE_USAGE
           1 1 1 2 2 2).
  reflexivity.
Defined.

Section StatisticsFacts.

Import StateManager.

Implicit Types (counts : gmap DriverState nat) (h : list TransitionRecord).

Lemma tally_lookup h : forall counts s,
  default 0%nat (fold_left count_entry h counts !! s)
  = (default 0 (counts !! s)
     + length (List.filter (fun r => bool_decide (to_state r = s)) h))%nat.
Proof.
  induction h as [|r h IH]; intros counts s; simpl; [lia|].
  rewrite IH. unfold count_entry.
  destruct (decide (to_state r = s)) as [->|Hne].
  - rewrite lookup_insert_eq, bool_decide_eq_true_2 by reflexivity. simpl. lia.
  - rewrite lookup_insert_ne, bool_decide_eq_false_2 by exact Hne. reflexivity.
Qed.

Lemma tally_positive h : forall counts,
  (forall s n, counts !! s = Some n -> (0 < n)%nat) ->
  forall s n, fold_left count_entry h counts !! s = Some n -> (0 < n)%nat.
Proof.
  induction h as [|r h IH]; intros counts Hpos s n; simpl; [apply Hpos|].
  apply IH. intros s' n' Hl. unfold count_entry in Hl.
  apply lookup_insert_Some in Hl as [[_ <-]|[_ Hl]]; [lia | eauto].
Qed.

Lemma tally_sum_step counts s :
  map_fold (fun _ n acc => (n + acc)%nat) 0%nat
           (<[s := (default 0 (counts !! s) + 1)%nat]> counts)
  = S (map_fold (fun _ n acc => (n + acc)%nat) 0%nat counts).
Proof.
  destruct (counts !! s) as [n|] eqn:Hs; simpl.
  - rewrite <- insert_delete_eq.
    rewrite map_fold_insert_L; [|intros; lia | apply lookup_delete_eq].
    rewrite (map_fold_delete_L _ _ s n counts); [lia | intros; lia | exact Hs].
  - rewrite map_fold_insert_L; [lia | intros; lia | exact Hs].
Qed.

Lemma tally_sum h : forall counts,
  map_fold (fun _ n acc => (n + acc)%nat) 0%nat (fold_left count_entry h counts)
  = (map_fold (fun _ n acc => (n + acc)%nat) 0%nat counts + length h)%nat.
Proof.
  induction h as [|r h IH]; intros counts; simpl; [lia|].
  rewrite IH. unfold count_entry. rewrite tally_sum_step. lia.
Qed.

End StatisticsFacts.

(** X4.  [get_state_statistics] returns the empty dictionary exactly when no
    transition is recorded.  Otherwise [total_transitions] is the number of
    records, [current_duration] is the time since the last change,
    [state_counts] has an entry for exactly the states that some record
    leads to, each with the number of such records, and the counts add up to
    [total_transitions]. *)
Theorem state_statistics_count_the_history (sm : StateManager.t) (now : Q) :
  let history := StateManager.state_history sm in
  let entered (s : DriverState) :=
    length (List.filter
              (fun r => bool_decide (StateManager.to_state r = s)) history) in
  (StateManager.get_state_statistics sm now = None <-> history = [])
  /\ forall stats,
       StateManager.get_state_statistics sm now = Some stats ->
       StateManager.total_transitions stats = length history
       /\ StateManager.current_duration stats
          = now - StateManager.state_start_time sm
       /\ (forall s n,
             StateManager.state_counts stats !! s = Some n
             <-> n = entered s /\ (0 < n)%nat)
       /\ map_fold (fun _ n acc => (n + acc)%nat) 0%nat
                   (StateManager.state_counts stats)
          = StateManager.total_transitions stats.
Proof.
  intros history entered. unfold StateManager.get_state_statistics.
  fold history. split.
  - destruct history; split; congruence.
  - intros stats Hstats.
    assert (Hshape : stats =
              {| StateManager.state_counts :=
                   fold_left StateManager.count_entry history ∅;
                 StateManager.current_duration :=
                   StateManager.get_state_duration sm now;
                 StateManager.total_transitions := length history |}).
    { destruct history; [discriminate | now injection Hstats as <-]. }
    rewrite Hshape. simpl.
    split; [reflexivity|]. split; [reflexivity|]. split.
    + intros s n.
      pose proof (tally_lookup history ∅ s) as Hcount.
      rewrite lookup_empty in Hcount. simpl in Hcount. fold (entered s) in Hcount.
      split.
      * intros Hs. rewrite Hs in Hcount. simpl in Hcount.
        split; [exact Hcount|].
        apply (tally_positive history ∅) in Hs; [exact Hs|].
        intros s' n' Hl. now rewrite lookup_empty in Hl.
      * intros [-> Hpos].
        destruct (fold_left StateManager.count_entry history ∅ !! s) as [m|];
          simpl in Hcount; [now rewrite Hcount | lia].
    + rewrite tally_sum, map_fold_empty. reflexivity.
Qed.

(** * Further properties of the engine's decision step *)

Section EventSynthesis.

Import StateManager Engine.

Lemma deliver_app input1 input2 (sm : StateManager.t) :
  deliver (input1 ++ input2) sm = deliver input2 (deliver input1 sm).
Proof. unfold deliver. apply fold_left_app. Qed.

(** [_check_enhanced_state_transitions] delivers the synthesized events in
    order. *)
Lemma check_delivers_synthesized (self : Engine.t) (sm : StateManager.t)
      (r1 r2 r3 r4 : Readings) :
  _check_enhanced_state_transitions self sm r1 r2 r3 r4
  = deliver (synthesized_events (metrics self) r1 r2 r3 r4) sm.
Proof.
  unfold _check_enhanced_state_transitions, synthesized_events, deliver.
  destruct (Py.gt (Metrics.fatigue_risk_score (metrics self)) (8 # 10));
    [|destruct (Py.gt (Metrics.distraction_risk_score (metrics self)) (7 # 10))];
    destruct (bool_decide (Metrics.emotion_state (metrics self) = STRESS)
              && Py.gt (Metrics.emotion_confidence (metrics self)) (7 # 10));
    destruct (Metrics.distraction_objects (metrics self));
    destruct (negb _); reflexivity.
Qed.

(** An event other than the two that nothing in the engine sends cannot lead
    to [PHONE_USAGE] or [MICROSLEEP]. *)
Lemma handle_event_stays_clear (sm : StateManager.t) event t1 t2 t3 :
  event <> PHONE_USAGE_CONFIRMED -> event <> MICROSLEEP_PREDICTED ->
  current_state sm <> PHONE_USAGE /\ current_state sm <> MICROSLEEP ->
  current_state (handle_event sm event t1 t2 t3) <> PHONE_USAGE
  /\ current_state (handle_event sm event t1 t2 t3) <> MICROSLEEP.
Proof.
  intros Hp Hm Hclear. unfold handle_event.
  destruct (decide (_ = current_state sm)) as [Heq|Hne]; [exact Hclear|].
  simpl. unfold _determine_enhanced_new_state.
  destruct event; simpl; try contradiction;
    try (destruct (decide _); split; discriminate);
    try (destruct (_ || _); split; discriminate);
    try (split; discriminate);
    try (destruct (Py.gt _ _); [split; discriminate | exact Hclear]);
    exact Hclear.
Qed.

Lemma deliver_stays_clear input : forall sm : StateManager.t,
  Forall (fun er => fst er <> PHONE_USAGE_CONFIRMED
                    /\ fst er <> MICROSLEEP_PREDICTED) input ->
  current_state sm <> PHONE_USAGE /\ current_state sm <> MICROSLEEP ->
  current_state (deliver input sm) <> PHONE_USAGE
  /\ current_state (deliver input sm) <> MICROSLEEP.
Proof.
  unfold deliver.
  induction input as [|er input IH]; intros sm Hall Hclear; [exact Hclear|].
  inversion Hall as [|? ? [Hp Hm] Hrest]; subst. simpl.
  apply IH; [exact Hrest|]. now apply handle_event_stays_clear.
Qed.

Lemma synthesized_events_kinds (m : Metrics.t) (r1 r2 r3 r4 : Readings) :
  Forall (fun er => fst er <> PHONE_USAGE_CONFIRMED
                    /\ fst er <> MICROSLEEP_PREDICTED)
         (synthesized_events m r1 r2 r3 r4).
Proof.
  unfold synthesized_events.
  repeat (apply Forall_app; split).
  - destruct (Py.gt _ _); [|destruct (Py.gt _ _)];
      repeat constructor; discriminate.
  - destruct (_ && _); repeat constructor; discriminate.
  - destruct (Metrics.distraction_objects m); repeat constructor; discriminate.
  - destruct (negb _); repeat constructor; discriminate.
Qed.

End EventSynthesis.

(** X5.  The decision step of a cycle ([_run_predictive_analysis] followed
    by [_check_enhanced_state_transitions]) never brings the state machine
    into [PHONE_USAGE] or [MICROSLEEP]: a machine that is in neither state
    before the step is in neither state after it, whatever the metrics say
    ([phone_detected] included) and whatever the prediction returns. *)
Theorem engine_never_enters_phone_or_microsleep
    (self : Engine.t) (sm : StateManager.t) (prediction : Prediction.t)
    (r0 r1 r2 r3 r4 : StateManager.Readings) :
  StateManager.current_state sm <> PHONE_USAGE ->
  StateManager.current_state sm <> MICROSLEEP ->
  let predicted := Engine._run_predictive_analysis self sm prediction r0 in
  let sm' :=
    Engine._check_enhanced_state_transitions (fst predicted) (snd predicted)
      r1 r2 r3 r4 in
  StateManager.current_state sm' <> PHONE_USAGE
  /\ StateManager.current_state sm' <> MICROSLEEP.
Proof.
  intros Hp Hm predicted sm'. subst sm'.
  rewrite check_delivers_synthesized.
  apply deliver_stays_clear; [apply synthesized_events_kinds|].
  subst predicted. unfold Engine._run_predictive_analysis.
  destruct (_ || _); simpl; [|now split].
  apply handle_event_stays_clear; [discriminate | discriminate | now split].
Qed.

Lemma engine_never_enters_phone_or_microsleep_witness :
  let self :=
    {| Engine.latest_results :=
         {| LatestResults.face := Some 1%nat; LatestResults.pose := None;
            LatestResults.hand := None; LatestResults.object := Some 1%nat;
            LatestResults.hand_positions := None |};
       Engine.metrics :=
         {| Metrics.perclos := 0; Metrics.enhanced_ear := 0;
            Metrics.temporal_attention_score := 0;
            Metrics.pose_complexity_score := 0;
            Metrics.distraction_objects := ["phone"];
            Metrics.phone_detected := true;
            Metrics.emotion_state := STRESS;
            Metrics.emotion_confidence := 9 # 10;
            Metrics.arousal_level := 0; Metrics.valence_level := 0;
            Metrics.head_yaw := 0; Metrics.head_roll := 0;
            Metrics.gaze_zone_duration := 0;
            Metrics.fatigue_risk_score := 9 # 10;
            Metrics.distraction_risk_score := 9 # 10;
            Metrics.attention_focus_score := 0;
            Metrics.predictive_risk_score := 0 |};
       Engine.counter_analyzer := Counter.init;
       Engine.gaze_classifier :=
         {| GazeClassifier.get_gaze_stability := 1;
            GazeClassifier.get_attention_focus_score := 1 |};
       Engine.current_gaze_zone := FRONT;
       Engine.multimodal_analyzer := Fusion.init |} in
  let r :=
    {| StateManager.r_decide := 1; StateManager.r_record := 1;
       StateManager.r_restart := 1 |} in
  let predicted :=
    Engine._run_predictive_analysis self (StateManager.init 0)
      {| Prediction.risk_probability := 9 # 10;
         Prediction.alert_level := "critical" |} r in
  let sm' :=
    Engine._check_enhanced_state_transitions (fst predicted) (snd predicted)
      r r r r in
  StateManager.current_state sm' <> PHONE_USAGE
  /\ StateManager.current_state sm' <> MICROSLEEP.
Proof.
  intros self r predicted sm'.
  apply (engine_never_enters_phone_or_microsleep self (StateManager.init 0)
           {| Prediction.risk_probability := 9 # 10;
              Prediction.alert_level := "critical" |} r r r r r);
    discriminate.
Defined.

Section RiskArithmetic.

Import Engine.

Lemma py_max_cases (a b : Q) :
  (Py.max a b = b /\ a < b) \/ (Py.max a b = a /\ b <= a).
Proof.
  unfold Py.max. destruct (Py.gt b a) eqn:Hgt.
  - left. split; [reflexivity | now apply py_gt_true].
  - right. split; [reflexivity | now apply py_gt_false].
Qed.

Lemma py_min_cases (a b : Q) :
  (Py.min a b = b /\ b < a) \/ (Py.min a b = a /\ a <= b).
Proof.
  unfold Py.min. destruct (Py.lt b a) eqn:Hlt.
  - left. split; [reflexivity | now apply py_lt_true].
  - right. split; [reflexivity | now apply py_lt_false].
Qed.

(** The combined risk, step by step: the blend, then the three modifiers. *)
Lemma combined_risk_steps (m : Metrics.t) :
  exists c1 c2 c3,
    c1 == Py.max (Metrics.fatigue_risk_score m) (Metrics.distraction_risk_score m)
          * (7 # 10)
          + Metrics.predictive_risk_score m * (3 # 10)
    /\ (c2 = c1 \/ c2 = Py.min 1 (c1 + (2 # 10)))
    /\ (c3 = c2 \/ c3 = Py.min 1 (c2 + (1 # 10)))
    /\ (combined_risk m = c3
        \/ (combined_risk m = Py.max c3 (7 # 10)
            /\ 25 < Qabs (Metrics.head_roll m)
            /\ 1 < Metrics.gaze_zone_duration m))
    /\ (25 < Qabs (Metrics.head_roll m) -> 1 < Metrics.gaze_zone_duration m ->
        combined_risk m = Py.max c3 (7 # 10)).
Proof.
  unfold combined_risk.
  set (c1 := Py.max _ _ * (1 - (3 # 10)) + _ * (3 # 10)).
  set (c2 := if _ && _ then Py.min 1 (c1 + (2 # 10)) else c1).
  set (c3 := if Py.gt (Metrics.pose_complexity_score m) (7 # 10)
             then Py.min 1 (c2 + (1 # 10)) else c2).
  exists c1, c2, c3.
  split; [subst c1; ring|].
  split; [subst c2; destruct (_ && _); [now right | now left]|].
  split.
  { subst c3.
    destruct (Py.gt (Metrics.pose_complexity_score m) (7 # 10));
      [now right | now left]. }
  split.
  - destruct (Py.gt (Qabs (Metrics.head_roll m)) 25) eqn:Hroll; simpl; [|now left].
    destruct (Py.gt (Metrics.gaze_zone_duration m) 1) eqn:Hdur; [|now left].
    right. split; [reflexivity|].
    split; now apply py_gt_true.
  - intros Hroll Hdur. apply py_gt_true in Hroll, Hdur.
    now rewrite Hroll, Hdur.
Qed.

Lemma risk_level_above (c : Q) :
  4 # 10 < c ->
  risk_level_of c = RiskLevel.MEDIUM \/ risk_level_of c = RiskLevel.HIGH
  \/ risk_level_of c = RiskLevel.CRITICAL.
Proof.
  intros Hc. unfold risk_level_of.
  destruct (Py.gt c (8 # 10)); [now right; right|].
  destruct (Py.gt c (6 # 10)); [now right; left|].
  apply py_gt_true in Hc. rewrite Hc. now left.
Qed.

Lemma risk_level_high (c : Q) :
  6 # 10 < c ->
  risk_level_of c = RiskLevel.HIGH \/ risk_level_of c = RiskLevel.CRITICAL.
Proof.
  intros Hc. unfold risk_level_of.
  destruct (Py.gt c (8 # 10)); [now right|].
  apply py_gt_true in Hc. rewrite Hc. now left.
Qed.

Lemma risk_level_not_critical (c : Q) :
  c <= 8 # 10 -> risk_level_of c <> RiskLevel.CRITICAL.
Proof.
  intros Hc. unfold risk_level_of.
  apply py_gt_false in Hc. rewrite Hc.
  destruct (Py.gt c (6 # 10)); [discriminate|].
  destruct (Py.gt c (4 # 10)); [discriminate|].
  destruct (Py.gt c (2 # 10)); discriminate.
Qed.

End RiskArithmetic.

(** Case analysis on every [max] and [min] in sight, closed by linear
    arithmetic. *)
Ltac split_extremum term cases :=
  let x := fresh "x" in
  let H := fresh in
  pose proof cases as H;
  set (x := term) in *; clearbody x;
  destruct H as [[-> ?]|[-> ?]].

Ltac risk_bounds :=
  repeat match goal with
         | |- context [Py.max ?a ?b] =>
             split_extremum (Py.max a b) (py_max_cases a b)
         | |- context [Py.min ?a ?b] =>
             split_extremum (Py.min a b) (py_min_cases a b)
         | _ : context [Py.max ?a ?b] |- _ =>
             split_extremum (Py.max a b) (py_max_cases a b)
         | _ : context [Py.min ?a ?b] |- _ =>
             split_extremum (Py.min a b) (py_min_cases a b)
         end;
  try lra.

Section StressAndObjects.

Import StateManager Engine.

Lemma handle_stress_state (sm : StateManager.t) t1 t2 t3 :
  current_state (handle_event sm EMOTION_STRESS_DETECTED t1 t2 t3)
  = EMOTIONAL_STRESS.
Proof.
  unfold handle_event, _determine_enhanced_new_state. simpl.
  destruct (decide (EMOTIONAL_STRESS = current_state sm));
    [now symmetry | reflexivity].
Qed.

Lemma handle_object_after_stress (sm : StateManager.t) t1 t2 t3 :
  current_state sm = EMOTIONAL_STRESS ->
  current_state (handle_event sm DISTRACTION_OBJECT_DETECTED t1 t2 t3)
  = MULTIPLE_RISK.
Proof.
  intros Hstress. unfold handle_event, _determine_enhanced_new_state. simpl.
  rewrite Hstress. reflexivity.
Qed.

End StressAndObjects.

(** X6.  A cycle in which stress is detected (confidence above 0.7), a
    distracting object is listed and at least one of the three risk scores
    exceeds 0.5 leaves the machine in [MULTIPLE_RISK], whatever state it
    started in.  When such a cycle starts in [MULTIPLE_RISK] and neither the
    fatigue nor the distraction threshold is crossed, it still appends two
    records: through [EMOTIONAL_STRESS] and back. *)
Theorem stress_with_objects_gives_multiple_risk
    (self : Engine.t) (sm : StateManager.t)
    (r1 r2 r3 r4 : StateManager.Readings) :
  let m := Engine.metrics self in
  Metrics.emotion_state m = STRESS ->
  7 # 10 < Metrics.emotion_confidence m ->
  Metrics.distraction_objects m <> [] ->
  (5 # 10 < Metrics.fatigue_risk_score m
   \/ 5 # 10 < Metrics.distraction_risk_score m
   \/ 5 # 10 < Metrics.predictive_risk_score m) ->
  let sm' := Engine._check_enhanced_state_transitions self sm r1 r2 r3 r4 in
  StateManager.current_state sm' = MULTIPLE_RISK
  /\ (StateManager.current_state sm = MULTIPLE_RISK ->
      Metrics.fatigue_risk_score m <= 8 # 10 ->
      Metrics.distraction_risk_score m <= 7 # 10 ->
      StateManager.state_history sm'
      = Deque.append 100
          (Deque.append 100 (StateManager.state_history sm)
             {| StateManager.timestamp := StateManager.r_record r2;
                StateManager.from_state := MULTIPLE_RISK;
                StateManager.to_state := EMOTIONAL_STRESS;
                StateManager.trigger_event := EMOTION_STRESS_DETECTED |})
          {| StateManager.timestamp := StateManager.r_record r3;
             StateManager.from_state := EMOTIONAL_STRESS;
             StateManager.to_state := MULTIPLE_RISK;
             StateManager.trigger_event := DISTRACTION_OBJECT_DETECTED |}).
Proof.
  intros m Hstress Hconf Hobjects Hbusy sm'.
  assert (Hnormal :
    negb (Py.gt (Metrics.fatigue_risk_score m) (5 # 10)
          || Py.gt (Metrics.distraction_risk_score m) (5 # 10)
          || Py.gt (Metrics.predictive_risk_score m) (5 # 10)) = false).
  { apply negb_false_iff.
    destruct Hbusy as [H|[H|H]]; apply py_gt_true in H; rewrite H;
      rewrite ?orb_true_r; reflexivity. }
  apply py_gt_true in Hconf.
  subst sm'. unfold Engine._check_enhanced_state_transitions. fold m.
  rewrite Hnormal, Hconf, bool_decide_eq_true_2 by exact Hstress. simpl.
  destruct (Metrics.distraction_objects m) as [|o objects]; [contradiction|].
  split.
  - apply handle_object_after_stress, handle_stress_state.
  - intros Hstart Hfatigue Hdistraction.
    apply py_gt_false in Hfatigue, Hdistraction.
    rewrite Hfatigue, Hdistraction.
    destruct sm as [cur start history]. simpl in Hstart. subst cur.
    reflexivity.
Qed.

Lemma stress_with_objects_gives_multiple_risk_witness :
  let self :=
    {| Engine.latest_results :=
         {| LatestResults.face := Some 1%nat; LatestResults.pose := None;
            LatestResults.hand := None; LatestResults.object := Some 1%nat;
            LatestResults.hand_positions := None |};
       Engine.metrics :=
         {| Metrics.perclos := 0; Metrics.enhanced_ear := 0;
            Metrics.temporal_attention_score := 0;
            Metrics.pose_complexity_score := 0;
            Metrics.distraction_objects := ["cup"];
            Metrics.phone_detected := false;
            Metrics.emotion_state := STRESS;
            Metrics.emotion_confidence := 9 # 10;
            Metrics.arousal_level := 0; Metrics.valence_level := 0;
            Metrics.head_yaw := 0; Metrics.head_roll := 0;
            Metrics.gaze_zone_duration := 0;
            Metrics.fatigue_risk_score := 1 # 10;
            Metrics.distraction_risk_score := 6 # 10;
            Metrics.attention_focus_score := 0;
            Metrics.predictive_risk_score := 0 |};
       Engine.counter_analyzer := Counter.init;
       Engine.gaze_classifier :=
         {| GazeClassifier.get_gaze_stability := 1;
            GazeClassifier.get_attention_focus_score := 1 |};
       Engine.current_gaze_zone := FRONT;
       Engine.multimodal_analyzer := Fusion.init |} in
  let r :=
    {| StateManager.r_decide := 1; StateManager.r_record := 1;
       StateManager.r_restart := 1 |} in
  let once :=
    Engine._check_enhanced_state_transitions self (StateManager.init 0) r r r r in
  let twice := Engine._check_enhanced_state_transitions self once r r r r in
  StateManager.current_state once = MULTIPLE_RISK
  /\ StateManager.current_state twice = MULTIPLE_RISK
  /\ length (StateManager.state_history twice) = 4%nat.
Proof.
  intros self r once twice.
  split; [|split].
  - apply (stress_with_objects_gives_multiple_risk self (StateManager.init 0)
             r r r r).
    + reflexivity.
    + vm_compute. reflexivity.
    + discriminate.
    + right. left. vm_compute. reflexivity.
  - apply (stress_with_objects_gives_multiple_risk self once r r r r).
    + reflexivity.
    + vm_compute. reflexivity.
    + discriminate.
    + right. left. vm_compute. reflexivity.
  - reflexivity.
Defined.

(** X7.  The events of a cycle agree with its risk level.  When
    [NORMAL_BEHAVIOR] is due (fatigue, distraction and predictive score all
    at most 0.5) the level is never [CRITICAL].  When [FATIGUE_ACCUMULATION]
    is due (fatigue above 0.8) or [ATTENTION_DECLINE] could be
    (distraction above 0.7), and the predictive score is not negative, the
    level is at least [MEDIUM]. *)
Theorem events_agree_with_risk_level (self : Engine.t) :
  let m := Engine.metrics self in
  let level := Engine._determine_enhanced_overall_risk self in
  (Metrics.fatigue_risk_score m <= 5 # 10 ->
   Metrics.distraction_risk_score m <= 5 # 10 ->
   Metrics.predictive_risk_score m <= 5 # 10 ->
   level <> RiskLevel.CRITICAL)
  /\ (0 <= Metrics.predictive_risk_score m ->
      8 # 10 < Metrics.fatigue_risk_score m
      \/ 7 # 10 < Metrics.distraction_risk_score m ->
      level = RiskLevel.MEDIUM \/ level = RiskLevel.HIGH
      \/ level = RiskLevel.CRITICAL).
Proof.
  intros m level. subst level. unfold Engine._determine_enhanced_overall_risk.
  fold m.
  destruct (combined_risk_steps m) as (c1 & c2 & c3 & H1 & H2 & H3 & H4 & _).
  split.
  - intros Hf Hd Hp. apply risk_level_not_critical.
    assert (Hc1 : c1 <= 5 # 10) by (rewrite H1; risk_bounds).
    assert (Hc2 : c2 <= 7 # 10) by (destruct H2 as [-> | ->]; risk_bounds).
    assert (Hc3 : c3 <= 8 # 10) by (destruct H3 as [-> | ->]; risk_bounds).
    destruct H4 as [-> | [-> _]]; risk_bounds.
  - intros Hp Hdue. apply risk_level_above.
    assert (Hc1 : 4 # 10 < c1) by (rewrite H1; destruct Hdue; risk_bounds).
    assert (Hc2 : 4 # 10 < c2) by (destruct H2 as [-> | ->]; risk_bounds).
    assert (Hc3 : 4 # 10 < c3) by (destruct H3 as [-> | ->]; risk_bounds).
    destruct H4 as [-> | [-> _]]; risk_bounds.
Qed.

(** X8.  With fatigue, distraction and predictive scores between 0 and 1 the
    combined risk lies between 0 and 1, whatever the modifiers add. *)
Theorem combined_risk_in_unit_interval (m : Metrics.t) :
  0 <= Metrics.fatigue_risk_score m <= 1 ->
  0 <= Metrics.distraction_risk_score m <= 1 ->
  0 <= Metrics.predictive_risk_score m <= 1 ->
  0 <= Engine.combined_risk m <= 1.
Proof.
  intros Hf Hd Hp.
  destruct (combined_risk_steps m) as (c1 & c2 & c3 & H1 & H2 & H3 & H4 & _).
  assert (Hc1 : 0 <= c1 <= 1) by (rewrite H1; risk_bounds).
  assert (Hc2 : 0 <= c2 <= 1) by (destruct H2 as [-> | ->]; risk_bounds).
  assert (Hc3 : 0 <= c3 <= 1) by (destruct H3 as [-> | ->]; risk_bounds).
  destruct H4 as [-> | [-> _]]; risk_bounds.
Qed.

Lemma combined_risk_in_unit_interval_witness :
  0 <= Engine.combined_risk (Engine.metrics_with_risk (9 # 10)) <= 1.
Proof.
  apply combined_risk_in_unit_interval; vm_compute; split; discriminate.
Defined.

(** X9.  A head roll beyond 25 degrees held in one gaze zone for more than
    one second makes the risk level [HIGH] or [CRITICAL], however low the
    scores are. *)
Theorem head_tilt_raises_risk (self : Engine.t) :
  25 < Qabs (Metrics.head_roll (Engine.metrics self)) ->
  1 < Metrics.gaze_zone_duration (Engine.metrics self) ->
  Engine._determine_enhanced_overall_risk self = RiskLevel.HIGH
  \/ Engine._determine_enhanced_overall_risk self = RiskLevel.CRITICAL.
Proof.
  intros Hroll Hdur. unfold Engine._determine_enhanced_overall_risk.
  destruct (combined_risk_steps (Engine.metrics self))
    as (c1 & c2 & c3 & _ & _ & _ & _ & Hfloor).
  rewrite (Hfloor Hroll Hdur). apply risk_level_high. risk_bounds.
Qed.

Lemma head_tilt_raises_risk_witness :
  let tilted :=
    {| Engine.latest_results :=
         {| LatestResults.face := Some 1%nat; LatestResults.pose := None;
            LatestResults.hand := None; LatestResults.object := None;
            LatestResults.hand_positions := None |};
       Engine.metrics :=
         {| Metrics.perclos := 0; Metrics.enhanced_ear := 0;
            Metrics.temporal_attention_score := 0;
            Metrics.pose_complexity_score := 0;
            Metrics.distraction_objects := [];
            Metrics.phone_detected := false;
            Metrics.emotion_state := OTHER_EMOTION 0;
            Metrics.emotion_confidence := 0;
            Metrics.arousal_level := 0; Metrics.valence_level := 0;
            Metrics.head_yaw := 0; Metrics.head_roll := - (30);
            Metrics.gaze_zone_duration := 2;
            Metrics.fatigue_risk_score := 0;
            Metrics.distraction_risk_score := 0;
            Metrics.attention_focus_score := 1;
            Metrics.predictive_risk_score := 0 |};
       Engine.counter_analyzer := Counter.init;
       Engine.gaze_classifier :=
         {| GazeClassifier.get_gaze_stability := 1;
            GazeClassifier.get_attention_focus_score := 1 |};
       Engine.current_gaze_zone := FRONT;
       Engine.multimodal_analyzer := Fusion.init |} in
  Engine._determine_enhanced_overall_risk tilted = RiskLevel.HIGH
  \/ Engine._determine_enhanced_overall_risk tilted = RiskLevel.CRITICAL.
Proof.
  intros tilted.
  apply (head_tilt_raises_risk tilted); vm_compute; reflexivity.
Defined.

(** * Further properties of the fusion *)

(** Division by a numeral, written as a product for linear arithmetic. *)
Ltac by_constants := unfold Qdiv in *; cbn [Qinv Qnum Qden] in *.

Section FusionBounds.

Import Fusion.

Lemma weighted_term_bounds (c w : Q) :
  0 <= c <= 1 -> 0 <= w -> 0 <= c * w <= w.
Proof.
  intros [H0 H1] Hw. split.
  - now apply Qmult_le_0_compat.
  - rewrite <- (Qmult_1_l w) at 2. now apply Qmult_le_compat_r.
Qed.

Lemma average_bounds (score total : Q) :
  0 <= score <= total ->
  0 <= (if Py.gt total 0 then score / total else 0) <= 1.
Proof.
  intros [H0 H1]. destruct (Py.gt total 0) eqn:Hgt; [|lra].
  apply py_gt_true in Hgt. split.
  - apply Qle_shift_div_l; lra.
  - apply Qle_shift_div_r; lra.
Qed.

(** One step of the accumulation in the fusion functions. *)
Lemma accumulate_bounds (available : bool) (c w score total : Q) :
  (available = true -> 0 <= c <= 1) -> 0 <= w ->
  0 <= score <= total ->
  0 <= fst (if available then (score + c * w, total + w) else (score, total))
    <= snd (if available then (score + c * w, total + w) else (score, total)).
Proof.
  intros Hc Hw Hacc. destruct available; simpl; [|exact Hacc].
  pose proof (weighted_term_bounds c w (Hc eq_refl) Hw). lra.
Qed.

Lemma fuse_drowsiness_bounds weights face_data pose_data emotion_data :
  0 <= face weights -> 0 <= pose weights -> 0 <= emotion weights ->
  (Py.truthy (FaceData.available face_data) = true ->
   0 <= face_drowsiness face_data <= 1) ->
  (Py.truthy (PoseData.available pose_data) = true ->
   0 <= pose_drowsiness pose_data <= 1) ->
  (Py.truthy (EmotionData.available emotion_data) = true ->
   0 <= emotion_fatigue emotion_data <= 1) ->
  0 <= fuse_drowsiness_signals weights face_data pose_data emotion_data <= 1.
Proof.
  intros Hwf Hwp Hwe Hf Hp He. unfold fuse_drowsiness_signals.
  pose proof (accumulate_bounds _ _ _ 0 0 Hf Hwf ltac:(lra)) as H1.
  destruct (if Py.truthy (FaceData.available face_data) then _ else _)
    as [s1 t1]. simpl in H1.
  pose proof (accumulate_bounds _ _ _ s1 t1 Hp Hwp H1) as H2.
  destruct (if Py.truthy (PoseData.available pose_data) then _ else _)
    as [s2 t2]. simpl in H2.
  pose proof (accumulate_bounds _ _ _ s2 t2 He Hwe H2) as H3.
  destruct (if Py.truthy (EmotionData.available emotion_data) then _ else _)
    as [s3 t3]. simpl in H3.
  now apply average_bounds.
Qed.

Lemma fuse_distraction_bounds
      weights face_data hand_data object_data emotion_data :
  0 <= face weights -> 0 <= hand weights -> 0 <= object weights ->
  0 <= emotion weights ->
  (Py.truthy (FaceData.available face_data) = true ->
   0 <= face_distraction face_data <= 1) ->
  (Py.truthy (HandData.available hand_data) = true ->
   0 <= hand_distraction hand_data <= 1) ->
  (Py.truthy (ObjectData.available object_data) = true ->
   0 <= object_distraction object_data <= 1) ->
  (Py.truthy (EmotionData.available emotion_data) = true ->
   0 <= emotion_distraction emotion_data <= 1) ->
  0 <= fuse_distraction_signals weights face_data hand_data object_data
         emotion_data <= 1.
Proof.
  intros Hwf Hwh Hwo Hwe Hf Hh Ho He. unfold fuse_distraction_signals.
  pose proof (accumulate_bounds _ _ _ 0 0 Hf Hwf ltac:(lra)) as H1.
  destruct (if Py.truthy (FaceData.available face_data) then _ else _)
    as [s1 t1]. simpl in H1.
  pose proof (accumulate_bounds _ _ _ s1 t1 Hh Hwh H1) as H2.
  destruct (if Py.truthy (HandData.available hand_data) then _ else _)
    as [s2 t2]. simpl in H2.
  pose proof (accumulate_bounds _ _ _ s2 t2 Ho Hwo H2) as H3.
  destruct (if Py.truthy (ObjectData.available object_data) then _ else _)
    as [s3 t3]. simpl in H3.
  pose proof (accumulate_bounds _ _ _ s3 t3 He Hwe H3) as H4.
  destruct (if Py.truthy (EmotionData.available emotion_data) then _ else _)
    as [s4 t4]. simpl in H4.
  now apply average_bounds.
Qed.

End FusionBounds.

(** X10.  Both fusions are weighted averages: with weights that are not
    negative, if the raw contribution of every available modality lies
    between 0 and 1 then so does the fused score, whichever modalities are
    available. *)
Theorem fused_scores_are_averages
    (weights : Fusion.Weights) (face_data : FaceData.t) (pose_data : PoseData.t)
    (hand_data : HandData.t) (object_data : ObjectData.t)
    (emotion_data : EmotionData.t) :
  0 <= Fusion.face weights -> 0 <= Fusion.pose weights ->
  0 <= Fusion.hand weights -> 0 <= Fusion.object weights ->
  0 <= Fusion.emotion weights ->
  ((Py.truthy (FaceData.available face_data) = true ->
    0 <= Fusion.face_drowsiness face_data <= 1) ->
   (Py.truthy (PoseData.available pose_data) = true ->
    0 <= Fusion.pose_drowsiness pose_data <= 1) ->
   (Py.truthy (EmotionData.available emotion_data) = true ->
    0 <= Fusion.emotion_fatigue emotion_data <= 1) ->
   0 <= Fusion.fuse_drowsiness_signals weights face_data pose_data
          emotion_data <= 1)
  /\ ((Py.truthy (FaceData.available face_data) = true ->
       0 <= Fusion.face_distraction face_data <= 1) ->
      (Py.truthy (HandData.available hand_data) = true ->
       0 <= Fusion.hand_distraction hand_data <= 1) ->
      (Py.truthy (ObjectData.available object_data) = true ->
       0 <= Fusion.object_distraction object_data <= 1) ->
      (Py.truthy (EmotionData.available emotion_data) = true ->
       0 <= Fusion.emotion_distraction emotion_data <= 1) ->
      0 <= Fusion.fuse_distraction_signals weights face_data hand_data
             object_data emotion_data <= 1).
Proof.
  intros Hf Hp Hh Ho He. split.
  - now apply fuse_drowsiness_bounds.
  - now apply fuse_distraction_bounds.
Qed.

Lemma fused_scores_are_averages_witness :
  let face_only :=
    {| FaceData.available := Some true;
       FaceData.perclos := Some (9 # 10);
       FaceData.enhanced_ear := Some (2 # 10);
       FaceData.temporal_attention_score := Some (1 # 10);
       FaceData.gaze_deviation_score := Some (2 # 10);
       FaceData.attention_focus_score := Some (8 # 10) |} in
  let no_pose :=
    {| PoseData.available := None; PoseData.head_nod_score := Some 7;
       PoseData.pose_complexity_score := None |} in
  0 <= Fusion.fuse_drowsiness_signals Fusion.init face_only no_pose
         EmotionData.empty <= 1.
Proof.
  intros face_only no_pose.
  apply (fused_scores_are_averages Fusion.init face_only no_pose
           {| HandData.available := None;
              HandData.hands_on_wheel_confidence := None |}
           {| ObjectData.available := None;
              ObjectData.distraction_score := None;
              ObjectData.phone_usage_score := None |}
           EmotionData.empty);
    try (vm_compute; discriminate);
    intros; try discriminate; vm_compute; split; discriminate.
Defined.

Section EngineRanges.

Import Engine.

Lemma inject_nat_nonneg (n : nat) : 0 <= inject_Z (Z.of_nat n).
Proof. rewrite <- (Zle_Qle 0). lia. Qed.

Lemma inject_nat_le (k n : nat) :
  (k <= n)%nat -> inject_Z (Z.of_nat k) <= inject_Z (Z.of_nat n).
Proof. intros Hle. rewrite <- Zle_Qle. lia. Qed.

Lemma gaze_deviation_score_bounds (self : Engine.t) :
  _calculate_enhanced_gaze_deviation_score self <= 1
  /\ (GazeClassifier.get_gaze_stability (gaze_classifier self) <= 1 ->
      0 <= Metrics.gaze_zone_duration (metrics self) ->
      0 <= _calculate_enhanced_gaze_deviation_score self).
Proof.
  unfold _calculate_enhanced_gaze_deviation_score.
  set (duration := Metrics.gaze_zone_duration (metrics self)).
  set (stability := GazeClassifier.get_gaze_stability (gaze_classifier self)).
  set (weight := zone_weights (current_gaze_zone self)).
  assert (Hweight : 0 <= weight) by (subst weight; destruct (current_gaze_zone self); simpl; lra).
  set (base := if Py.gt _ 60 then Py.min 1 ((5 # 10) + duration / 2) else 0).
  split.
  - clearbody base. by_constants. risk_bounds.
  - intros Hstable Hduration.
    assert (Hbase : 0 <= base).
    { subst base. destruct (Py.gt _ 60); [|lra]. by_constants. risk_bounds. }
    assert (Hfactor : 0 <= Py.min 1 (duration / 3)) by (by_constants; risk_bounds).
    pose proof (Qmult_le_0_compat _ _ Hweight Hfactor) as Hproduct.
    risk_bounds.
Qed.

Lemma hands_on_wheel_bounds (self : Engine.t) :
  let hands :=
    Py.get (LatestResults.hand_positions (latest_results self)) [] in
  0 <= _calculate_hands_on_wheel_confidence self
  /\ _calculate_hands_on_wheel_confidence self
     <= inject_Z (Z.of_nat (length hands)) / 2.
Proof.
  intros hands. unfold _calculate_hands_on_wheel_confidence. fold hands.
  destruct hands as [|h hands'] eqn:Hhands.
  - split; [apply Qle_refl | vm_compute; discriminate].
  - set (k := length (List.filter _ (h :: hands'))).
    assert (Hk : (k <= length (h :: hands'))%nat)
      by apply List.filter_length_le.
    pose proof (inject_nat_nonneg k).
    pose proof (inject_nat_le _ _ Hk).
    by_constants. lra.
Qed.

Lemma head_nod_score_bounds (n : nat) :
  0 <= Py.min 1 (inject_Z (Z.of_nat n) / 5) <= 1.
Proof.
  pose proof (inject_nat_nonneg n). by_constants. risk_bounds.
Qed.

End EngineRanges.

(** X11.  When the inputs of the fusion step are in range (eye and attention
    scores, emotion confidence and attention focus between 0 and 1, arousal
    and gaze duration not negative, gaze stability at most 1, at most two
    hands, at most five distracting objects, no negative weight), the step
    succeeds and stores a fatigue and a distraction score between 0 and 1. *)
Theorem fusion_step_scores_in_unit_interval (self : Engine.t) (now : Q) :
  let m := Engine.metrics self in
  let weights := Engine.multimodal_analyzer self in
  Counter.well_formed (Engine.counter_analyzer self) ->
  0 <= Metrics.perclos m <= 1 ->
  0 <= Metrics.enhanced_ear m <= 1 ->
  0 <= Metrics.temporal_attention_score m <= 1 ->
  0 <= Metrics.emotion_confidence m <= 1 ->
  0 <= Metrics.arousal_level m ->
  0 <= Metrics.gaze_zone_duration m ->
  GazeClassifier.get_gaze_stability (Engine.gaze_classifier self) <= 1 ->
  0 <= GazeClassifier.get_attention_focus_score (Engine.gaze_classifier self)
    <= 1 ->
  (length (Py.get (LatestResults.hand_positions (Engine.latest_results self)) [])
   <= 2)%nat ->
  (length (Metrics.distraction_objects m) <= 5)%nat ->
  0 <= Fusion.face weights /\ 0 <= Fusion.pose weights
  /\ 0 <= Fusion.hand weights /\ 0 <= Fusion.object weights
  /\ 0 <= Fusion.emotion weights ->
  exists self',
    Engine._perform_multimodal_fusion_analysis self now = Some self'
    /\ 0 <= Metrics.fatigue_risk_score (Engine.metrics self') <= 1
    /\ 0 <= Metrics.distraction_risk_score (Engine.metrics self') <= 1.
Proof.
  intros m weights Hwf Hperclos Hear Htas Hconf Harousal Hduration Hstable
         Hfocus Hhands Hobjects (Hwf' & Hwp & Hwh & Hwo & Hwe).
  destruct (perform_fusion_result self now Hwf)
    as (counts & self' & _ & Hperform & Hfatigue & Hdistraction).
  exists self'. split; [exact Hperform|].
  rewrite Hfatigue, Hdistraction. fold weights.
  assert (Hemotion : 0 <= Metrics.emotion_confidence m <= 1) by exact Hconf.
  split.
  - apply fuse_drowsiness_bounds; try assumption; intros _.
    + unfold Fusion.face_drowsiness. simpl. fold m. lra.
    + unfold Fusion.pose_drowsiness. simpl. apply head_nod_score_bounds.
    + unfold Fusion.emotion_fatigue. simpl. fold m.
      destruct (bool_decide _); [exact Hconf|].
      destruct (Py.lt (Metrics.arousal_level m) (3 # 10)) eqn:Hlow; [|lra].
      apply py_lt_true in Hlow. lra.
  - apply fuse_distraction_bounds; try assumption; intros _.
    + unfold Fusion.face_distraction. simpl.
      destruct (gaze_deviation_score_bounds self) as (Hle & Hge).
      specialize (Hge Hstable Hduration).
      risk_bounds.
    + unfold Fusion.hand_distraction. simpl.
      destruct (hands_on_wheel_bounds self) as (Hge & Hle).
      pose proof (inject_nat_le _ _ Hhands) as Hcount.
      change (inject_Z (Z.of_nat 2)) with 2 in Hcount.
      by_constants. lra.
    + unfold Fusion.object_distraction. simpl. fold m.
      pose proof (inject_nat_le _ _ Hobjects) as Hcount.
      pose proof (inject_nat_nonneg (length (Metrics.distraction_objects m))).
      change (inject_Z (Z.of_nat 5)) with 5 in Hcount.
      by_constants. lra.
    + unfold Fusion.emotion_distraction. simpl. fold m.
      destruct (_ || _); [exact Hconf | lra].
Qed.

Lemma fusion_step_scores_in_unit_interval_witness :
  let self :=
    {| Engine.latest_results :=
         {| LatestResults.face := Some 1%nat; LatestResults.pose := Some 1%nat;
            LatestResults.hand := Some 1%nat; LatestResults.object := Some 1%nat;
            LatestResults.hand_positions :=
              Some [{| HandPosition.x := Some (5 # 10);
                       HandPosition.y := Some (5 # 10) |}] |};
       Engine.metrics :=
         {| Metrics.perclos := 9 # 10; Metrics.enhanced_ear := 2 # 10;
            Metrics.temporal_attention_score := 1 # 10;
            Metrics.pose_complexity_score := 0;
            Metrics.distraction_objects := ["cup"; "phone"];
            Metrics.phone_detected := true;
            Metrics.emotion_state := STRESS;
            Metrics.emotion_confidence := 8 # 10;
            Metrics.arousal_level := 6 # 10; Metrics.valence_level := 0;
            Metrics.head_yaw := 70; Metrics.head_roll := 0;
            Metrics.gaze_zone_duration := 2;
            Metrics.fatigue_risk_score := 0;
            Metrics.distraction_risk_score := 0;
            Metrics.attention_focus_score := 0;
            Metrics.predictive_risk_score := 0 |};
       Engine.counter_analyzer := Counter.init;
       Engine.gaze_classifier :=
         {| GazeClassifier.get_gaze_stability := 8 # 10;
            GazeClassifier.get_attention_focus_score := 6 # 10 |};
       Engine.current_gaze_zone := PASSENGER;
       Engine.multimodal_analyzer := Fusion.init |} in
  exists self',
    Engine._perform_multimodal_fusion_analysis self 0 = Some self'
    /\ 0 <= Metrics.fatigue_risk_score (Engine.metrics self') <= 1
    /\ 0 <= Metrics.distraction_risk_score (Engine.metrics self') <= 1.
Proof.
  intros self.
  apply (fusion_step_scores_in_unit_interval self 0);
    try apply init_well_formed;
    try (vm_compute; lia);
    try (vm_compute; split; discriminate);
    try (vm_compute; discriminate).
  vm_compute. repeat split; discriminate.
Defined.

(** X12.  The gaze deviation score never exceeds 1; it is not negative when
    the gaze stability is at most 1 and the time in the gaze zone is not
    negative; and it is 0 for a fully stable gaze in the [FRONT] zone with a
    head yaw within 60 degrees. *)
Theorem gaze_deviation_score_range (self : Engine.t) :
  let score := Engine._calculate_enhanced_gaze_deviation_score self in
  let stability :=
    GazeClassifier.get_gaze_stability (Engine.gaze_classifier self) in
  score <= 1
  /\ (stability <= 1 ->
      0 <= Metrics.gaze_zone_duration (Engine.metrics self) -> 0 <= score)
  /\ (Engine.current_gaze_zone self = FRONT ->
      Qabs (Metrics.head_yaw (Engine.metrics self)) <= 60 ->
      stability == 1 -> score == 0).
Proof.
  intros score stability.
  destruct (gaze_deviation_score_bounds self) as (Hle & Hge).
  split; [exact Hle|]. split; [exact Hge|].
  intros Hfront Hyaw Hstable. subst score.
  unfold Engine._calculate_enhanced_gaze_deviation_score.
  rewrite Hfront. simpl. fold stability.
  apply py_gt_false in Hyaw. rewrite Hyaw.
  risk_bounds.
Qed.

(** X13.  The hands-on-wheel confidence is half the number of hands inside
    the wheel zone: it is 0 without hand positions, never negative and at
    most half the number of hands.  With at most two hands the hand
    contribution to distraction, [1 - confidence], lies between 0 and 1. *)
Theorem hands_on_wheel_confidence_range (self : Engine.t) :
  let hands :=
    Py.get (LatestResults.hand_positions (Engine.latest_results self)) [] in
  let confidence := Engine._calculate_hands_on_wheel_confidence self in
  (hands = [] -> confidence = 0)
  /\ 0 <= confidence <= inject_Z (Z.of_nat (length hands)) / 2
  /\ ((length hands <= 2)%nat ->
      0 <= Fusion.hand_distraction (Engine.hand_data self) <= 1).
Proof.
  intros hands confidence.
  destruct (hands_on_wheel_bounds self) as (Hge & Hle). fold hands in Hle.
  split; [|split; [now split|]].
  - intros Hnone. subst confidence.
    unfold Engine._calculate_hands_on_wheel_confidence. fold hands.
    now rewrite Hnone.
  - intros Htwo. unfold Fusion.hand_distraction. simpl.
    pose proof (inject_nat_le _ _ Htwo) as Hcount.
    change (inject_Z (Z.of_nat 2)) with 2 in Hcount.
    by_constants. lra.
Qed.

(** X14.  [_analyze_blendshapes], the only caller of [add_event], records
    yawns and blinks only: however many frames it analyses, the buffers of
    head nods and gaze deviations stay as they were.  With the counter of
    [__init__] the head-nod count is therefore 0 at every time, and so is the
    fatigue contribution of the pose modality. *)
Theorem blendshapes_never_record_head_nods
    (counter : gmap string Counter.EventLog)
    (frames : list Engine.BlendshapeFrame) (now : Q) :
  Engine.analyze_frames counter frames !! "head_nods" = counter !! "head_nods"
  /\ Engine.analyze_frames counter frames !! "gaze_deviations"
     = counter !! "gaze_deviations"
  /\ exists counts,
       Counter.get_event_counts
         (Engine.analyze_frames Counter.init frames) now = Some counts
       /\ Counter.head_nods_2min counts = 0%nat
       /\ Counter.gaze_deviations_1min counts = 0%nat
       /\ forall self : Engine.t,
            Fusion.pose_drowsiness (Engine.pose_data self counts) == 0.
Proof.
  assert (Hadd : forall (b : gmap string Counter.EventLog) e e' t,
            e' <> e -> Counter.add_event b e t !! e' = b !! e').
  { intros b e e' t Hne. unfold Counter.add_event.
    destruct (b !! e); [now apply lookup_insert_ne | reflexivity]. }
  assert (Hstep : forall (b : gmap string Counter.EventLog) cats ty tb e',
            e' <> "yawns" -> e' <> "blinks" ->
            snd (Engine._analyze_blendshapes b cats ty tb) !! e' = b !! e').
  { intros b cats ty tb e' Hy Hb. unfold Engine._analyze_blendshapes. simpl.
    destruct (Py.gt _ (8 # 10)); destruct (Py.gt _ (6 # 10));
      rewrite ?Hadd by assumption; reflexivity. }
  assert (Hrun : forall e', e' <> "yawns" -> e' <> "blinks" ->
            forall fs (b : gmap string Counter.EventLog),
              Engine.analyze_frames b fs !! e' = b !! e').
  { intros e' Hy Hb fs. unfold Engine.analyze_frames.
    induction fs as [|f fs IH]; intros b; [reflexivity|].
    simpl. rewrite IH. now apply Hstep. }
  assert (Hwf : forall fs (b : gmap string Counter.EventLog),
            Counter.well_formed b ->
            Counter.well_formed (Engine.analyze_frames b fs)).
  { intros fs. unfold Engine.analyze_frames.
    induction fs as [|f fs IH]; intros b Hb; [exact Hb|].
    simpl. apply IH. unfold Engine._analyze_blendshapes. simpl.
    destruct (Py.gt _ (8 # 10)); destruct (Py.gt _ (6 # 10));
      repeat (apply (add_events_well_formed _ [(_, _)])); exact Hb. }
  split; [now apply Hrun|]. split; [now apply Hrun|].
  destruct (get_event_counts_total _ now (Hwf frames _ init_well_formed))
    as (counts & Hcounts).
  exists counts. split; [exact Hcounts|].
  assert (Hnods : Counter.head_nods_2min counts = 0%nat).
  { rewrite (get_event_counts_field _ _ _ _ _ _ _
               {| Counter.maxlen := 120; Counter.stamps := [] |}
               Counter.tracked_head_nods Hcounts); [reflexivity|].
    now rewrite Hrun. }
  split; [exact Hnods|]. split.
  - rewrite (get_event_counts_field _ _ _ _ _ _ _
               {| Counter.maxlen := 60; Counter.stamps := [] |}
               Counter.tracked_gaze_deviations Hcounts); [reflexivity|].
    now rewrite Hrun.
  - intros self. unfold Fusion.pose_drowsiness. simpl. rewrite Hnods.
    vm_compute. reflexivity.
Qed.

(** * Further properties of the synchronisation buffers *)

Section SyncQueue.

Context {Frame Result : Type}.

Import SyncBuffer.

Implicit Types (s : SyncBuffer.t Frame Result) (ts now : Z) (r : Result).
Implicit Types (key : string) (d : gmap string Result).

(** What an append does to a queue within its capacity. *)
Lemma deque_append_shape {A} (maxlen : nat) (q : list A) (b : A) :
  (0 < maxlen)%nat -> (length q <= maxlen)%nat ->
  ((length q < maxlen)%nat /\ Deque.append maxlen q b = q ++ [b])
  \/ (exists oldest rest,
        q = oldest :: rest /\ length q = maxlen
        /\ Deque.append maxlen q b = rest ++ [b]).
Proof.
  intros Hpos Hlen.
  destruct (decide (length q < maxlen)%nat) as [Hroom|Hfull].
  - left. split; [exact Hroom | now apply deque_append_room].
  - right. destruct q as [|oldest rest]; [simpl in *; lia|].
    exists oldest, rest. split; [reflexivity|].
    assert (Heq : length (oldest :: rest) = maxlen) by lia.
    split; [exact Heq|].
    unfold Deque.append. rewrite length_app, Heq. simpl.
    replace (maxlen + 1 - maxlen)%nat with 1%nat by lia. reflexivity.
Qed.

Lemma try_queue_queue s ts now :
  processed_data_queue (_try_queue_results s ts now) = processed_data_queue s
  \/ exists b,
       processed_data_queue (_try_queue_results s ts now)
       = Deque.append queue_maxlen (processed_data_queue s) b.
Proof.
  unfold _try_queue_results.
  destruct (pending s ts) as [d|]; [|now left].
  destruct (_ && _); [|now left].
  rewrite prune_queue. simpl.
  destruct (frame_buffer s !! ts) as [f|]; [|now left].
  destruct (result_buffer s !! ts) as [l|]; [|now left].
  right. now exists (f, l).
Qed.

Lemma record_then_try_queue s ts now key r :
  let s' := _try_queue_results (store (ensure_entry s ts) ts key r) ts now in
  processed_data_queue s' = processed_data_queue s
  \/ exists b,
       processed_data_queue s'
       = Deque.append queue_maxlen (processed_data_queue s) b.
Proof.
  intros s'. subst s'.
  destruct (try_queue_queue (store (ensure_entry s ts) ts key r) ts now)
    as [Hsame|(b & Happend)];
    rewrite store_queue, ensure_entry_queue in *; [now left | right; eauto].
Qed.

End SyncQueue.

(** X15.  The output queue is a bounded first-in first-out buffer.  A face or
    pose callback leaves the queue as it is, or appends one bundle while
    fewer than five are queued, or, with five queued, drops the oldest
    bundle and appends the new one; the hand and object callbacks and the
    pruning leave the queue unchanged.  A queue of at most five bundles
    never grows beyond five. *)
Theorem output_queue_drops_oldest {Frame Result : Type}
    (s : SyncBuffer.t Frame Result) (r : Result) (ts now : Z) :
  (length (SyncBuffer.processed_data_queue s) <= 5)%nat ->
  let q := SyncBuffer.processed_data_queue s in
  let step (q' : list (Frame * nat)) :=
    (length q' <= 5)%nat
    /\ (q' = q
        \/ (exists b, (length q < 5)%nat /\ q' = q ++ [b])
        \/ (exists b oldest rest,
              q = oldest :: rest /\ length q = 5%nat /\ q' = rest ++ [b])) in
  step (SyncBuffer.processed_data_queue (SyncBuffer.on_face_result s r ts now))
  /\ step (SyncBuffer.processed_data_queue
             (SyncBuffer.on_pose_result s r ts now))
  /\ SyncBuffer.processed_data_queue (SyncBuffer.on_hand_result s r ts) = q
  /\ SyncBuffer.processed_data_queue (SyncBuffer.on_object_result s r ts) = q
  /\ SyncBuffer.processed_data_queue (SyncBuffer._prune_buffers s now) = q.
Proof.
  intros Hlen q step.
  assert (Hstep : forall key,
            step (SyncBuffer.processed_data_queue
                    (SyncBuffer._try_queue_results
                       (SyncBuffer.store (SyncBuffer.ensure_entry s ts) ts key r)
                       ts now))).
  { intros key.
    destruct (record_then_try_queue s ts now key r) as [Hsame|(b & Happend)].
    - unfold step. rewrite Hsame. split; [exact Hlen | now left].
    - unfold step. rewrite Happend. fold q.
      split; [apply deque_append_length|]. right.
      destruct (deque_append_shape SyncBuffer.queue_maxlen q b)
        as [[Hroom ->]|(oldest & rest & Hq & Hfull & ->)];
        [unfold SyncBuffer.queue_maxlen; lia | exact Hlen | |].
      + left. now exists b.
      + right. now exists b, oldest, rest. }
  split; [apply Hstep|]. split; [apply Hstep|].
  split; [|split].
  - unfold SyncBuffer.on_hand_result.
    now rewrite store_queue, ensure_entry_queue.
  - unfold SyncBuffer.on_object_result.
    now rewrite store_queue, ensure_entry_queue.
  - apply prune_queue.
Qed.

Lemma output_queue_drops_oldest_witness :
  let full : SyncBuffer.t nat nat :=
    {| SyncBuffer.heap := [∅; ∅; ∅; ∅; ∅];
       SyncBuffer.frame_buffer := {[1000%Z := 42%nat]};
       SyncBuffer.result_buffer := ∅;
       SyncBuffer.processed_data_queue :=
         [(1, 0); (2, 1); (3, 2); (4, 3); (5, 4)]%nat |} in
  let s' :=
    SyncBuffer.on_pose_result
      (SyncBuffer.on_face_result full 10%nat 1000 1000) 11%nat 1000 1000 in
  (length (SyncBuffer.processed_data_queue s') <= 5)%nat
  /\ SyncBuffer.processed_data_queue s'
     = [(2, 1); (3, 2); (4, 3); (5, 4); (42, 5)]%nat.
Proof.
  intros full s'. split; [|reflexivity].
  apply (output_queue_drops_oldest
           (SyncBuffer.on_face_result full 10%nat 1000 1000) 11%nat 1000 1000).
  vm_compute. lia.
Defined.

Section SyncPending.

Context {Frame Result : Type}.

Import SyncBuffer.

Implicit Types (s : SyncBuffer.t Frame Result) (ts now : Z) (r : Result).
Implicit Types (key : string) (d : gmap string Result).

(** Recording under one timestamp leaves the pending dictionaries of the
    other timestamps alone. *)
Lemma record_pending_other s ts ts' key r :
  well_formed s -> ts' <> ts ->
  pending (store (ensure_entry s ts) ts key r) ts' = pending s ts'.
Proof.
  intros (Hvalid & Hinj & _) Hne. unfold pending.
  assert (Hrb : result_buffer (store (ensure_entry s ts) ts key r) !! ts'
                = result_buffer s !! ts').
  { rewrite store_result_buffer. unfold ensure_entry.
    destruct (result_buffer s !! ts); [reflexivity|]. simpl.
    now apply lookup_insert_ne. }
  rewrite Hrb. destruct (result_buffer s !! ts') as [l'|] eqn:Hl'; [|reflexivity].
  simpl. apply record_heap_other; [now apply (Hvalid ts')|].
  intros Hl. apply Hne. now apply (Hinj ts' ts l').
Qed.

Lemma prune_pending s now ts d :
  pending (_prune_buffers s now) ts = Some d -> pending s ts = Some d.
Proof.
  unfold pending. rewrite prune_heap.
  destruct (result_buffer (_prune_buffers s now) !! ts) as [l|] eqn:Hl;
    [|discriminate].
  apply (prune_result_buffer_Some s now) in Hl. now rewrite Hl.
Qed.

Lemma init_incomplete (frames : gmap Z Frame) :
  incomplete (Result := Result)
    {| heap := []; frame_buffer := frames; result_buffer := ∅;
       processed_data_queue := [] |}.
Proof.
  intros ts d Hd. unfold pending in Hd. simpl in Hd.
  now rewrite lookup_empty in Hd.
Qed.

Lemma prune_incomplete s now :
  incomplete s -> incomplete (_prune_buffers s now).
Proof.
  intros Hinc ts d Hd. apply (Hinc ts). now apply (prune_pending s now).
Qed.

(** A key other than "face" and "pose" keeps a dictionary incomplete. *)
Lemma record_side_incomplete s ts key r :
  key <> "face" -> key <> "pose" ->
  well_formed s -> incomplete s ->
  incomplete (store (ensure_entry s ts) ts key r).
Proof.
  intros Hface Hpose Hwf Hinc ts' d Hd.
  destruct (decide (ts' = ts)) as [->|Hne].
  - rewrite record_pending in Hd by exact Hwf. injection Hd as <-.
    rewrite !lookup_insert_ne by congruence.
    destruct (pending s ts) as [d0|] eqn:Hd0; simpl.
    + now apply (Hinc ts).
    + rewrite lookup_empty. intros [[x Hx] _]. discriminate.
  - rewrite record_pending_other in Hd by assumption. now apply (Hinc ts').
Qed.

(** A face or pose callback hands a completed pair over at once. *)
Lemma record_main_incomplete s ts now key r :
  well_formed s -> incomplete s ->
  incomplete (_try_queue_results (store (ensure_entry s ts) ts key r) ts now).
Proof.
  intros Hwf Hinc.
  set (s1 := store (ensure_entry s ts) ts key r).
  assert (Hother : forall ts' d, ts' <> ts -> pending s1 ts' = Some d ->
            ~ (is_Some (d !! "face") /\ is_Some (d !! "pose"))).
  { intros ts' d Hne Hd. subst s1.
    rewrite record_pending_other in Hd by assumption. now apply (Hinc ts'). }
  unfold _try_queue_results.
  destruct (pending s1 ts) as [d1|] eqn:Hd1.
  - destruct (bool_decide (is_Some (d1 !! "face"))
              && bool_decide (is_Some (d1 !! "pose"))) eqn:Hboth.
    + apply prune_incomplete. intros ts' d Hd.
      unfold pending in Hd. simpl in Hd.
      destruct (delete ts (result_buffer s1) !! ts') as [l|] eqn:Hl;
        [|discriminate].
      apply lookup_delete_Some in Hl as [Hne Hl].
      apply (Hother ts' d); [congruence|].
      unfold pending. now rewrite Hl.
    + intros ts' d Hd. destruct (decide (ts' = ts)) as [->|Hne].
      * rewrite Hd1 in Hd. injection Hd as <-.
        intros [Hface Hpose].
        rewrite !bool_decide_eq_true_2 in Hboth by assumption. discriminate.
      * now apply (Hother ts').
  - intros ts' d Hd. destruct (decide (ts' = ts)) as [->|Hne].
    + congruence.
    + now apply (Hother ts').
Qed.

End SyncPending.

(** X16.  No timestamp ever waits with both a face and a pose entry.  The
    property holds for the empty buffers of [__init__] and each of the four
    callbacks and the pruning keep it, so a completed pair is handed over (or
    discarded, if no frame is stored) by the very callback that completes
    it. *)
Theorem no_complete_pair_stays_pending {Frame Result : Type}
    (s : SyncBuffer.t Frame Result) (r : Result) (ts now : Z) :
  SyncBuffer.incomplete (SyncBuffer.init (Frame := Frame) (Result := Result))
  /\ (SyncBuffer.well_formed s -> SyncBuffer.incomplete s ->
      SyncBuffer.incomplete (SyncBuffer.on_face_result s r ts now)
      /\ SyncBuffer.incomplete (SyncBuffer.on_pose_result s r ts now)
      /\ SyncBuffer.incomplete (SyncBuffer.on_hand_result s r ts)
      /\ SyncBuffer.incomplete (SyncBuffer.on_object_result s r ts)
      /\ SyncBuffer.incomplete (SyncBuffer._prune_buffers s now)).
Proof.
  split; [apply init_incomplete|].
  intros Hwf Hinc.
  split; [now apply record_main_incomplete|].
  split; [now apply record_main_incomplete|].
  split; [now apply record_side_incomplete|].
  split; [now apply record_side_incomplete|].
  now apply prune_incomplete.
Qed.

(** X17.  What [_prune_buffers] does achieve: a frame survives exactly when
    it is at most 2000 ms old; the result entry of a timestamp whose frame
    survives is kept, the one of a timestamp whose frame is dropped is
    dropped with it; the output queue and the queued dictionaries are not
    touched; and pruning twice at the same time is pruning once. *)
Theorem prune_follows_the_frames {Frame Result : Type}
    (s : SyncBuffer.t Frame Result) (now : Z) :
  let s' := SyncBuffer._prune_buffers s now in
  (forall ts f,
     SyncBuffer.frame_buffer s' !! ts = Some f
     <-> SyncBuffer.frame_buffer s !! ts = Some f /\ (now - ts <= 2000)%Z)
  /\ (forall ts,
        is_Some (SyncBuffer.frame_buffer s !! ts) ->
        SyncBuffer.result_buffer s' !! ts
        = if bool_decide (now - ts <= 2000)%Z
          then SyncBuffer.result_buffer s !! ts else None)
  /\ SyncBuffer.processed_data_queue s' = SyncBuffer.processed_data_queue s
  /\ SyncBuffer.heap s' = SyncBuffer.heap s
  /\ SyncBuffer._prune_buffers s' now = s'.
Proof.
  intros s'.
  assert (Hframes : forall ts f,
            SyncBuffer.frame_buffer s' !! ts = Some f
            <-> SyncBuffer.frame_buffer s !! ts = Some f /\ (now - ts <= 2000)%Z).
  { intros ts f. subst s'. rewrite prune_frame_buffer.
    unfold SyncBuffer.horizon_ms. case_bool_decide as Hstale.
    - split; [discriminate|]. intros [_ Hfresh]. lia.
    - split; [|tauto]. intros Hf. split; [exact Hf|].
      destruct (decide (now - ts <= 2000)%Z) as [Hle|Hgt]; [exact Hle|].
      exfalso. apply Hstale. split; [eauto | lia]. }
  split; [exact Hframes|]. split; [|split; [apply prune_queue|split; [apply prune_heap|]]].
  - intros ts Hframe. subst s'. rewrite prune_result_buffer.
    unfold SyncBuffer.horizon_ms.
    destruct (decide (now - ts <= 2000)%Z) as [Hfresh|Hstale].
    + rewrite (bool_decide_eq_true_2 _ Hfresh).
      rewrite bool_decide_eq_false_2; [reflexivity|]. intros [_ Hold]. lia.
    + rewrite (bool_decide_eq_false_2 _ Hstale).
      rewrite bool_decide_eq_true_2; [reflexivity|]. split; [exact Hframe | lia].
  - unfold SyncBuffer._prune_buffers at 1.
    assert (Hnone : SyncBuffer.stale_keys s' now = []).
    { destruct (SyncBuffer.stale_keys s' now) as [|k ks] eqn:Hkeys; [reflexivity|].
      assert (Hk : k ∈ SyncBuffer.stale_keys s' now) by (rewrite Hkeys; left).
      apply elem_of_stale_keys in Hk as [[f Hf] Hold].
      apply Hframes in Hf as [_ Hfresh].
      unfold SyncBuffer.horizon_ms in Hold. lia. }
    now rewrite Hnone.
Qed.

(** X18.  Recording is last-write-wins and local to its timestamp: after a
    hand callback the pending dictionary of the timestamp holds that result
    under "hand" next to whatever it held before, a second hand result for
    the same timestamp replaces the first, and the pending dictionaries of
    all other timestamps are unchanged. *)
Theorem recording_is_last_write_wins {Frame Result : Type}
    (s : SyncBuffer.t Frame Result) (r1 r2 : Result) (ts : Z) :
  SyncBuffer.well_formed s ->
  let before := default ∅ (SyncBuffer.pending s ts) in
  SyncBuffer.pending (SyncBuffer.on_hand_result s r1 ts) ts
  = Some (<["hand" := r1]> before)
  /\ SyncBuffer.pending
       (SyncBuffer.on_hand_result (SyncBuffer.on_hand_result s r1 ts) r2 ts) ts
     = Some (<["hand" := r2]> before)
  /\ forall ts', ts' <> ts ->
       SyncBuffer.pending (SyncBuffer.on_hand_result s r1 ts) ts'
       = SyncBuffer.pending s ts'.
Proof.
  intros Hwf before. unfold SyncBuffer.on_hand_result.
  split; [now apply record_pending|]. split.
  - rewrite record_pending
      by now apply store_well_formed, ensure_entry_well_formed.
    rewrite record_pending by exact Hwf. simpl.
    now rewrite insert_insert_eq.
  - intros ts' Hne. now apply record_pending_other.
Qed.

Lemma recording_is_last_write_wins_witness :
  let s : SyncBuffer.t nat nat :=
    SyncBuffer.on_object_result SyncBuffer.init 5%nat 1000 in
  SyncBuffer.pending
    (SyncBuffer.on_hand_result (SyncBuffer.on_hand_result s 6%nat 1000) 7%nat 1000)
    1000
  = Some (<["hand" := 7%nat]> {["object" := 5%nat]}).
Proof.
  intros s.
  assert (Hwf : SyncBuffer.well_formed s)
    by apply on_object_result_well_formed, init_well_formed_sync.
  destruct (recording_is_last_write_wins s 6%nat 7%nat 1000 Hwf)
    as (_ & Htwice & _).
  exact Htwice.
Defined.

(** * Further properties of the event window counter *)

Section CounterBounds.

Import Counter.

Lemma deque_extend_length {A} (maxlen : nat) (xs d : list A) :
  (length d <= maxlen)%nat -> (length (Deque.extend maxlen d xs) <= maxlen)%nat.
Proof.
  intros Hd. rewrite deque_extend_drop by exact Hd.
  rewrite length_drop. lia.
Qed.

Lemma count_recent_le_length now window (buffer : list Q) :
  (count_recent now window buffer <= length buffer)%nat.
Proof. apply List.filter_length_le. Qed.

(** As time passes, fewer of the same readings are recent. *)
Lemma count_recent_fades (now now' window : Q) (buffer : list Q) :
  now <= now' ->
  (count_recent now' window buffer <= count_recent now window buffer)%nat.
Proof.
  intros Hlater. induction buffer as [|ts buffer IH]; [reflexivity|].
  rewrite !count_recent_cons.
  destruct (Py.le (now' - ts) window) eqn:Hlate.
  - apply py_le_true in Hlate.
    assert (Hearly : Py.le (now - ts) window = true) by (apply py_le_true; lra).
    rewrite Hearly. lia.
  - destruct (Py.le (now - ts) window); lia.
Qed.

Lemma add_event_absent (buffers : gmap string EventLog) e e' time :
  buffers !! e = None -> add_event buffers e' time !! e = None.
Proof.
  intros Hnone. unfold add_event.
  destruct (buffers !! e') as [d|] eqn:Hd; [|exact Hnone].
  rewrite lookup_insert_ne; [exact Hnone | congruence].
Qed.

Lemma add_events_absent calls : forall (buffers : gmap string EventLog) e,
  buffers !! e = None -> add_events buffers calls !! e = None.
Proof.
  unfold add_events.
  induction calls as [|c calls IH]; intros buffers e Hnone; [exact Hnone|].
  simpl. apply IH. now apply add_event_absent.
Qed.

Lemma add_event_other (buffers : gmap string EventLog) e e' time :
  e' <> e -> add_event buffers e time !! e' = buffers !! e'.
Proof.
  intros Hne. unfold add_event.
  destruct (buffers !! e); [now apply lookup_insert_ne | reflexivity].
Qed.

End CounterBounds.

(** X19.  For the counter of [__init__] after any run of [add_event] calls,
    [get_event_counts] succeeds at every time, each count is at most the
    capacity of its buffer (blinks 300, yawns 100, head nods 120, gaze
    deviations 60), and without new events a count never grows as time
    passes. *)
Theorem counts_are_bounded_and_fade
    (calls : list (string * Q)) (now now' : Q) :
  let buffers := Counter.add_events Counter.init calls in
  exists counts counts',
    Counter.get_event_counts buffers now = Some counts
    /\ Counter.get_event_counts buffers now' = Some counts'
    /\ forall event_type cap window field,
         Counter.tracked event_type cap window field ->
         (field counts <= cap)%nat
         /\ (now <= now' -> (field counts' <= field counts)%nat).
Proof.
  intros buffers.
  assert (Hwf : Counter.well_formed buffers)
    by (apply add_events_well_formed, init_well_formed).
  destruct (get_event_counts_total buffers now Hwf) as (counts & Hcounts).
  destruct (get_event_counts_total buffers now' Hwf) as (counts' & Hcounts').
  exists counts, counts'. split; [exact Hcounts|]. split; [exact Hcounts'|].
  intros e cap window field Htracked.
  destruct (init_well_formed e cap window field Htracked) as (d & Hd & Hcap).
  assert (Hempty : Counter.stamps d = []).
  { destruct Htracked; vm_compute in Hd; injection Hd as <-; reflexivity. }
  pose proof (add_events_lookup calls Counter.init e d Hd) as Hlookup.
  fold buffers in Hlookup.
  rewrite (get_event_counts_field _ _ _ _ _ _ _ _ Htracked Hcounts Hlookup).
  rewrite (get_event_counts_field _ _ _ _ _ _ _ _ Htracked Hcounts' Hlookup).
  simpl. split.
  - etransitivity; [apply count_recent_le_length|].
    rewrite Hcap, Hempty. apply deque_extend_length. simpl. lia.
  - intros Hlater. now apply count_recent_fades.
Qed.

(** X20.  [add_event] with a name that is not one of the four event types
    changes nothing, whatever was recorded before; and recording an event of
    one type leaves the buffer, hence the count, of every other type as it
    was. *)
Theorem untracked_event_types_are_ignored
    (calls : list (string * Q)) (event_type : string) (time : Q) :
  (forall cap window field,
     ~ Counter.tracked event_type cap window field) ->
  let buffers := Counter.add_events Counter.init calls in
  Counter.add_event buffers event_type time = buffers
  /\ forall (others : gmap string Counter.EventLog) recorded other,
       other <> recorded ->
       Counter.add_event others recorded time !! other = others !! other.
Proof.
  intros Huntracked buffers. split.
  - assert (Hinit : Counter.init !! event_type = None).
    { unfold Counter.init.
      rewrite !lookup_insert_ne; [apply lookup_empty| | | |];
        intros <-; eapply Huntracked; constructor. }
    unfold Counter.add_event. subst buffers.
    now rewrite (add_events_absent calls Counter.init event_type Hinit).
  - intros others recorded other Hne. now apply add_event_other.
Qed.

Lemma untracked_event_types_are_ignored_witness :
  let buffers := Counter.add_events Counter.init [("blinks", 1)] in
  Counter.add_event buffers "blink" 2 = buffers.
Proof.
  intros buffers.
  apply (untracked_event_types_are_ignored [("blinks", 1)] "blink" 2).
  intros cap window field Htracked. inversion Htracked.
Defined.

(** ** Personal thresholds *)

Section Thresholds.

Import Personalization.

Lemma update_threshold_user (self : Personalization.t) name value :
  user_id (update_threshold self name value) = user_id self.
Proof.
  unfold update_threshold. now destruct (adaptive_thresholds self !! name).
Qed.

Lemma update_threshold_dom (self : Personalization.t) name value :
  dom (adaptive_thresholds (update_threshold self name value))
  = dom (adaptive_thresholds self).
Proof.
  unfold update_threshold.
  destruct (adaptive_thresholds self !! name) eqn:Hname; [|reflexivity].
  simpl. apply dom_insert_lookup_L. now rewrite Hname.
Qed.

Lemma update_all_user (updates : list (string * Q)) (self : Personalization.t) :
  user_id (update_all self updates) = user_id self.
Proof.
  revert self. induction updates as [|u updates IH]; intros self; [reflexivity|].
  unfold update_all in *. simpl. rewrite IH. apply update_threshold_user.
Qed.

Lemma update_all_dom (updates : list (string * Q)) (self : Personalization.t) :
  dom (adaptive_thresholds (update_all self updates))
  = dom (adaptive_thresholds self).
Proof.
  revert self. induction updates as [|u updates IH]; intros self; [reflexivity|].
  unfold update_all in *. simpl. rewrite IH. apply update_threshold_dom.
Qed.

Lemma init_user user files : user_id (init user files) = user.
Proof.
  unfold init, _load_user_profile. simpl.
  destruct (files !! profile_path user) as [[data|]|]; reflexivity.
Qed.

Lemma init_dom user files :
  dom default_thresholds ⊆ dom (adaptive_thresholds (init user files)).
Proof.
  unfold init, _load_user_profile. simpl.
  destruct (files !! profile_path user) as [[data|]|]; simpl; [|done|done].
  rewrite dom_union_L. apply union_subseteq_r.
Qed.

(** [dict.update] with a dictionary that has every key already there. *)
Lemma union_covering (saved thresholds : gmap string Q) :
  dom thresholds ⊆ dom saved -> saved ∪ thresholds = saved.
Proof.
  intros Hdom. apply map_eq. intros name. rewrite lookup_union.
  destruct (saved !! name) as [v|] eqn:Hsaved.
  - now destruct (thresholds !! name).
  - assert (Hnot : name ∉ dom thresholds).
    { intros Hin. apply Hdom in Hin. apply elem_of_dom in Hin.
      rewrite Hsaved in Hin. now destruct Hin. }
    apply not_elem_of_dom in Hnot. now rewrite Hnot.
Qed.

End Thresholds.

(** X21.  [update_threshold] changes a threshold only under a name the
    dictionary already has: the set of names never changes, every other
    threshold reads as before, a known name reads back the new value, and
    under an unknown name nothing is stored and [get_threshold] keeps
    answering 0.5. *)
Theorem thresholds_change_under_known_names_only
    (self : Personalization.t) (name : string) (value : Q) :
  let self' := Personalization.update_threshold self name value in
  dom (Personalization.adaptive_thresholds self')
  = dom (Personalization.adaptive_thresholds self)
  /\ (forall other, other <> name ->
        Personalization.get_threshold self' other
        = Personalization.get_threshold self other)
  /\ (name ∈ dom (Personalization.adaptive_thresholds self) ->
      Personalization.get_threshold self' name = value)
  /\ (name ∉ dom (Personalization.adaptive_thresholds self) ->
      self' = self /\ Personalization.get_threshold self' name = 5 # 10).
Proof.
  intros self'. split; [apply update_threshold_dom|]. subst self'.
  unfold Personalization.get_threshold, Personalization.update_threshold.
  split; [|split].
  - intros other Hother.
    destruct (Personalization.adaptive_thresholds self !! name); [|reflexivity].
    simpl. now rewrite lookup_insert_ne.
  - intros Hin. apply elem_of_dom in Hin as [v Hv]. rewrite Hv. simpl.
    now rewrite lookup_insert_eq.
  - intros Hnot. apply not_elem_of_dom in Hnot. now rewrite !Hnot.
Qed.

(** X22.  A profile that was saved is what the next start reads: for an
    engine started from any profile directory and changed by any updates,
    [save_profile] followed by [__init__] for the same user gives the same
    thresholds, whatever else the directory holds.  A write that fails after
    the file was opened leaves a file that does not load, and the next start
    has the defaults. *)
Theorem saved_profile_is_restored
    (user : string) (files files' : gmap string Personalization.FileContent)
    (updates : list (string * Q)) (now_iso : string) :
  let self := Personalization.update_all (Personalization.init user files) updates in
  Personalization.init user
    (Personalization.save_profile self files' now_iso Personalization.Written)
  = self
  /\ Personalization.init user
       (Personalization.save_profile self files' now_iso Personalization.Truncated)
     = {| Personalization.user_id := user;
          Personalization.adaptive_thresholds := Personalization.default_thresholds |}.
Proof.
  intros self.
  assert (Huser : Personalization.user_id self = user).
  { subst self. rewrite update_all_user. apply init_user. }
  assert (Hdom : dom Personalization.default_thresholds
                 ⊆ dom (Personalization.adaptive_thresholds self)).
  { subst self. rewrite update_all_dom. apply init_dom. }
  unfold Personalization.init, Personalization._load_user_profile,
    Personalization.save_profile.
  cbn [Personalization.user_id]. rewrite Huser, !lookup_insert_eq.
  split; [|reflexivity].
  cbn [Personalization.profile_thresholds default Personalization.adaptive_thresholds].
  unfold id. rewrite (union_covering _ _ Hdom).
  destruct self as [u thresholds]. simpl in Huser. now subst u.
Qed.

(** ** Dynamic analysis mode *)

Section AnalysisMode.

Import Dynamic.

Lemma should_expand_mode (self : Dynamic.t) face_available pose_available hands now :
  two_modes self ->
  let result := should_expand_analysis self face_available pose_available hands now in
  analysis_mode (snd result) = if fst result then "expanded" else "primary".
Proof.
  intros Hmode. unfold should_expand_analysis. cbn [fst snd analysis_mode].
  destruct (_ || _ || _); destruct Hmode as [-> | ->]; reflexivity.
Qed.

Lemma should_expand_two_modes (self : Dynamic.t) face_available pose_available hands now :
  two_modes self ->
  two_modes (snd (should_expand_analysis self face_available pose_available hands now)).
Proof.
  intros Hmode. unfold two_modes.
  rewrite (should_expand_mode self face_available pose_available hands now Hmode).
  destruct (fst _); [now right | now left].
Qed.

Lemma observe_all_two_modes (observations : list Observation) (self : Dynamic.t) :
  two_modes self -> two_modes (observe_all self observations).
Proof.
  revert self. induction observations as [|o observations IH]; intros self Hmode;
    [exact Hmode|].
  unfold observe_all in *. simpl. apply IH. now apply should_expand_two_modes.
Qed.

(** A hand at coordinates that are both there is judged by the two checks on
    the same rectangle. *)
Lemma located_hand_checks (h : HandPosition.t) :
  is_Some (HandPosition.x h) -> is_Some (HandPosition.y h) ->
  (Py.le (x1 steering_wheel) (Py.get (HandPosition.x h) 0)
   && Py.le (Py.get (HandPosition.x h) 0) (x2 steering_wheel)
   && Py.le (y1 steering_wheel) (Py.get (HandPosition.y h) 0)
   && Py.le (Py.get (HandPosition.y h) 0) (y2 steering_wheel))
  = (Py.le (3 # 10) (Py.get (HandPosition.x h) (5 # 10))
     && Py.le (Py.get (HandPosition.x h) (5 # 10)) (7 # 10)
     && Py.le (4 # 10) (Py.get (HandPosition.y h) (5 # 10))
     && Py.le (Py.get (HandPosition.y h) (5 # 10)) (8 # 10)).
Proof.
  intros [x ->] [y ->]. reflexivity.
Qed.

End AnalysisMode.

(** X23.  The analysis mode follows the verdict: after any run of
    [should_expand_analysis] calls since [reset], a further call leaves the
    mode "expanded" when it returns True and "primary" when it returns False.
    A call that sees the face, the pose and a hand on the wheel returns False
    and sets the three durations to 0, whatever came before. *)
Theorem analysis_mode_follows_the_verdict
    (t_face t_pose t_hand : Q) (observations : list Dynamic.Observation)
    (face_available pose_available : bool) (hands : list HandPosition.t)
    (current_time : Q) :
  let self := Dynamic.observe_all (Dynamic.reset t_face t_pose t_hand) observations in
  let result :=
    Dynamic.should_expand_analysis self face_available pose_available hands
                                   current_time in
  Dynamic.analysis_mode (snd result)
  = (if fst result then "expanded" else "primary")
  /\ (face_available = true -> pose_available = true ->
      Dynamic._check_hands_in_bounds hands = true ->
      fst result = false
      /\ Dynamic.trigger_durations (snd result)
         = {| Dynamic.face_lost := 0; Dynamic.pose_lost := 0;
              Dynamic.hand_out := 0 |}).
Proof.
  intros self result. split.
  - apply should_expand_mode. subst self. apply observe_all_two_modes.
    now left.
  - intros -> -> Hhands. subst result. unfold Dynamic.should_expand_analysis.
    rewrite Hhands. split; reflexivity.
Qed.

(** ** The two steering-wheel checks *)

Section WheelChecks.

Import HandPosition.

Lemma existsb_filter_length {A} (f g : A -> bool) (l : list A) :
  Forall (fun a => f a = g a) l ->
  existsb f l = true <-> (0 < length (List.filter g l))%nat.
Proof.
  induction 1 as [|a l Ha _ IH]; simpl.
  - split; [discriminate | lia].
  - rewrite Ha. destruct (g a); simpl; [split; [lia | reflexivity] | exact IH].
Qed.

Lemma half_count_positive (k : nat) :
  0 < inject_Z (Z.of_nat k) / 2 <-> (0 < k)%nat.
Proof.
  split.
  - intros Hpos. destruct k; [|lia]. vm_compute in Hpos. discriminate.
  - intros Hk. pose proof (inject_nat_le 1 k ltac:(lia)) as Hone.
    change (inject_Z (Z.of_nat 1)) with 1 in Hone. by_constants. lra.
Qed.

Lemma filter_all {A} (g : A -> bool) (l : list A) :
  Forall (fun a => g a = true) l -> List.filter g l = l.
Proof.
  induction 1 as [|a l Ha _ IH]; simpl; [reflexivity|].
  now rewrite Ha, IH.
Qed.

Lemma existsb_none {A} (f : A -> bool) (l : list A) :
  Forall (fun a => f a = false) l -> existsb f l = false.
Proof.
  induction 1 as [|a l Ha _ IH]; simpl; [reflexivity|].
  now rewrite Ha, IH.
Qed.

End WheelChecks.

(** X24.  [_check_hands_in_bounds] of the dynamic engine and
    [_calculate_hands_on_wheel_confidence] of the analysis engine test the
    same rectangle, and agree on hands whose two coordinates are there: the
    first is True exactly when the second is positive.  They disagree on
    hands without coordinates, where the defaults differ (0 and 0.5): the
    first then says that no hand is on the wheel, the second counts every
    hand as on it. *)
Theorem wheel_checks_agree_on_located_hands
    (self : Engine.t) (hands : list HandPosition.t) :
  LatestResults.hand_positions (Engine.latest_results self) = Some hands ->
  (Forall HandPosition.located hands ->
   Dynamic._check_hands_in_bounds hands = true
   <-> 0 < Engine._calculate_hands_on_wheel_confidence self)
  /\ (hands <> [] -> Forall HandPosition.unlocated hands ->
      Dynamic._check_hands_in_bounds hands = false
      /\ Engine._calculate_hands_on_wheel_confidence self
         = inject_Z (Z.of_nat (length hands)) / 2
      /\ 0 < Engine._calculate_hands_on_wheel_confidence self).
Proof.
  intros Hpositions.
  unfold Engine._calculate_hands_on_wheel_confidence, Dynamic._check_hands_in_bounds.
  rewrite Hpositions. cbn [Py.get].
  destruct hands as [|h hands'].
  - split; [|now intros Hnone].
    intros _. split; [discriminate|]. intros Hpos. now apply Qlt_irrefl in Hpos.
  - set (hands := h :: hands'). split.
    + intros Hlocated. rewrite half_count_positive.
      apply existsb_filter_length.
      eapply Forall_impl; [exact Hlocated|].
      intros a [Hx Hy]. now apply located_hand_checks.
    + intros _ Hunlocated.
      rewrite filter_all.
      * split; [|split; [reflexivity|]].
        -- apply existsb_none. eapply Forall_impl; [exact Hunlocated|].
           intros a [Hx Hy]. now rewrite Hx, Hy.
        -- apply half_count_positive. simpl. lia.
      * eapply Forall_impl; [exact Hunlocated|].
        intros a [Hx Hy]. now rewrite Hx, Hy.
Qed.

Lemma wheel_checks_agree_on_located_hands_witness :
  let hands :=
    [{| HandPosition.x := Some (5 # 10); HandPosition.y := Some (6 # 10) |};
     {| HandPosition.x := Some (1 # 10); HandPosition.y := Some (9 # 10) |}] in
  let self :=
    {| Engine.latest_results :=
         {| LatestResults.face := None; LatestResults.pose := None;
            LatestResults.hand := Some 1%nat; LatestResults.object := None;
            LatestResults.hand_positions := Some hands |};
       Engine.metrics := Engine.metrics_with_risk 0;
       Engine.counter_analyzer := Counter.init;
       Engine.gaze_classifier :=
         {| GazeClassifier.get_gaze_stability := 1;
            GazeClassifier.get_attention_focus_score := 1 |};
       Engine.current_gaze_zone := FRONT;
       Engine.multimodal_analyzer := Fusion.init |} in
  Dynamic._check_hands_in_bounds hands = true
  /\ 0 < Engine._calculate_hands_on_wheel_confidence self.
Proof.
  intros hands self.
  destruct (wheel_checks_agree_on_located_hands self hands eq_refl)
    as (Hagree & _).
  assert (Hlocated : Forall HandPosition.located hands).
  { repeat constructor; simpl; eauto. }
  split; [reflexivity|]. apply (Hagree Hlocated). reflexivity.
Defined.

(** ** The performance log *)

Section PerformanceFacts.

Import Performance.

Lemma deque_append_length_eq {A} maxlen (d : list A) (x : A) :
  length (Deque.append maxlen d x) = Nat.min (S (length d)) maxlen.
Proof.
  unfold Deque.append. rewrite length_drop, length_app. cbn [length]. lia.
Qed.

Lemma inject_nat_S (n : nat) :
  inject_Z (Z.of_nat (S n)) == inject_Z (Z.of_nat n) + 1.
Proof. rewrite Nat2Z.inj_succ. unfold Z.succ. now rewrite inject_Z_plus. Qed.

Lemma total_lower (lo : Q) (values : list Q) :
  Forall (fun v => lo <= v) values ->
  lo * inject_Z (Z.of_nat (length values)) <= total values.
Proof.
  induction 1 as [|v values Hv _ IH].
  - simpl. change (inject_Z (Z.of_nat 0)) with 0%Q. lra.
  - cbn [length total fold_right]. fold (total values).
    rewrite inject_nat_S.
    set (n := inject_Z (Z.of_nat (length values))) in *. clearbody n.
    set (s := total values) in *. clearbody s. nra.
Qed.

Lemma total_upper (hi : Q) (values : list Q) :
  Forall (fun v => v <= hi) values ->
  total values <= hi * inject_Z (Z.of_nat (length values)).
Proof.
  induction 1 as [|v values Hv _ IH].
  - simpl. change (inject_Z (Z.of_nat 0)) with 0%Q. lra.
  - cbn [length total fold_right]. fold (total values).
    rewrite inject_nat_S.
    set (n := inject_Z (Z.of_nat (length values))) in *. clearbody n.
    set (s := total values) in *. clearbody s. nra.
Qed.

Lemma count_positive {A} (l : list A) :
  l <> [] -> 0 < inject_Z (Z.of_nat (length l)).
Proof.
  intros Hl. destruct l as [|a l]; [done|].
  rewrite <- (Zlt_Qlt 0). simpl. lia.
Qed.

Lemma mean_bounds (lo hi : Q) (values : list Q) :
  values <> [] ->
  Forall (fun v => lo <= v) values -> Forall (fun v => v <= hi) values ->
  lo <= mean values <= hi.
Proof.
  intros Hne Hlo Hhi. pose proof (count_positive values Hne) as Hn.
  unfold mean. split.
  - apply Qle_shift_div_l; [exact Hn | now apply total_lower].
  - apply Qle_shift_div_r; [exact Hn | now apply total_upper].
Qed.

Lemma mean_below (c : Q) (values : list Q) :
  values <> [] -> Forall (fun v => v < c) values -> mean values < c.
Proof.
  intros Hne Hall. pose proof (count_positive values Hne) as Hn.
  unfold mean. apply Qlt_shift_div_r; [exact Hn|].
  destruct Hall as [|v values Hv Hall]; [done|].
  assert (Hrest : total values <= c * inject_Z (Z.of_nat (length values))).
  { apply total_upper. eapply Forall_impl; [exact Hall|].
    intros a Ha. now apply Qlt_le_weak. }
  cbn [length total fold_right]. fold (total values).
  rewrite inject_nat_S. lra.
Qed.

Lemma mean_above (c : Q) (values : list Q) :
  values <> [] -> Forall (fun v => c < v) values -> c < mean values.
Proof.
  intros Hne Hall. pose proof (count_positive values Hne) as Hn.
  unfold mean. apply Qlt_shift_div_l; [exact Hn|].
  destruct Hall as [|v values Hv Hall]; [done|].
  assert (Hrest : c * inject_Z (Z.of_nat (length values)) <= total values).
  { apply total_lower. eapply Forall_impl; [exact Hall|].
    intros a Ha. now apply Qlt_le_weak. }
  cbn [length total fold_right]. fold (total values).
  rewrite inject_nat_S. lra.
Qed.

(** [_check_performance_issues] writes the flag and nothing else. *)
Lemma check_sets_the_flag (self : Performance.t) :
  exists flag,
    _check_performance_issues self = set_optimization_active self flag.
Proof.
  unfold _check_performance_issues, _activate_optimization,
    _deactivate_optimization.
  assert (Hself : self = set_optimization_active self (optimization_active self))
    by now destruct self.
  destruct (_ || _);
    [destruct (negb _)
    |destruct (_ && _); [destruct (optimization_active self)|]];
    eexists; (reflexivity || exact Hself).
Qed.

Lemma init_consistent_log : consistent init.
Proof.
  unfold consistent. simpl. repeat split; try reflexivity. discriminate.
Qed.

Lemma log_performance_consistent self processing_time fps now sample_time csv_time :
  consistent self ->
  consistent (log_performance self processing_time fps now sample_time csv_time).
Proof.
  intros (Hhistory & Hrows & Hflag & Htarget & Hmin).
  unfold log_performance.
  destruct (Py.lt _ _); [now repeat split|].
  set (logged := store_sample self processing_time fps now sample_time).
  assert (Hlen : length (performance_history logged)
                 = Nat.min (S (total_frame_count self)) history_maxlen).
  { subst logged. unfold store_sample. cbn [performance_history].
    rewrite deque_append_length_eq.
    rewrite Hhistory. unfold history_maxlen. lia. }
  destruct (30 <=? length (performance_history logged))%nat eqn:Hthirty.
  - destruct (check_sets_the_flag logged) as [flag ->].
    apply Nat.leb_le in Hthirty.
    unfold consistent. cbn - [Nat.min]. rewrite length_app. simpl.
    repeat split; try assumption; try lia.
    intros _. exact Hthirty.
  - apply Nat.leb_gt in Hthirty.
    unfold consistent. cbn - [Nat.min]. rewrite length_app. simpl.
    repeat split; try assumption; try lia.
    intros Hactive. specialize (Hflag Hactive).
    rewrite Hlen in Hthirty. unfold history_maxlen in *. lia.
Qed.

Lemma log_all_consistent (calls : list LogCall) (self : Performance.t) :
  consistent self -> consistent (log_all self calls).
Proof.
  revert self. induction calls as [|c calls IH]; intros self Hself; [exact Hself|].
  unfold log_all in *. simpl. apply IH. now apply log_performance_consistent.
Qed.

Lemma last_n_length {A} (n : nat) (d : list A) :
  length (last_n n d) = Nat.min n (length d).
Proof. unfold last_n. rewrite length_drop. lia. Qed.

Lemma last_n_nonempty {A} (n : nat) (d : list A) :
  (0 < n)%nat -> d <> [] -> last_n n d <> [].
Proof.
  intros Hn Hd Hnil. apply (f_equal length) in Hnil.
  rewrite last_n_length in Hnil. destruct d; [done|]. simpl in Hnil. lia.
Qed.

Lemma last_n_Forall {A} (P : A -> Prop) (n : nat) (d : list A) :
  Forall P d -> Forall P (last_n n d).
Proof. apply Forall_drop. Qed.

Lemma map_nonempty {A B} (f : A -> B) (l : list A) : l <> [] -> map f l <> [].
Proof. now destruct l. Qed.

Lemma score_bounds (self : Performance.t) (data : list Sample) :
  target_fps self = 30 -> data <> [] ->
  Forall (fun p => 0 <= fps p /\ 0 <= processing_time p) data ->
  0 <= _calculate_performance_score self data <= 1.
Proof.
  intros Htarget Hne Hall. unfold _calculate_performance_score. rewrite Htarget.
  assert (Hfps : 0 <= mean (map fps data)).
  { pose proof (count_positive _ (map_nonempty fps data Hne)) as Hn.
    unfold mean.
    apply Qle_shift_div_l; [exact Hn|]. apply total_lower.
    apply Forall_map. eapply Forall_impl; [exact Hall|]. now intros p [? ?]. }
  assert (Htime : 0 <= mean (map processing_time data)).
  { pose proof (count_positive _ (map_nonempty processing_time data Hne)) as Hn.
    unfold mean.
    apply Qle_shift_div_l; [exact Hn|]. apply total_lower.
    apply Forall_map. eapply Forall_impl; [exact Hall|]. now intros p [? ?]. }
  set (avg_fps := mean (map fps data)) in *. clearbody avg_fps.
  set (avg_time := mean (map processing_time data)) in *. clearbody avg_time.
  by_constants. risk_bounds.
Qed.

(** The samples of the history are samples that were logged. *)
Lemma log_all_samples (P : Q -> Q -> Prop) (calls : list LogCall) (self : Performance.t) :
  Forall (fun p => P (fps p) (processing_time p)) (performance_history self) ->
  Forall (fun c => P (call_fps c) (call_processing_time c)) calls ->
  Forall (fun p => P (fps p) (processing_time p))
         (performance_history (log_all self calls)).
Proof.
  revert self. induction calls as [|c calls IH]; intros self Hself Hcalls;
    [exact Hself|].
  apply Forall_cons in Hcalls as [Hc Hcalls].
  unfold log_all in *. simpl. apply IH; [|exact Hcalls].
  unfold log_call, log_performance. destruct (Py.lt _ _); [exact Hself|].
  set (logged := store_sample _ _ _ _ _).
  assert (Hlogged : Forall (fun p => P (fps p) (processing_time p))
                           (performance_history logged)).
  { subst logged. unfold store_sample. cbn [performance_history].
    unfold Deque.append.
    apply Forall_drop, Forall_app. split; [exact Hself|].
    now repeat constructor. }
  destruct (30 <=? _)%nat; [|exact Hlogged].
  destruct (check_sets_the_flag logged) as [flag ->]. exact Hlogged.
Qed.

End PerformanceFacts.

(** X25.  After any run of [log_performance] calls on a fresh optimizer, the
    history holds the newest samples, as many as frames were counted and at
    most 300; the CSV file has one data row per counted frame; optimisation
    is never active with fewer than 30 samples; and the "active" entry of
    [get_optimization_status] is the flag itself, also in its short form.  A
    call that comes less than [_log_interval] after the last logged one
    changes nothing. *)
Theorem performance_log_is_consistent
    (calls : list Performance.LogCall) (c : Performance.LogCall) :
  let self := Performance.log_all Performance.init calls in
  length (Performance.performance_history self)
  = Nat.min (Performance.total_frame_count self) 300
  /\ length (Performance.csv_rows self) = Performance.total_frame_count self
  /\ (Performance.optimization_active self = true ->
      (30 <= length (Performance.performance_history self))%nat)
  /\ Performance.active (Performance.get_optimization_status self)
     = Performance.optimization_active self
  /\ (Performance.call_time c - Performance._last_log_time self
      < Performance._log_interval self ->
      Performance.log_call self c = self).
Proof.
  intros self.
  destruct (log_all_consistent calls Performance.init init_consistent_log)
    as (Hhistory & Hrows & Hflag & _).
  fold self in Hhistory, Hrows, Hflag.
  split; [exact Hhistory|]. split; [exact Hrows|]. split; [exact Hflag|]. split.
  - unfold Performance.get_optimization_status.
    destruct (length (Performance.performance_history self) <? 10)%nat eqn:Hten;
      [|reflexivity].
    apply Nat.ltb_lt in Hten. simpl.
    destruct (Performance.optimization_active self); [|reflexivity].
    specialize (Hflag eq_refl). lia.
  - intros Hsoon. unfold Performance.log_call, Performance.log_performance.
    apply py_lt_true in Hsoon. now rewrite Hsoon.
Qed.

(** X26.  When no logged frame rate and no logged processing time is
    negative, the performance score that [get_optimization_status] reports
    lies between 0 and 1; it reports one exactly when the history has at
    least 10 samples. *)
Theorem reported_performance_score_in_unit_interval
    (calls : list Performance.LogCall) :
  let self := Performance.log_all Performance.init calls in
  Forall (fun c => 0 <= Performance.call_fps c
                   /\ 0 <= Performance.call_processing_time c) calls ->
  match Performance.performance_score (Performance.get_optimization_status self) with
  | Some score =>
    (10 <= length (Performance.performance_history self))%nat
    /\ 0 <= score <= 1
  | None => (length (Performance.performance_history self) < 10)%nat
  end.
Proof.
  intros self Hcalls.
  destruct (log_all_consistent calls Performance.init init_consistent_log)
    as (_ & _ & _ & Htarget & _).
  fold self in Htarget.
  unfold Performance.get_optimization_status.
  destruct (length (Performance.performance_history self) <? 10)%nat eqn:Hten.
  - apply Nat.ltb_lt in Hten. exact Hten.
  - apply Nat.ltb_ge in Hten. cbn [Performance.performance_score].
    split; [exact Hten|].
    apply score_bounds; [exact Htarget| |].
    + apply last_n_nonempty; [lia|].
      destruct (Performance.performance_history self); [simpl in Hten; lia|done].
    + apply last_n_Forall.
      apply (log_all_samples (fun f p => 0 <= f /\ 0 <= p)); [|exact Hcalls].
      constructor.
Qed.

Lemma reported_performance_score_in_unit_interval_witness :
  let calls :=
    map (fun k => {| Performance.call_processing_time := 40;
                     Performance.call_fps := 24;
                     Performance.call_time := inject_Z (Z.of_nat k);
                     Performance.call_sample_time := inject_Z (Z.of_nat k);
                     Performance.call_csv_time := inject_Z (Z.of_nat k) |})
        (seq 1 12) in
  exists score,
    Performance.performance_score
      (Performance.get_optimization_status
         (Performance.log_all Performance.init calls)) = Some score
    /\ 0 <= score <= 1.
Proof.
  intros calls.
  assert (Hcalls : Forall (fun c => 0 <= Performance.call_fps c
                                    /\ 0 <= Performance.call_processing_time c)
                          calls).
  { apply Forall_map, Forall_forall. intros k _. simpl. lra. }
  pose proof (reported_performance_score_in_unit_interval calls Hcalls) as Hscore.
  cbv zeta in Hscore.
  destruct (Performance.performance_score _) as [score|] eqn:Hreported.
  - exists score. split; [reflexivity | apply Hscore].
  - vm_compute in Hreported. discriminate.
Defined.

(** X27.  A logged call after which the history has at least 30 samples
    decides the optimisation flag from the newest 30: when each of them has a
    frame rate below 15 the flag is on afterwards, and when each has a frame
    rate above 18 and a processing time below 100 ms the flag is off. *)
Theorem newest_thirty_samples_set_the_flag
    (calls : list Performance.LogCall) (c : Performance.LogCall) :
  let before := Performance.log_all Performance.init calls in
  let after := Performance.log_call before c in
  let newest := Performance.last_n 30 (Performance.performance_history after) in
  Performance._log_interval before
  <= Performance.call_time c - Performance._last_log_time before ->
  (30 <= length (Performance.performance_history after))%nat ->
  (Forall (fun p => Performance.fps p < 15) newest ->
   Performance.optimization_active after = true)
  /\ (Forall (fun p => 18 < Performance.fps p
                       /\ Performance.processing_time p < 100) newest ->
      Performance.optimization_active after = false).
Proof.
  intros before after newest Hlate Hthirty.
  destruct (log_all_consistent calls Performance.init init_consistent_log)
    as (_ & _ & _ & _ & Hmin).
  fold before in Hmin.
  apply py_lt_false in Hlate.
  subst newest after. revert Hthirty.
  unfold Performance.log_call, Performance.log_performance. rewrite Hlate.
  set (logged := Performance.store_sample _ _ _ _ _).
  unfold Performance._log_to_csv.
  cbn [Performance.performance_history Performance.optimization_active].
  destruct (30 <=? length (Performance.performance_history logged))%nat eqn:Hcheck.
  2: { destruct (check_sets_the_flag logged) as [flag _].
       apply Nat.leb_gt in Hcheck. intros Hthirty. lia. }
  destruct (check_sets_the_flag logged) as [flag Hflag].
  assert (Hsame : Performance.performance_history
                    (Performance._check_performance_issues logged)
                  = Performance.performance_history logged)
    by now rewrite Hflag.
  rewrite Hsame. intros Hthirty.
  set (newest := Performance.last_n 30 (Performance.performance_history logged)).
  assert (Hne : newest <> []).
  { apply last_n_nonempty; [lia|].
    destruct (Performance.performance_history logged); [simpl in Hthirty; lia|done]. }
  unfold Performance._check_performance_issues. fold newest.
  replace (Performance.min_fps logged) with (Performance.min_fps before)
    by reflexivity.
  rewrite Hmin. split.
  - intros Hslow.
    assert (Hmean : Performance.mean (map Performance.fps newest) < 15).
    { apply mean_below; [now apply map_nonempty|]. now apply Forall_map. }
    apply py_lt_true in Hmean. rewrite Hmean. cbn [orb].
    unfold Performance._activate_optimization.
    destruct (Performance.optimization_active logged) eqn:Hactive;
      [exact Hactive | reflexivity].
  - intros Hfast.
    assert (Hfps : 18 < Performance.mean (map Performance.fps newest)).
    { apply mean_above; [now apply map_nonempty|]. apply Forall_map.
      eapply Forall_impl; [exact Hfast|]. now intros p [? ?]. }
    assert (Htime : Performance.mean (map Performance.processing_time newest) < 100).
    { apply mean_below; [now apply map_nonempty|]. apply Forall_map.
      eapply Forall_impl; [exact Hfast|]. now intros p [? ?]. }
    assert (Hnot_slow : Py.lt (Performance.mean (map Performance.fps newest)) 15
                        = false) by (apply py_lt_false; lra).
    assert (Hnot_long :
              Py.gt (Performance.mean (map Performance.processing_time newest)) 200
              = false) by (apply py_gt_false; lra).
    assert (Hquick : Py.gt (Performance.mean (map Performance.fps newest))
                           (15 * (12 # 10)) = true)
      by (apply py_gt_true; lra).
    apply py_lt_true in Htime.
    rewrite Hnot_slow, Hnot_long, Hquick, Htime. cbn [orb andb].
    unfold Performance._deactivate_optimization.
    destruct (Performance.optimization_active logged) eqn:Hactive;
      [reflexivity | exact Hactive].
Qed.

Lemma newest_thirty_samples_set_the_flag_witness :
  let slow k :=
    {| Performance.call_processing_time := 90;
       Performance.call_fps := 10;
       Performance.call_time := inject_Z (Z.of_nat k);
       Performance.call_sample_time := inject_Z (Z.of_nat k);
       Performance.call_csv_time := inject_Z (Z.of_nat k) |} in
  Performance.optimization_active
    (Performance.log_call
       (Performance.log_all Performance.init (map slow (seq 1 29))) (slow 30%nat))
  = true.
Proof.
  intros slow.
  destruct (newest_thirty_samples_set_the_flag (map slow (seq 1 29)) (slow 30%nat))
    as (Hon & _).
  - vm_compute. discriminate.
  - vm_compute. lia.
  - apply Hon. vm_compute. repeat constructor.
Defined.

(** X28.  [save_session_summary] writes a summary exactly when a frame was
    counted.  Its "total_frames" is the frame count, never less than the
    number of samples kept, and its "optimization_activations" is the number
    of samples kept when the flag is on at that moment and 0 otherwise: it
    does not count how often optimisation was switched on. *)
Theorem session_summary_counts (calls : list Performance.LogCall) :
  let self := Performance.log_all Performance.init calls in
  match Performance.save_session_summary self with
  | None => Performance.total_frame_count self = 0%nat
  | Some summary =>
    (0 < Performance.total_frame_count self)%nat
    /\ Performance.total_frames summary = Performance.total_frame_count self
    /\ (length (Performance.performance_history self)
        <= Performance.total_frames summary)%nat
    /\ Performance.optimization_activations summary
       = (if Performance.optimization_active self
          then length (Performance.performance_history self) else 0%nat)
  end.
Proof.
  intros self.
  destruct (log_all_consistent calls Performance.init init_consistent_log)
    as (Hhistory & _).
  fold self in Hhistory. unfold Performance.history_maxlen in Hhistory.
  unfold Performance.save_session_summary.
  destruct (Performance.performance_history self) as [|first rest] eqn:Hsamples.
  - simpl in Hhistory. lia.
  - cbn [Performance.total_frames Performance.optimization_activations].
    split; [simpl in Hhistory; lia|]. split; [reflexivity|].
    split; [lia|].
    destruct (Performance.optimization_active self).
    + f_equal. apply filter_all. apply Forall_forall. now intros.
    + clear. induction (first :: rest) as [|p l IH]; [reflexivity | exact IH].
Qed.

(** ** Shared calibration data *)

Section CalibrationFacts.

Import Calibration.

Lemma call_keeps_data (self : Calibration.t) (c : Call) :
  is_Some (shared_calibration_data self) ->
  is_Some (shared_calibration_data (call self c)).
Proof.
  intros Hdata. destruct c as [is_same|data]; simpl; [exact Hdata|].
  unfold save_calibration_data. destruct (is_same_driver self); simpl; eauto.
Qed.

Lemma run_keeps_data (calls : list Call) (self : Calibration.t) :
  is_Some (shared_calibration_data self) ->
  is_Some (shared_calibration_data (run self calls)).
Proof.
  revert self. induction calls as [|c calls IH]; intros self Hdata; [exact Hdata|].
  unfold run in *. simpl. apply IH. now apply call_keeps_data.
Qed.

Lemma run_stores_saved_data (calls : list Call) (self : Calibration.t) (data : Data) :
  shared_calibration_data (run self calls) = Some data ->
  shared_calibration_data self = Some data
  \/ In (SaveCalibrationData data) calls.
Proof.
  revert self. induction calls as [|c calls IH]; intros self Hdata; [now left|].
  unfold run in *. simpl in Hdata. apply IH in Hdata as [Hdata|Hin];
    [|right; now right].
  destruct c as [is_same|saved]; simpl in Hdata; [now left|].
  unfold save_calibration_data in Hdata.
  destruct (is_same_driver self); [|now left].
  simpl in Hdata. injection Hdata as ->. right. now left.
Qed.

End CalibrationFacts.

(** X29.  The engine takes shared calibration data, and leaves calibration
    mode for it, exactly when calibration is enabled, a manager is given, the
    manager is set to the same driver and holds data that is not empty;
    otherwise its calibration mode is the [enable_calibration] argument.  The
    manager holds only data that [save_calibration_data] was called with,
    and never loses what it holds, also not when the driver changes.  The
    manager that [DMSApp.__init__] creates holds none, so the engine that
    [DMSApp.initialize] constructs never skips calibration. *)
Theorem calibration_is_skipped_for_shared_data_only
    (manager : option Calibration.t) (enable_calibration : bool)
    (calls : list Calibration.Call)
    (source : App.InputSource) (user : string) (same_driver : bool) :
  let engine := EngineInit.init manager enable_calibration in
  (forall data,
     EngineInit.safe_zone engine = Some data
     <-> enable_calibration = true
         /\ exists m, manager = Some m
                      /\ Calibration.is_same_driver m = true
                      /\ Calibration.shared_calibration_data m = Some data
                      /\ data <> ∅)
  /\ EngineInit.calibration_mode engine
     = match EngineInit.safe_zone engine with
       | Some _ => false
       | None => enable_calibration
       end
  /\ (forall data,
        Calibration.shared_calibration_data
          (Calibration.run Calibration.init calls) = Some data ->
        In (Calibration.SaveCalibrationData data) calls)
  /\ (forall m,
        is_Some (Calibration.shared_calibration_data m) ->
        is_Some (Calibration.shared_calibration_data (Calibration.run m calls)))
  /\ App.initialize_engine (App.init source user enable_calibration same_driver)
     = {| EngineInit.calibration_mode := enable_calibration;
          EngineInit.safe_zone := None |}.
Proof.
  intros engine. subst engine. split; [|split; [|split; [|split]]].
  - intros data.
    unfold EngineInit.init, Calibration.should_skip_calibration,
      Calibration.get_shared_calibration_data.
    destruct manager as [[same shared]|]; simpl.
    2: { split; [discriminate | intros (_ & m & Hm & _); discriminate]. }
    destruct enable_calibration, same, shared as [d|]; simpl;
      try case_bool_decide; simpl;
      (split;
       [ intros Heq;
         first [ discriminate
               | injection Heq as <-; split; [reflexivity|]; eexists;
                 repeat split; (reflexivity || assumption) ]
       | intros (Henable & m & Hm & Hsame & Hshared & Hne);
         injection Hm as <-; simpl in *; congruence ]).
  - unfold EngineInit.init, Calibration.should_skip_calibration,
      Calibration.get_shared_calibration_data.
    destruct manager as [[same shared]|]; simpl; [|reflexivity].
    destruct enable_calibration, same, shared as [d|]; simpl;
      try case_bool_decide; reflexivity.
  - intros data Hdata.
    apply run_stores_saved_data in Hdata as [Hdata|Hin];
      [discriminate | exact Hin].
  - intros m. apply run_keeps_data.
  - unfold App.initialize_engine, App.init. simpl.
    destruct (App.several_videos source), enable_calibration, same_driver;
      reflexivity.
Qed.

(** ** Keyboard input *)

Section Keys.

Import App.

Lemma low_byte (key : Z) : Z.land key 255 = (key mod 256)%Z.
Proof. change 255%Z with (Z.ones 8). now rewrite Z.land_ones. Qed.

Lemma low_byte_twice (key : Z) : Z.land (key mod 256) 255 = Z.land key 255.
Proof. rewrite !low_byte. apply Z.mod_mod. lia. Qed.

Lemma set_paused_twice (self : App.t) :
  set_paused (set_paused self (negb (paused self))) (paused self) = self.
Proof. now destruct self. Qed.

End Keys.

(** X30.  [_handle_keyboard_input] reads the low byte of the key code only.
    It answers False, and changes nothing, exactly for "q" (113) and Escape
    (27) there; the pause flag changes exactly for the space bar (32), and a
    second space restores the application; the code -1 that stands for no
    key does nothing. *)
Theorem keyboard_input_reads_the_low_byte (self : App.t) (key : Z) :
  let result := App._handle_keyboard_input self key in
  result = App._handle_keyboard_input self (key mod 256)
  /\ (App.continue result = false
      <-> (key mod 256 = 113 \/ key mod 256 = 27)%Z)
  /\ (App.continue result = false ->
      App.app result = self /\ App.saved_frame result = None)
  /\ (App.paused (App.app result) <> App.paused self <-> (key mod 256 = 32)%Z)
  /\ ((key mod 256 = 32)%Z ->
      App.app (App._handle_keyboard_input (App.app result) key) = self)
  /\ App._handle_keyboard_input self (-1)
     = {| App.continue := true; App.app := self; App.saved_frame := None |}.
Proof.
  intros result. subst result. unfold App._handle_keyboard_input.
  rewrite low_byte_twice, !low_byte.
  set (k := (key mod 256)%Z).
  repeat match goal with
         | |- context [App.ord ?c] =>
             let code := eval vm_compute in (App.ord c) in
             change (App.ord c) with code
         end.
  split; [reflexivity|].
  destruct (k =? 113)%Z eqn:Hq; [apply Z.eqb_eq in Hq|apply Z.eqb_neq in Hq].
  { cbn [orb App.continue App.app App.saved_frame App.paused].
    repeat split; try tauto; try lia; try (intros; lia). }
  destruct (k =? 27)%Z eqn:Hesc; [apply Z.eqb_eq in Hesc|apply Z.eqb_neq in Hesc].
  { cbn [orb App.continue App.app App.saved_frame App.paused].
    repeat split; try tauto; try lia; try (intros; lia). }
  cbn [orb].
  destruct (k =? 32)%Z eqn:Hspace;
    [apply Z.eqb_eq in Hspace|apply Z.eqb_neq in Hspace].
  { cbn [App.continue App.app App.saved_frame App.paused].
    repeat split; try discriminate; try (intros; lia); try (intros [?|?]; lia).
    - intros _. simpl. now destruct (App.paused self).
    - intros _. simpl. rewrite negb_involutive. apply set_paused_twice. }
  assert (Hkeep : forall r,
            App.continue r = true -> App.paused (App.app r) = App.paused self ->
            (App.continue r = false <-> (k = 113 \/ k = 27)%Z)
            /\ (App.continue r = false ->
                App.app r = self /\ App.saved_frame r = None)
            /\ (App.paused (App.app r) <> App.paused self <-> (k = 32)%Z)).
  { intros r Hcontinue Hpaused. rewrite Hcontinue, Hpaused.
    repeat split; try discriminate; try tauto; try lia; intros [?|?]; lia. }
  assert (Hrest : forall P Q R S T, P /\ Q /\ R -> (S /\ T) -> P /\ Q /\ R /\ S /\ T)
    by tauto.
  apply Hrest; [|split; [intros; lia | reflexivity]].
  destruct (_ && _); [now apply Hkeep|].
  destruct (k =? 114)%Z; [now apply Hkeep|].
  destruct (k =? 105)%Z; now apply Hkeep.
Qed.
